(** * Hospital admission forecasting: the [AdmissionPredictor] class

    A shallow embedding of [src/prediction/admission_predictor.py] and
    the properties of its daily aggregate, model selection, forecast and
    busy-period threshold; with it, [DataLoader._get_date_range],
    [AdmissionAnalyzer._categorize_age] and
    [ChartGenerator.create_admission_prediction_chart].

    Conventions of the embedding.
    - A pandas [Timestamp] produced by the format [%d/%m/%Y] is a
      midnight; it is the number of days since 1970-01-01, a [Z].
      [NaT] is [None].  Adding days to a date is exact: the end of the
      range of [Timestamp], in the year 2262, is not modelled.
    - A float is a rational [Q] and its arithmetic is exact; a float that
      may be missing ([NaN]) is an [option Q].  Integer columns are [Z].
    - A Python call either returns or raises: [result].  An exception is
      named by its class.
    - DataFrames that are bound to an attribute or written in place live
      in a store of objects, addressed by reference.
    - pandas, numpy and scikit-learn are outside the repository.  The
      operations of pandas and numpy that the class uses are modelled
      from their documented behaviour; the estimators of scikit-learn
      are parameters: any functions, with predictions that are numbers. *)

From Stdlib Require Import ZArith QArith Qround Qabs List String Ascii Lia Lqa Bool.
From stdpp Require Import gmap strings list sorting.

Import ListNotations.
Local Open Scope Z_scope.

(** ** Results of Python calls *)

Inductive result (A : Type) : Type :=
| Returned (a : A)
| Raised (exc : string).
Arguments Returned {A} a.
Arguments Raised {A} exc.

Definition rbind {A B} (r : result A) (k : A -> result B) : result B :=
  match r with
  | Returned a => k a
  | Raised e => Raised e
  end.

Notation "'let*' x ':=' r 'in' k" := (rbind r (fun x => k))
  (at level 10, x name, r at level 100, k at level 200).

(** ** The calendar *)

Module Calendar.

Definition is_leap (y : Z) : bool :=
  ((y mod 4 =? 0) && negb (y mod 100 =? 0)) || (y mod 400 =? 0).

Definition days_in_month (y m : Z) : Z :=
  if m =? 2 then (if is_leap y then 29 else 28)
  else if (m =? 4) || (m =? 6) || (m =? 9) || (m =? 11) then 30
  else 31.

(** Day number of the civil date [y-m-d]; 1970-01-01 is day 0. *)
Definition days_from_civil (y m d : Z) : Z :=
  let y' := if m <=? 2 then y - 1 else y in
  let era := y' / 400 in
  let yoe := y' - era * 400 in
  let doy := (153 * (if 2 <? m then m - 3 else m + 9) + 2) / 5 + d - 1 in
  let doe := yoe * 365 + yoe / 4 - yoe / 100 + doy in
  era * 146097 + doe - 719468.

(** The civil date (year, month, day) of a day number. *)
Definition civil_from_days (z : Z) : Z * Z * Z :=
  let z := z + 719468 in
  let era := z / 146097 in
  let doe := z - era * 146097 in
  let yoe := (doe - doe / 1460 + doe / 36524 - doe / 146096) / 365 in
  let y := yoe + era * 400 in
  let doy := doe - (365 * yoe + yoe / 4 - yoe / 100) in
  let mp := (5 * doy + 2) / 153 in
  let d := doy - (153 * mp + 2) / 5 + 1 in
  let m := if mp <? 10 then mp + 3 else mp - 9 in
  (if m <=? 2 then y + 1 else y, m, d).

Definition year (t : Z) : Z := fst (fst (civil_from_days t)).
Definition month (t : Z) : Z := snd (fst (civil_from_days t)).
Definition day (t : Z) : Z := snd (civil_from_days t).

(** [weekday()] and [dt.dayofweek]: Monday is 0.  Day 0 was a Thursday. *)
Definition weekday (t : Z) : Z := (t + 3) mod 7.

(** [tm_yday] and [dt.dayofyear]: 1 on the first of January. *)
Definition dayofyear (t : Z) : Z := t - days_from_civil (year t) 1 1 + 1.

(** A year has 53 ISO weeks when it starts on a Thursday, or on a
    Wednesday and is a leap year. *)
Definition iso_long_year (y : Z) : bool :=
  let jan1 := weekday (days_from_civil y 1 1) in
  (jan1 =? 3) || ((jan1 =? 2) && is_leap y).

(** [isocalendar()[1]] and [dt.isocalendar().week]. *)
Definition isoweek (t : Z) : Z :=
  let y := year t in
  let w := (dayofyear t - (weekday t + 1) + 10) / 7 in
  if w <? 1 then (if iso_long_year (y - 1) then 53 else 52)
  else if (w =? 53) && negb (iso_long_year y) then 1
  else w.

(** [strftime('%Y-%m-%d')]. *)
Definition digit (n : Z) : ascii := ascii_of_nat (48 + Z.to_nat (n mod 10)).

Fixpoint digits_above (fuel : nat) (n : Z) (acc : string) : string :=
  match fuel with
  | O => acc
  | S fuel' =>
      if n <=? 0 then acc
      else digits_above fuel' (n / 10) (String (digit n) acc)
  end.

Definition pad2 (n : Z) : string :=
  String (digit (n / 10)) (String (digit n) EmptyString).

Definition pad4 (n : Z) : string :=
  digits_above (Z.to_nat n) (n / 10000)
    (String (digit (n / 1000)) (String (digit (n / 100)) (pad2 n))).

Definition strftime_ymd (t : Z) : string :=
  (pad4 (year t) ++ "-" ++ pad2 (month t) ++ "-" ++ pad2 (day t))%string.

(** The first and the last midnight a nanosecond [Timestamp] holds:
    1677-09-22 and 2262-04-11. *)
Definition timestamp_min : Z := days_from_civil 1677 9 22.
Definition timestamp_max : Z := days_from_civil 2262 4 11.

(** *** [pd.to_datetime(.., format='%d/%m/%Y', errors='coerce')] on one text *)

Definition digit_value (c : ascii) : option Z :=
  let n := Z.of_nat (nat_of_ascii c) in
  if (48 <=? n) && (n <=? 57) then Some (n - 48) else None.

Fixpoint number_of (s : list ascii) (acc : Z) : option Z :=
  match s with
  | [] => Some acc
  | c :: s' =>
      match digit_value c with
      | Some v => number_of s' (10 * acc + v)
      | None => None
      end
  end.

(** Splits at the first ['/']. *)
Fixpoint split_slash (s : list ascii) : list ascii * option (list ascii) :=
  match s with
  | [] => ([], None)
  | c :: s' =>
      if Ascii.eqb c "/"%char then ([], Some s')
      else let '(a, b) := split_slash s' in (c :: a, b)
  end.

Definition field (lo hi : nat) (s : list ascii) : option Z :=
  if (Nat.leb lo (List.length s)) && (Nat.leb (List.length s) hi)
  then number_of s 0 else None.

Definition parse_dmy (s : string) : option Z :=
  let '(ds, r1) := split_slash (list_ascii_of_string s) in
  match r1 with
  | None => None
  | Some r1 =>
      let '(ms, r2) := split_slash r1 in
      match r2 with
      | None => None
      | Some ys =>
          match field 1 2 ds, field 1 2 ms, field 4 4 ys with
          | Some d, Some m, Some y =>
              if (1 <=? m) && (m <=? 12) && (1 <=? d) && (d <=? days_in_month y m)
              then
                let t := days_from_civil y m d in
                if (timestamp_min <=? t) && (t <=? timestamp_max)
                then Some t else None
              else None
          | _, _, _ => None
          end
      end
  end.

End Calendar.

(** ** Series and DataFrames *)

(** A column of a DataFrame: texts (an object column), timestamps, or
    numbers; a missing entry ([None], [NaT], [NaN]) is [None]. *)
Inductive column : Type :=
| ColText (l : list (option string))
| ColDate (l : list (option Z))
| ColNum (l : list (option Q)).

(** One row of [self.daily_admissions], column by column. *)
Record DailyRow : Type := mkDailyRow {
  admission_date : Z;
  admission_count : Z;
  year : Z;
  month : Z;
  day : Z;
  day_of_week : Z;
  day_of_year : Z;
  week_of_year : Z;
  is_weekend : Z;
  season : Z;
  admission_count_lag_1 : option Q;
  admission_count_lag_3 : option Q;
  admission_count_lag_7 : option Q;
  admission_count_lag_14 : option Q;
  admission_count_lag_30 : option Q;
  admission_count_rolling_3 : option Q;
  admission_count_rolling_7 : option Q;
  admission_count_rolling_14 : option Q;
  admission_count_rolling_30 : option Q
}.

(** The objects of the store: a DataFrame of named columns (the caller's
    table and [self.data]), the frame of [groupby(..).size()] with its
    columns [admission_date] and [admission_count], and the frame of
    daily rows. *)
Inductive pyobj : Type :=
| OFrame (cols : gmap string column)
| OCounts (rows : list (Z * Z))
| ODaily (rows : list DailyRow).

Abbreviation loc := positive.
Abbreviation store := (gmap positive pyobj).

(** A method runs on the store and returns or raises. *)
Definition M (A : Type) : Type := store -> result A * store.

Definition mret {A} (a : A) : M A := fun h => (Returned a, h).

Definition mraise {A} (exc : string) : M A := fun h => (Raised exc, h).

Definition mbind_M {A B} (m : M A) (k : A -> M B) : M B :=
  fun h =>
    match m h with
    | (Returned a, h') => k a h'
    | (Raised e, h') => (Raised e, h')
    end.

Notation "'let+' x ':=' m 'in' k" := (mbind_M m (fun x => k))
  (at level 10, x name, m at level 100, k at level 200).

Definition lift {A} (r : result A) : M A := fun h => (r, h).

(** A new object at a reference that is not in use. *)
Definition alloc (o : pyobj) : M loc :=
  fun h => let l := fresh (dom h) in (Returned l, <[l := o]> h).

Definition read (l : loc) : M pyobj :=
  fun h =>
    match h !! l with
    | Some o => (Returned o, h)
    | None => (Raised "ReferenceError", h)
    end.

(** [df.copy()]: a new object with the same contents. *)
Definition copy (l : loc) : M loc :=
  let+ o := read l in alloc o.

(** [df[name]] *)
Definition getitem (l : loc) (name : string) : M column :=
  let+ o := read l in
  match o with
  | OFrame cols =>
      match cols !! name with
      | Some c => mret c
      | None => mraise "KeyError"
      end
  | _ => mraise "KeyError"
  end.

(** [df[name] = c]: written in place, into the object at [l]. *)
Definition setitem (l : loc) (name : string) (c : column) : M unit :=
  let+ o := read l in
  match o with
  | OFrame cols => fun h => (Returned tt, <[l := OFrame (<[name := c]> cols)]> h)
  | _ => mraise "TypeError"
  end.

(** [pd.to_datetime(col, format='%d/%m/%Y', errors='coerce')]: what does
    not parse becomes [NaT]; a number never has the form. *)
Definition to_datetime (c : column) : list (option Z) :=
  match c with
  | ColText l => map (fun o => o ≫= Calendar.parse_dmy) l
  | ColDate l => l
  | ColNum l => map (fun _ => None) l
  end.

(** The [.dt] accessor of a timestamp column. *)
Definition dt (c : column) : M (list (option Z)) :=
  match c with
  | ColDate l => mret l
  | _ => mraise "AttributeError"
  end.

Definition numbers (c : column) : M (list (option Q)) :=
  match c with
  | ColNum l => mret l
  | _ => mraise "TypeError"
  end.

(** A field of every timestamp; [NaN] at [NaT]. *)
Definition dt_field (f : Z -> Z) (l : list (option Z)) : column :=
  ColNum (map (fun o => (fun t => inject_Z (f t)) <$> o) l).

Definition Qeqb_Z (x : Q) (n : Z) : bool := Qeq_bool x (inject_Z n).

(** [_get_season]; a [NaN] month is in none of the lists. *)
Definition _get_season (month : option Q) : Z :=
  match month with
  | None => 3
  | Some m =>
      if Qeqb_Z m 12 || Qeqb_Z m 1 || Qeqb_Z m 2 then 0
      else if Qeqb_Z m 3 || Qeqb_Z m 4 || Qeqb_Z m 5 then 1
      else if Qeqb_Z m 6 || Qeqb_Z m 7 || Qeqb_Z m 8 then 2
      else 3
  end.

Definition int_column (l : list Z) : column :=
  ColNum (map (fun n => Some (inject_Z n)) l).

(** [Series.unique()], in order of first appearance; all [NaN] are one. *)
Fixpoint unique (seen : list (option Z)) (l : list (option Z)) : list (option Z) :=
  match l with
  | [] => []
  | x :: l' =>
      if bool_decide (x ∈ seen) then unique seen l'
      else x :: unique (x :: seen) l'
  end.

Definition Qtrunc (x : Q) : Z := Z.quot (Qnum x) (Zpos (Qden x)).

(** [_create_holiday_indicator] *)
Definition _create_holiday_indicator (data : loc) : M column :=
  let+ ycol := getitem data "year" in
  let+ years := numbers ycol in
  let holidays :=
    concat (map (fun y =>
                   match y with
                   | Some y =>
                       [Calendar.days_from_civil y 1 1;
                        Calendar.days_from_civil y 8 15;
                        Calendar.days_from_civil y 10 2]
                   | None => []
                   end)
                (unique [] (map (fun o => Qtrunc <$> o) years))) in
  let+ dcol := getitem data "admission_date" in
  let+ dates := dt dcol in
  mret (int_column
          (map (fun o =>
                  match o with
                  | Some t => if bool_decide (t ∈ holidays) then 1 else 0
                  | None => 0
                  end) dates)).

(** [groupby('admission_date').size().reset_index(name='admission_count')]:
    one row per distinct date of the column, in increasing order of date,
    with the number of rows of that date; rows at [NaT] belong to no
    group. *)
Fixpoint bump (k : Z) (groups : list (Z * Z)) : list (Z * Z) :=
  match groups with
  | [] => [(k, 1)]
  | (k', c) :: rest =>
      if k <? k' then (k, 1) :: groups
      else if k =? k' then (k', c + 1) :: rest
      else (k', c) :: bump k rest
  end.

Definition groupby_size (dates : list (option Z)) : list (Z * Z) :=
  fold_left (fun groups d =>
               match d with
               | Some k => bump k groups
               | None => groups
               end) dates [].

(** [Series.mean()]: [NaN] on an empty series. *)
Definition Qsum (l : list Q) : Q := fold_right Qplus 0%Q l.

Definition mean (l : list Q) : option Q :=
  match l with
  | [] => None
  | _ => Some (Qsum l / inject_Z (Z.of_nat (length l)))%Q
  end.

(** [Series.shift(k)]: the value [k] rows earlier. *)
Definition shift (k : nat) (l : list Z) : list (option Q) :=
  take (length l) (replicate k None ++ map (fun c => Some (inject_Z c)) l).

(** [Series.rolling(window=w).mean()]: the mean of the [w] rows ending at
    the row, once there are [w] of them. *)
Definition rolling_mean (w : nat) (l : list Z) : list (option Q) :=
  map (fun i =>
         if (S i <? w)%nat then None
         else mean (map inject_Z (take w (drop (S i - w) l))))
      (seq 0 (length l)).

Definition nth_float (l : list (option Q)) (i : nat) : option Q :=
  default None (l !! i).

(** [_add_temporal_features] on the rows of a [groupby] frame. *)
Definition temporal_features (rows : list (Z * Z)) : list DailyRow :=
  let counts := map snd rows in
  let lag k := shift k counts in
  let roll w := rolling_mean w counts in
  imap (fun i '(t, c) =>
          let dow := Calendar.weekday t in
          let m := Calendar.month t in
          {| admission_date := t;
             admission_count := c;
             year := Calendar.year t;
             month := m;
             day := Calendar.day t;
             day_of_week := dow;
             day_of_year := Calendar.dayofyear t;
             week_of_year := Calendar.isoweek t;
             is_weekend := if 5 <=? dow then 1 else 0;
             season := _get_season (Some (inject_Z m));
             admission_count_lag_1 := nth_float (lag 1%nat) i;
             admission_count_lag_3 := nth_float (lag 3%nat) i;
             admission_count_lag_7 := nth_float (lag 7%nat) i;
             admission_count_lag_14 := nth_float (lag 14%nat) i;
             admission_count_lag_30 := nth_float (lag 30%nat) i;
             admission_count_rolling_3 := nth_float (roll 3%nat) i;
             admission_count_rolling_7 := nth_float (roll 7%nat) i;
             admission_count_rolling_14 := nth_float (roll 14%nat) i;
             admission_count_rolling_30 := nth_float (roll 30%nat) i |})
       rows.

(** [_add_temporal_features(df)]: works on a copy of [df]. *)
Definition _add_temporal_features (df : loc) : M loc :=
  let+ df := copy df in
  let+ o := read df in
  match o with
  | OCounts rows =>
      fun h => (Returned df, <[df := ODaily (temporal_features rows)]> h)
  | _ => mraise "KeyError"
  end.

(** [_prepare_data], on [self.data]; returns [self.daily_admissions]. *)
Definition _prepare_data (data : loc) : M loc :=
  let+ doa := getitem data "D.O.A" in
  let+ _ := setitem data "admission_date" (ColDate (to_datetime doa)) in
  let+ dod := getitem data "D.O.D" in
  let+ _ := setitem data "discharge_date" (ColDate (to_datetime dod)) in
  let+ c := getitem data "admission_date" in
  let+ dates := dt c in
  let+ _ := setitem data "year" (dt_field Calendar.year dates) in
  let+ _ := setitem data "month" (dt_field Calendar.month dates) in
  let+ _ := setitem data "day" (dt_field Calendar.day dates) in
  let+ _ := setitem data "day_of_week" (dt_field Calendar.weekday dates) in
  let+ _ := setitem data "day_of_year" (dt_field Calendar.dayofyear dates) in
  let+ _ := setitem data "week_of_year" (dt_field Calendar.isoweek dates) in
  let+ c := getitem data "day_of_week" in
  let+ dows := numbers c in
  let+ _ := setitem data "is_weekend"
              (int_column (map (fun o =>
                                  match o with
                                  | Some d => if Qle_bool 5 d then 1 else 0
                                  | None => 0
                                  end) dows)) in
  let+ c := getitem data "month" in
  let+ months := numbers c in
  let+ _ := setitem data "season" (int_column (map _get_season months)) in
  let+ holiday := _create_holiday_indicator data in
  let+ _ := setitem data "is_holiday" holiday in
  let+ c := getitem data "admission_date" in
  let+ dates := dt c in
  let+ daily := alloc (OCounts (groupby_size dates)) in
  _add_temporal_features daily.

(** An [AdmissionPredictor]: references to its two frames. *)
Record AdmissionPredictor : Type := mkPredictor {
  data : loc;
  daily_admissions : loc
}.

Definition __init__ (admission_data : loc) : M AdmissionPredictor :=
  let+ data := copy admission_data in
  let+ daily := _prepare_data data in
  mret {| data := data; daily_admissions := daily |}.

(** [self.daily_admissions] as rows. *)
Definition daily_rows (self : AdmissionPredictor) : M (list DailyRow) :=
  let+ o := read (daily_admissions self) in
  match o with
  | ODaily rows => mret rows
  | _ => mraise "KeyError"
  end.

(** ** Constants of [config.py] *)

Definition RANDOM_STATE : Z := 42.
Definition TEST_SIZE : Q := 2 # 10.

(** ** The estimators of scikit-learn

    The library is outside the repository: an estimator is any object
    with [fit], a fitted model any object with [predict] and, for some,
    [feature_importances_]. *)

Record Trained : Type := mkTrained {
  predict : list Q -> Q;
  feature_importances_ : option (list Q)
}.

Record Estimator : Type := mkEstimator {
  fit : list (list Q) -> list Q -> Trained
}.

Class Sklearn : Type := mkSklearn {
  RandomForestRegressor : forall (n_estimators random_state : Z), Estimator;
  GradientBoostingRegressor : forall (n_estimators random_state : Z), Estimator;
  LinearRegression : Estimator
}.

(** The estimators reject a matrix that holds a [NaN]. *)
Definition check_array (X : list (list (option Q))) : result (list (list Q)) :=
  match mapM (mapM id) X with
  | Some X' => Returned X'
  | None => Raised "ValueError"
  end.

Definition Qceiling_nat (x : Q) : nat := Z.to_nat (Qceiling x).

(** [train_test_split(X, y, test_size=.., shuffle=False)]: the last
    [ceil(test_size * n)] rows are the test set. *)
Definition train_test_split {A B} (X : list A) (y : list B) (test_size : Q)
  : result (list A * list A * list B * list B) :=
  let n := length X in
  let n_test := Qceiling_nat (test_size * inject_Z (Z.of_nat n)) in
  let n_train := (n - n_test)%nat in
  if (n_train =? 0)%nat then Raised "ValueError"
  else Returned (take n_train X, drop n_train X, take n_train y, drop n_train y).

Definition metric_mean (l : list Q) : result Q :=
  match mean l with
  | Some m => Returned m
  | None => Raised "ValueError"
  end.

Definition residuals (y_true y_pred : list Q) : list Q :=
  zip_with Qminus y_true y_pred.

Definition Qsquare (x : Q) : Q := (x * x)%Q.

Definition mean_absolute_error (y_true y_pred : list Q) : result Q :=
  metric_mean (map Qabs (residuals y_true y_pred)).

Definition mean_squared_error (y_true y_pred : list Q) : result Q :=
  metric_mean (map Qsquare (residuals y_true y_pred)).

(** [r2_score]: [1 - SS_res / SS_tot]; on a constant [y_true], 1 for an
    exact prediction and 0 otherwise. *)
Definition r2_score (y_true y_pred : list Q) : result Q :=
  let* y_bar := metric_mean y_true in
  let numerator := Qsum (map Qsquare (residuals y_true y_pred)) in
  let denominator := Qsum (map (fun y => Qsquare (y - y_bar)) y_true) in
  Returned (if Qeq_bool denominator 0 then
              (if Qeq_bool numerator 0 then 1 else 0)
            else 1 - numerator / denominator)%Q.

(** ** [predict_daily_admissions] *)

Record ModelResult : Type := mkModelResult {
  model : Trained;
  mae : Q;
  mse : Q;
  r2 : Q;
  predictions : list Q
}.

Record ForecastPoint : Type := mkForecastPoint {
  date : string;
  predicted_admissions : Z
}.

Record Metrics : Type := mkMetrics {
  metrics_mae : Q;
  metrics_mse : Q;
  metrics_r2 : Q;
  metrics_predictions : list Q
}.

Record Forecast : Type := mkForecast {
  best_model : string;
  model_metrics : list (string * Metrics);
  future_predictions : list ForecastPoint;
  feature_importance : list (string * Q)
}.

(** What [predict_daily_admissions] returns: the dictionary with the one
    key ['error'], or the dictionary of a forecast. *)
Inductive DailyPredictions : Type :=
| DictError (error : string)
| DictForecast (f : Forecast).

Definition feature_cols : list string :=
  ["month"; "day_of_week"; "day_of_year"; "week_of_year";
   "is_weekend"; "season"; "admission_count_lag_1";
   "admission_count_lag_3"; "admission_count_lag_7";
   "admission_count_rolling_3"; "admission_count_rolling_7"]%string.

Definition of_int (f : DailyRow -> Z) (r : DailyRow) : option Q :=
  Some (inject_Z (f r)).

(** The numeric columns of [self.daily_admissions], in the order in which
    they are created. *)
Definition daily_columns : list (string * (DailyRow -> option Q)) :=
  [("admission_count", of_int admission_count);
   ("year", of_int year);
   ("month", of_int month);
   ("day", of_int day);
   ("day_of_week", of_int day_of_week);
   ("day_of_year", of_int day_of_year);
   ("week_of_year", of_int week_of_year);
   ("is_weekend", of_int is_weekend);
   ("season", of_int season);
   ("admission_count_lag_1", admission_count_lag_1);
   ("admission_count_lag_3", admission_count_lag_3);
   ("admission_count_lag_7", admission_count_lag_7);
   ("admission_count_lag_14", admission_count_lag_14);
   ("admission_count_lag_30", admission_count_lag_30);
   ("admission_count_rolling_3", admission_count_rolling_3);
   ("admission_count_rolling_7", admission_count_rolling_7);
   ("admission_count_rolling_14", admission_count_rolling_14);
   ("admission_count_rolling_30", admission_count_rolling_30)]%string.

Definition assoc {V} (name : string) (l : list (string * V)) : option V :=
  snd <$> find (fun kv => String.eqb (fst kv) name) l.

(** [df[cols]] on the daily frame, row by row. *)
Definition select_columns (cols : list string) (rows : list DailyRow)
  : result (list (list (option Q))) :=
  match mapM (fun c => assoc c daily_columns) cols with
  | Some fs => Returned (map (fun r => map (fun f => f r) fs) rows)
  | None => Raised "KeyError"
  end.

(** [dropna()]: the rows without a missing entry.  The date, the count
    and the calendar columns of a daily row are never missing. *)
Definition complete (r : DailyRow) : bool :=
  forallb (fun kv => bool_decide (is_Some (snd kv r))) daily_columns.

Definition dropna (rows : list DailyRow) : list DailyRow := filter complete rows.

Definition Qltb (x y : Q) : bool := negb (Qle_bool y x).

(** [max(items, key=..)]: the first of the items with the greatest key. *)
Fixpoint max_from {A} (key : A -> Q) (best : A) (l : list A) : A :=
  match l with
  | [] => best
  | x :: l' => max_from key (if Qltb (key best) (key x) then x else best) l'
  end.

Definition py_max {A} (key : A -> Q) (l : list A) : result A :=
  match l with
  | [] => Raised "ValueError"
  | x :: l' => Returned (max_from key x l')
  end.

(** [round] of a float: to the nearest integer, a half to the even one. *)
Definition py_round (x : Q) : Z :=
  let f := Qfloor x in
  match ((x - inject_Z f) ?= (1 # 2))%Q with
  | Lt => f
  | Gt => f + 1
  | Eq => if Z.even f then f else f + 1
  end.

(** [range(n)] *)
Definition range (n : Z) : list Z := seqZ 0 n.

(** [Series.max()] of the dates: [NaT] on an empty frame. *)
Definition max_date (rows : list DailyRow) : option Z :=
  match rows with
  | [] => None
  | r :: rows' =>
      Some (fold_left (fun m r' => Z.max m (admission_date r')) rows' (admission_date r))
  end.

(** [Series.tail(n)] *)
Definition tail {A} (n : nat) (l : list A) : list A := drop (length l - n) l.

(** The [features] dictionary of one future date. *)
Definition future_features (rows : list DailyRow) (t : Z) : gmap string (option Q) :=
  let i (n : Z) : option Q := Some (inject_Z n) in
  let features : gmap string (option Q) :=
    <["season" := i (_get_season (i (Calendar.month t)))]>
    (<["is_weekend" := i (if 5 <=? Calendar.weekday t then 1 else 0)]>
    (<["week_of_year" := i (Calendar.isoweek t)]>
    (<["day_of_year" := i (Calendar.dayofyear t)]>
    (<["day_of_week" := i (Calendar.weekday t)]>
    (<["month" := i (Calendar.month t)]> ∅))))) in
  let recent_values :=
    mean (map inject_Z (tail 30 (map admission_count rows))) in
  <["admission_count_rolling_7" := recent_values]>
  (<["admission_count_rolling_3" := recent_values]>
  (<["admission_count_lag_7" := recent_values]>
  (<["admission_count_lag_3" := recent_values]>
  (<["admission_count_lag_1" := recent_values]> features)))).

(** [pd.DataFrame([features])[feature_cols]], the one row of it. *)
Definition select_features (cols : list string) (features : gmap string (option Q))
  : result (list (option Q)) :=
  match mapM (fun c => features !! c) cols with
  | Some row => Returned row
  | None => Raised "KeyError"
  end.

(** [model.predict(X_pred)[0]] *)
Definition predict_one (m : Trained) (row : list (option Q)) : result Q :=
  let* X := check_array [row] in
  match X with
  | [x] => Returned (predict m x)
  | _ => Raised "ValueError"
  end.

(** The body of the loop of [_generate_future_predictions], for one
    date.  On an empty frame the dates are [NaT], which has no
    [timetuple]. *)
Definition forecast_point (rows : list DailyRow) (m : Trained) (cols : list string)
    (d : option Z) : result ForecastPoint :=
  match d with
  | None => Raised "ValueError"
  | Some t =>
      let features := future_features rows t in
      let* X_pred := select_features cols features in
      let* prediction := predict_one m X_pred in
      Returned {| date := Calendar.strftime_ymd t;
                  predicted_admissions := Z.max 0 (py_round prediction) |}
  end.

(** The loop; [predictions] is the list it appends to. *)
Fixpoint future_loop (rows : list DailyRow) (m : Trained) (cols : list string)
    (future_dates : list (option Z)) (predictions : list ForecastPoint)
  : result (list ForecastPoint) :=
  match future_dates with
  | [] => Returned predictions
  | d :: rest =>
      let* point := forecast_point rows m cols d in
      future_loop rows m cols rest (predictions ++ [point])
  end.

Definition _generate_future_predictions (rows : list DailyRow) (m : Trained)
    (cols : list string) (days_ahead : Z) : result (list ForecastPoint) :=
  let last_date := max_date rows in
  let future_dates :=
    map (fun i => (fun t => t + (i + 1)) <$> last_date) (range days_ahead) in
  future_loop rows m cols future_dates [].

(** [sorted(.., key=lambda x: x[1], reverse=True)]: decreasing, and stable. *)
Fixpoint insert_desc (x : string * Q) (l : list (string * Q)) : list (string * Q) :=
  match l with
  | [] => [x]
  | y :: l' => if Qltb (snd y) (snd x) then x :: l else y :: insert_desc x l'
  end.

Definition sorted_desc (l : list (string * Q)) : list (string * Q) :=
  fold_left (fun acc x => insert_desc x acc) l [].

Definition _get_feature_importance (m : Trained) (cols : list string)
  : list (string * Q) :=
  match feature_importances_ m with
  | Some importances => sorted_desc (zip cols importances)
  | None => []
  end.

Definition floats (l : list Z) : list Q := map inject_Z l.

(** The entry of [model_metrics] for one candidate. *)
Definition metrics_of (kv : string * ModelResult) : string * Metrics :=
  (fst kv,
   {| metrics_mae := mae (snd kv);
      metrics_mse := mse (snd kv);
      metrics_r2 := r2 (snd kv);
      metrics_predictions := predictions (snd kv) |}).

Section Predictions.

Context `{Sklearn}.

(** The [models] dictionary, in its order of insertion. *)
Definition models : list (string * Estimator) :=
  [("random_forest", RandomForestRegressor 100 RANDOM_STATE);
   ("gradient_boosting", GradientBoostingRegressor 100 RANDOM_STATE);
   ("linear_regression", LinearRegression)]%string.

(** One turn of the training loop. *)
Definition evaluate (X_train X_test : list (list Q)) (y_train y_test : list Q)
    (e : Estimator) : result ModelResult :=
  let m := fit e X_train y_train in
  let y_pred := map (predict m) X_test in
  let* mae := mean_absolute_error y_test y_pred in
  let* mse := mean_squared_error y_test y_pred in
  let* r2 := r2_score y_test y_pred in
  Returned {| model := m; mae := mae; mse := mse; r2 := r2; predictions := y_pred |}.

Fixpoint train_all (X_train X_test : list (list Q)) (y_train y_test : list Q)
    (ms : list (string * Estimator)) : result (list (string * ModelResult)) :=
  match ms with
  | [] => Returned []
  | (name, e) :: ms' =>
      let* r := evaluate X_train X_test y_train y_test e in
      let* rs := train_all X_train X_test y_train y_test ms' in
      Returned ((name, r) :: rs)
  end.

(** [predict_daily_admissions] on the rows of [self.daily_admissions].
    The estimators check their input when they fit and predict: the
    check is made once, on the whole of [X].  [max] runs over the names
    of [model_results] in the order of insertion, with the R² of each as
    key: here over the entries themselves. *)
Definition predict_daily_admissions_on (rows : list DailyRow) (days_ahead : Z)
  : result DailyPredictions :=
  let clean_data := dropna rows in
  if (length clean_data <? 30)%nat then
    Returned (DictError "Insufficient data for prediction")
  else
    let* X := select_columns feature_cols clean_data in
    let y := floats (map admission_count clean_data) in
    let* X := check_array X in
    let* split := train_test_split X y TEST_SIZE in
    let '(X_train, X_test, y_train, y_test) := split in
    let* model_results := train_all X_train X_test y_train y_test models in
    let* best := py_max (fun kv => r2 (snd kv)) model_results in
    let best_model_name := fst best in
    let best_model := model (snd best) in
    let* future_predictions :=
      _generate_future_predictions rows best_model feature_cols days_ahead in
    Returned (DictForecast
      {| best_model := best_model_name;
         model_metrics := map metrics_of model_results;
         future_predictions := future_predictions;
         feature_importance := _get_feature_importance best_model feature_cols |}).

Definition predict_daily_admissions (self : AdmissionPredictor) (days_ahead : Z)
  : M DailyPredictions :=
  let+ rows := daily_rows self in
  lift (predict_daily_admissions_on rows days_ahead).

End Predictions.

(** ** [np.percentile], by linear interpolation *)

Definition sort (l : list Z) : list Z := merge_sort Z.le l.

Definition nthZ (l : list Z) (i : Z) : Q := inject_Z (nth (Z.to_nat i) l 0).

(** The value at the position [(n - 1) * q] of the sorted data, between
    the two entries around it. *)
Definition quantile_linear (sorted : list Z) (q : Q) : Q :=
  let n := Z.of_nat (length sorted) in
  let virtual_index := (inject_Z (n - 1) * q)%Q in
  let previous := Qfloor virtual_index in
  let next := Z.min (previous + 1) (n - 1) in
  let gamma := (virtual_index - inject_Z previous)%Q in
  (nthZ sorted previous + (nthZ sorted next - nthZ sorted previous) * gamma)%Q.

(** [np.percentile(a, q)]: a [q] outside [[0, 100]] is refused before the
    data are looked at; there is no percentile of no data. *)
Definition np_percentile (a : list Z) (q : Q) : result Q :=
  if negb (Qle_bool 0 q && Qle_bool q 100) then Raised "ValueError"
  else
    match a with
    | [] => Raised "IndexError"
    | _ => Returned (quantile_linear (sort a) (q / 100))
    end.

(** ** [predict_busy_periods] *)

(** [Series.value_counts().to_dict()] *)
Definition value_counts (l : list Z) : gmap Z Z :=
  fold_left (fun m k => <[k := default 0 (m !! k) + 1]> m) l ∅.

Record BusyPatterns : Type := mkBusyPatterns {
  threshold : Q;
  busy_day_count : Z;
  busy_day_percentage : Q;
  average_busy_day_admissions : option Q;
  busy_months : gmap Z Z;
  busy_days_of_week : gmap Z Z;
  busy_seasons : gmap Z Z;
  future_busy_periods : option (list ForecastPoint);
  predicted_busy_days : option Z
}.

Definition len {A} (l : list A) : Z := Z.of_nat (length l).

(** [a / b] on integers. *)
Definition true_divide (a b : Z) : result Q :=
  if b =? 0 then Raised "ZeroDivisionError"
  else Returned (inject_Z a / inject_Z b)%Q.

Section Analyses.

Context `{Sklearn}.

Definition predict_busy_periods_on (rows : list DailyRow) (threshold_percentile : Q)
  : result BusyPatterns :=
  let* threshold := np_percentile (map admission_count rows) threshold_percentile in
  let busy_days :=
    filter (fun r => Qle_bool threshold (inject_Z (admission_count r))) rows in
  let* fraction := true_divide (len busy_days) (len rows) in
  let busy_patterns :=
    {| threshold := threshold;
       busy_day_count := len busy_days;
       busy_day_percentage := (fraction * 100)%Q;
       average_busy_day_admissions := mean (floats (map admission_count busy_days));
       busy_months := value_counts (map month busy_days);
       busy_days_of_week := value_counts (map day_of_week busy_days);
       busy_seasons := value_counts (map season busy_days);
       future_busy_periods := None;
       predicted_busy_days := None |} in
  let* daily_predictions := predict_daily_admissions_on rows 90 in
  match daily_predictions with
  | DictForecast f =>
      let future_busy_periods :=
        filter (fun pred => Qle_bool threshold (inject_Z (predicted_admissions pred)))
               (future_predictions f) in
      Returned
        {| threshold := threshold;
           busy_day_count := busy_day_count busy_patterns;
           busy_day_percentage := busy_day_percentage busy_patterns;
           average_busy_day_admissions := average_busy_day_admissions busy_patterns;
           busy_months := busy_months busy_patterns;
           busy_days_of_week := busy_days_of_week busy_patterns;
           busy_seasons := busy_seasons busy_patterns;
           future_busy_periods := Some future_busy_periods;
           predicted_busy_days := Some (len future_busy_periods) |}
  | DictError _ => Returned busy_patterns
  end.

Definition predict_busy_periods (self : AdmissionPredictor) (threshold_percentile : Q)
  : M BusyPatterns :=
  let+ rows := daily_rows self in
  lift (predict_busy_periods_on rows threshold_percentile).

End Analyses.

(** ** [analyze_capacity_requirements] *)

(** The sample variance, the square of [std]; [NaN] below two values. *)
Definition variance (l : list Q) : option Q :=
  match mean l with
  | Some m =>
      if (length l <? 2)%nat then None
      else Some (Qsum (map (fun x => Qsquare (x - m)) l)
                 / inject_Z (Z.of_nat (length l) - 1))%Q
  | None => None
  end.

Definition quantile (l : list Z) (q : Q) : option Q :=
  match l with
  | [] => None
  | _ => Some (quantile_linear (sort l) q)
  end.

Definition max_count (l : list Z) : option Z :=
  match l with
  | [] => None
  | x :: l' => Some (fold_left Z.max l' x)
  end.

Definition min_count (l : list Z) : option Z :=
  match l with
  | [] => None
  | x :: l' => Some (fold_left Z.min l' x)
  end.

(** [describe()]; the entry [std] is given by its square. *)
Record Describe : Type := mkDescribe {
  stat_count : Z;
  stat_mean : option Q;
  stat_std_squared : option Q;
  stat_min : option Z;
  stat_25 : option Q;
  stat_50 : option Q;
  stat_75 : option Q;
  stat_max : option Z
}.

Definition describe (l : list Z) : Describe :=
  {| stat_count := len l;
     stat_mean := mean (floats l);
     stat_std_squared := variance (floats l);
     stat_min := min_count l;
     stat_25 := quantile l (1 # 4);
     stat_50 := quantile l (1 # 2);
     stat_75 := quantile l (3 # 4);
     stat_max := max_count l |}.

Record PeakRequirements : Type := mkPeak {
  max_daily_admissions : Z;
  percentile_95 : Z;
  percentile_90 : Z;
  percentile_75 : Z
}.

(** [agg(['mean', 'max', 'std'])] of one group; [std] by its square. *)
Record GroupStats : Type := mkGroupStats {
  group_mean : option Q;
  group_max : option Z;
  group_std_squared : option Q
}.

Definition group_stats (l : list Z) : GroupStats :=
  {| group_mean := mean (floats l);
     group_max := max_count l;
     group_std_squared := variance (floats l) |}.

(** [groupby(key)['admission_count'].agg(..)], by value of the key. *)
Definition grouped (key : DailyRow -> Z) (rows : list DailyRow) : gmap Z GroupStats :=
  let counts_of k :=
    map admission_count (filter (fun r => key r =? k) rows) in
  list_to_map (map (fun r => (key r, group_stats (counts_of (key r)))) rows).

Record CapacityAnalysis : Type := mkCapacity {
  daily_admission_stats : Describe;
  peak_requirements : PeakRequirements;
  monthly_patterns : gmap Z GroupStats;
  day_of_week_patterns : gmap Z GroupStats
}.

(** [int(x)] of a float; there is no integer of [NaN]. *)
Definition int_of_float (x : result Q) : result Z :=
  let* x := x in Returned (Qtrunc x).

Definition analyze_capacity_requirements_on (rows : list DailyRow)
  : result CapacityAnalysis :=
  let counts := map admission_count rows in
  let daily_stats := describe counts in
  let* mx :=
    match max_count counts with
    | Some m => Returned m
    | None => Raised "ValueError"
    end in
  let* p95 := int_of_float (np_percentile counts 95) in
  let* p90 := int_of_float (np_percentile counts 90) in
  let* p75 := int_of_float (np_percentile counts 75) in
  Returned
    {| daily_admission_stats := daily_stats;
       peak_requirements :=
         {| max_daily_admissions := mx;
            percentile_95 := p95;
            percentile_90 := p90;
            percentile_75 := p75 |};
       monthly_patterns := grouped month rows;
       day_of_week_patterns := grouped day_of_week rows |}.

Definition analyze_capacity_requirements (self : AdmissionPredictor)
  : M CapacityAnalysis :=
  let+ rows := daily_rows self in
  lift (analyze_capacity_requirements_on rows).

(** ** A caller: one predictor and a series of calls on it *)

Inductive call : Type :=
| call_predict_daily_admissions (days_ahead : Z)
| call_predict_busy_periods (threshold_percentile : Q)
| call_analyze_capacity_requirements.

Inductive answer : Type :=
| answer_daily (r : result DailyPredictions)
| answer_busy (r : result BusyPatterns)
| answer_capacity (r : result CapacityAnalysis).

(** A call that raises leaves the store as it is at that point; the
    caller goes on. *)
Definition attempt {A} (m : M A) : M (result A) :=
  fun h => let '(r, h') := m h in (Returned r, h').

Section Caller.

Context `{Sklearn}.

Definition run_call (self : AdmissionPredictor) (c : call) : M answer :=
  match c with
  | call_predict_daily_admissions days_ahead =>
      let+ r := attempt (predict_daily_admissions self days_ahead) in
      mret (answer_daily r)
  | call_predict_busy_periods threshold_percentile =>
      let+ r := attempt (predict_busy_periods self threshold_percentile) in
      mret (answer_busy r)
  | call_analyze_capacity_requirements =>
      let+ r := attempt (analyze_capacity_requirements self) in
      mret (answer_capacity r)
  end.

Fixpoint run_calls (self : AdmissionPredictor) (cs : list call) : M (list answer) :=
  match cs with
  | [] => mret []
  | c :: cs' =>
      let+ a := run_call self c in
      let+ rest := run_calls self cs' in
      mret (a :: rest)
  end.

(** [AdmissionPredictor(admission_data)], then the calls. *)
Definition session (admission_data : loc) (cs : list call) : M (list answer) :=
  let+ self := __init__ admission_data in
  run_calls self cs.

End Caller.

(** ** [DataLoader._get_date_range] *)

(** [Series.min()] and [Series.max()] of timestamps: the missing ones are
    skipped; [NaT] when there is no other. *)
Definition series_min (dates : list (option Z)) : option Z :=
  match omap id dates with
  | [] => None
  | t :: ts => Some (fold_left Z.min ts t)
  end.

Definition series_max (dates : list (option Z)) : option Z :=
  match omap id dates with
  | [] => None
  | t :: ts => Some (fold_left Z.max ts t)
  end.

(** [t.strftime('%Y-%m-%d')]; [NaT] does not support it. *)
Definition strftime (t : option Z) : result string :=
  match t with
  | Some t => Returned (Calendar.strftime_ymd t)
  | None => Raised "ValueError"
  end.

(** [_get_date_range(df, date_col)], with [DATE_FORMAT] the format
    [%d/%m/%Y]: [None] without the column, and [None] when the [try]
    block raises. *)
Definition _get_date_range (df : gmap string column) (date_col : string)
  : option (string * string) :=
  match df !! date_col with
  | None => None
  | Some c =>
      let dates := to_datetime c in
      match (let* lo := strftime (series_min dates) in
             let* hi := strftime (series_max dates) in
             Returned (lo, hi)) with
      | Returned range => Some range
      | Raised _ => None
      end
  end.

(** ** [AdmissionAnalyzer._categorize_age] *)

(** [AGE_GROUPS] of [config.py], in the order of the dictionary. *)
Definition AGE_GROUPS : list (string * (Z * Z)) :=
  [("Young Adult (18-35)", (18, 35));
   ("Middle Age (36-50)", (36, 50));
   ("Older Adult (51-65)", (51, 65));
   ("Elderly (66-80)", (66, 80));
   ("Very Elderly (80+)", (80, 120))]%string.

(** The loop over the groups: the first one that holds the age. *)
Fixpoint first_group (groups : list (string * (Z * Z))) (age : Q) : string :=
  match groups with
  | [] => "Other"
  | (group_name, (min_age, max_age)) :: rest =>
      if Qle_bool (inject_Z min_age) age && Qle_bool age (inject_Z max_age)
      then group_name
      else first_group rest age
  end.

(** [_categorize_age(age)], the age a float, [NaN] when missing. *)
Definition _categorize_age (age : option Q) : string :=
  match age with
  | None => "Unknown"
  | Some a => first_group AGE_GROUPS a
  end.

(** ** [ChartGenerator.create_admission_prediction_chart] *)

(** A trace of a figure: its name and its points.  Colours, widths and
    fonts are left out. *)
Record Scatter : Type := mkScatter {
  scatter_name : string;
  scatter_x : list string;
  scatter_y : list Z
}.

(** A figure: an annotation alone, or traces under a title. *)
Inductive Figure : Type :=
| FigureAnnotation (text : string)
| FigureTraces (traces : list Scatter) (title xaxis_title yaxis_title : string).

(** [int(pred * 1.2)] and [int(pred * 0.8)] *)
Definition upper_of (pred : Z) : Z := Qtrunc (inject_Z pred * (12 # 10)).
Definition lower_of (pred : Z) : Z := Qtrunc (inject_Z pred * (8 # 10)).

Definition create_admission_prediction_chart (prediction_data : DailyPredictions)
  : Figure :=
  match prediction_data with
  | DictError _ => FigureAnnotation "No prediction data available"
  | DictForecast f =>
      let predictions := future_predictions f in
      let dates := map date predictions in
      let predicted_admissions := map predicted_admissions predictions in
      let upper_bound := map upper_of predicted_admissions in
      let lower_bound := map lower_of predicted_admissions in
      FigureTraces
        [ {| scatter_name := "Predicted Admissions";
             scatter_x := dates;
             scatter_y := predicted_admissions |};
          {| scatter_name := "Confidence Interval";
             scatter_x := dates ++ rev dates;
             scatter_y := upper_bound ++ rev lower_bound |} ]
        "Hospital Admission Predictions" "Date" "Predicted Number of Admissions"
  end.

(** ** Sample tables and estimators *)

Module Sample.

(** A date as the admission table writes it. *)
Definition strftime_dmy (t : Z) : string :=
  (Calendar.pad2 (Calendar.day t) ++ "/" ++ Calendar.pad2 (Calendar.month t)
   ++ "/" ++ Calendar.pad4 (Calendar.year t))%string.

Definition table (admissions : list string) : pyobj :=
  let c := ColText (map Some admissions) in
  OFrame (<["D.O.A" := c]> (<["D.O.D" := c]> ∅)).

(** A store with the caller's table at the reference 1. *)
Definition caller_store (admissions : list string) : store :=
  <[1%positive := table admissions]> ∅.

(** [n] consecutive days from 2021-01-01, with one admission on the
    first, two on the second, one on the third, and so on. *)
Definition alternating (n : Z) : list string :=
  concat (map (fun i => replicate (Z.to_nat (1 + i mod 2)) (strftime_dmy (18628 + i)))
              (seqZ 0 n)).

(** Two admissions on 2020-01-01, one on 2020-01-03, one unreadable. *)
Definition sparse : list string :=
  ["01/01/2020"; "03/01/2020"; "not a date"; "01/01/2020"]%string.

Definition feature (x : list Q) (i : nat) : Q := nth i x 0%Q.

(** An estimator whose model follows the alternation of the counts from
    the lag of one day, off by [extra] on some days of the year. *)
Definition follower (extra : Q -> Q) : Estimator :=
  {| fit := fun _ _ =>
       {| predict := fun x => (3 - feature x 6 + extra (feature x 2))%Q;
          feature_importances_ := None |} |}.

Definition off_3_and_4 (d : Q) : Q :=
  if Qeq_bool d 55 then 3 else if Qeq_bool d 56 then 4 else 0.

Definition off_5 (d : Q) : Q := if Qeq_bool d 55 then 5 else 0.

Definition estimators : Sklearn :=
  {| RandomForestRegressor := fun _ _ => follower off_3_and_4;
     GradientBoostingRegressor := fun _ _ => follower off_5;
     LinearRegression := follower (fun _ => 10%Q) |}.

(** [AdmissionPredictor(table)]: the predictor, or the exception, and
    the store after the call. *)
Definition constructed (admissions : list string)
  : result AdmissionPredictor * gmap positive pyobj :=
  __init__ 1%positive (caller_store admissions).

(** The rows of the daily frame of the predictor. *)
Definition daily_frame (admissions : list string) : option (list DailyRow) :=
  match (let+ self := __init__ 1%positive in daily_rows self)
          (caller_store admissions) with
  | (Returned rows, _) => Some rows
  | _ => None
  end.

(** The predictor that the constructor returns on these stores: its
    copy of the table at 2, its daily frame at 4. *)
Definition predictor : AdmissionPredictor :=
  {| data := 2%positive; daily_admissions := 4%positive |}.

Definition store60 : gmap positive pyobj := (constructed (alternating 60)).2.

Definition store59 : gmap positive pyobj := (constructed (alternating 59)).2.

Definition rows60 : list DailyRow :=
  Eval vm_compute in default [] (daily_frame (alternating 60)).

Definition rows59 : list DailyRow :=
  Eval vm_compute in default [] (daily_frame (alternating 59)).

End Sample.

(** ** The vocabulary of the properties *)

(** A float that a call returns, in lowest terms. *)
Definition reduced (r : result Q) : option Q :=
  match r with
  | Returned x => Some (Qred x)
  | Raised _ => None
  end.

(** What a method leaves in place: every object that was there. *)
Definition preserves {A} (m : M A) : Prop :=
  forall (h : store) (l : loc) (o : pyobj), h !! l = Some o -> (m h).2 !! l = Some o.

(** What a method that writes into the object at [d] leaves in place:
    every other object. *)
Definition preserves_but (d : loc) {A} (m : M A) : Prop :=
  forall (h : store) (l : loc) (o : pyobj), l <> d -> h !! l = Some o -> (m h).2 !! l = Some o.

(** The number of rows of the table admitted on the day [d]. *)
Definition admissions_on (d : Z) (dates : list (option Z)) : Z :=
  len (filter (fun x => x = Some d) dates).

(** What holds of the groups once the column [dates] has been read. *)
Record grouped_by (dates : list (option Z)) (g : list (Z * Z)) : Prop := {
  grouped_sorted : StronglySorted Z.lt (map fst g);
  grouped_counts : forall d c, (d, c) ∈ g -> c = admissions_on d dates;
  grouped_dates : forall d, d ∈ map fst g <-> Some d ∈ dates
}.

(** The dates of a column lie between [d0] and [dN], which are among
    them. *)
Definition spans (dates : list (option Z)) (d0 dN : Z) : Prop :=
  Some d0 ∈ dates /\ Some dN ∈ dates
  /\ forall d, Some d ∈ dates -> d0 <= d <= dN.

(** A daily frame with a row for every calendar date of the span, the
    dates without an admission at count 0. *)
Definition one_row_per_calendar_date (dates : list (option Z))
    (rows : list DailyRow) : Prop :=
  forall d0 dN, spans dates d0 dN ->
    map (fun r => (admission_date r, admission_count r)) rows
    = map (fun d => (d, admissions_on d dates)) (seqZ d0 (dN - d0 + 1)).

(** A row is feature-complete when all its lag and rolling features are
    defined. *)
Definition feature_complete (r : DailyRow) : Prop :=
  is_Some (admission_count_lag_1 r) /\ is_Some (admission_count_lag_3 r)
  /\ is_Some (admission_count_lag_7 r) /\ is_Some (admission_count_lag_14 r)
  /\ is_Some (admission_count_lag_30 r)
  /\ is_Some (admission_count_rolling_3 r) /\ is_Some (admission_count_rolling_7 r)
  /\ is_Some (admission_count_rolling_14 r) /\ is_Some (admission_count_rolling_30 r).

#[global] Instance feature_complete_dec r : Decision (feature_complete r).
Proof. unfold feature_complete. apply _. Defined.

(** The entries of a daily row under the columns of [feature_cols], in
    their order. *)
Definition feature_row (r : DailyRow) : list (option Q) :=
  [of_int month r; of_int day_of_week r; of_int day_of_year r;
   of_int week_of_year r; of_int is_weekend r; of_int season r;
   admission_count_lag_1 r; admission_count_lag_3 r; admission_count_lag_7 r;
   admission_count_rolling_3 r; admission_count_rolling_7 r].

(** The mean of the last 30 observed counts. *)
Definition recent_mean (rows : list DailyRow) : option Q :=
  mean (map inject_Z (tail 30 (map admission_count rows))).

(** The six calendar features of the date [t], in the order of
    [feature_cols]. *)
Definition calendar_vector (t : Z) : list (option Q) :=
  map (fun n => Some (inject_Z n))
    [Calendar.month t; Calendar.weekday t; Calendar.dayofyear t;
     Calendar.isoweek t; (if 5 <=? Calendar.weekday t then 1 else 0);
     _get_season (Some (inject_Z (Calendar.month t)))].

(** The points of a forecast, each made from its own date by the body
    of the loop; the first date that fails gives the exception. *)
Definition points_of (rows : list DailyRow) (m : Trained) (cols : list string)
    (future_dates : list (option Z)) : result (list ForecastPoint) :=
  foldr (fun d k => let* p := forecast_point rows m cols d in
                    let* ps := k in Returned (p :: ps))
        (Returned []) future_dates.

(** The row of features of the future date [t]. *)
Definition future_vector (rows : list DailyRow) (t : Z) : list (option Q) :=
  calendar_vector t ++ replicate 5 (recent_mean rows).

(** The same row as numbers, when the mean of the recent counts is
    [rv]. *)
Definition future_values (rv : Q) (t : Z) : list Q :=
  map inject_Z
    [Calendar.month t; Calendar.weekday t; Calendar.dayofyear t;
     Calendar.isoweek t; (if 5 <=? Calendar.weekday t then 1 else 0);
     _get_season (Some (inject_Z (Calendar.month t)))]
  ++ replicate 5 rv.

(** The point of the forecast for the date [t]. *)
Definition point_of (m : Trained) (rv : Q) (t : Z) : ForecastPoint :=
  {| date := Calendar.strftime_ymd t;
     predicted_admissions := Z.max 0 (py_round (predict m (future_values rv t))) |}.



(** ** More vocabulary: the daily frame, the reports, the loader *)

(** The number of rows that [train_test_split] holds out of [n]. *)
Definition held_out (n : nat) : nat :=
  Qceiling_nat (TEST_SIZE * inject_Z (Z.of_nat n)).

(** The lag of [k] rows at the row [i] of a daily frame: the count [k]
    rows above, missing on the first [k] rows. *)
Definition lag_at (k i : nat) (rows : list DailyRow) : option Q :=
  if (i <? k)%nat then None
  else (fun r => inject_Z (admission_count r)) <$> rows !! (i - k)%nat.

(** The rolling mean of [w] rows at the row [i]: the sum of the counts of
    the [w] rows that end at the row, over [w]; missing on the first
    [w - 1] rows. *)
Definition rolling_at (w i : nat) (rows : list DailyRow) : option Q :=
  if (S i <? w)%nat then None
  else Some (Qsum (map (fun r => inject_Z (admission_count r))
                       (take w (drop (S i - w) rows)))
             / inject_Z (Z.of_nat w))%Q.

(** The holidays of a year, as (month, day): 1 January, 15 August,
    2 October. *)
Definition holidays_of_a_year : list (Z * Z) := [(1, 1); (8, 15); (10, 2)].

Definition is_holiday_date (t : Z) : bool :=
  bool_decide ((Calendar.month t, Calendar.day t) ∈ holidays_of_a_year).

(** The holiday column of a column of dates. *)
Definition holiday_column (dates : list (option Z)) : column :=
  int_column (map (fun o =>
                     match o with
                     | Some t => if is_holiday_date t then 1 else 0
                     | None => 0
                     end) dates).

(** The year of an era is recovered from the day of the era, for a day
    of the year counted from the first of March. *)
Definition year_of_era_recovered (doy yoe : Z) : bool :=
  let doe := yoe * 365 + yoe / 4 - yoe / 100 + doy in
  ((doe - doe / 1460 + doe / 36524 - doe / 146096) / 365 =? yoe)
  && (doe - (365 * yoe + yoe / 4 - yoe / 100) =? doy)
  && (0 <=? doe) && (doe <? 146097).

(** The sum of a column of counts. *)
Definition total (l : list Z) : Z := fold_right Z.add 0 l.

(** The dates of a column, without [NaT]. *)
Definition dated (dates : list (option Z)) : list Z := omap id dates.

(** The number of distinct dates of a column. *)
Definition distinct_dates (dates : list (option Z)) : nat :=
  length (remove_dups (dated dates)).

(** Decreasing order of importance. *)
Definition by_importance (a b : string * Q) : Prop := (snd b <= snd a)%Q.

(** The rows whose count is at or above the threshold. *)
Definition busy_rows (t : Q) (rows : list DailyRow) : list DailyRow :=
  filter (fun r => Qle_bool t (inject_Z (admission_count r))) rows.

(** The points of a forecast at or above the threshold. *)
Definition busy_points (t : Q) (points : list ForecastPoint) : list ForecastPoint :=
  filter (fun p => Qle_bool t (inject_Z (predicted_admissions p))) points.

(** The number of entries of a column that are [k]. *)
Definition occurrences (k : Z) (l : list Z) : Z := len (filter (fun x => x = k) l).

(** The entry of [value_counts] under [k]: none for a value that does
    not occur. *)
Definition counted (k : Z) (l : list Z) : option Z :=
  if occurrences k l =? 0 then None else Some (occurrences k l).

(** The least and the greatest of a column. *)
Definition least_of (lo : Z) (l : list Z) : Prop := lo ∈ l /\ forall c, c ∈ l -> lo <= c.

Definition greatest_of (hi : Z) (l : list Z) : Prop := hi ∈ l /\ forall c, c ∈ l -> c <= hi.

(** The counts of the rows of a group. *)
Definition counts_in (key : DailyRow -> Z) (k : Z) (rows : list DailyRow) : list Z :=
  map admission_count (filter (fun r => key r = k) rows).

(** More sample data. *)
Module Cases.

(** A [groupby] frame of three dates, the third six days after the
    second. *)
Definition three_days : list (Z * Z) := [(18262, 2); (18264, 1); (18270, 4)].

(** 2020-01-01, a row without a date, 2020-08-15, 2020-10-02 and
    2020-01-02. *)
Definition holiday_dates : list (option Z) :=
  [Some 18262; None; Some 18489; Some 18537; Some 18263].

Definition holiday_frame : gmap string column :=
  <["year"%string := dt_field Calendar.year holiday_dates]>
    (<["admission_date"%string := ColDate holiday_dates]> ∅).

Definition holiday_store : gmap positive pyobj :=
  <[1%positive := OFrame holiday_frame]> ∅.

(** A table without the column [D.O.D]. *)
Definition no_discharge : gmap string column :=
  <["D.O.A"%string := ColText [Some "01/01/2020"%string]]> ∅.

Definition no_discharge_store : gmap positive pyobj :=
  <[1%positive := OFrame no_discharge]> ∅.

(** A table none of whose dates parses. *)
Definition undated : list string := ["not a date"; "2020-01-01"; "31/02/2020"]%string.

(** A fitted model with importances for three columns. *)
Definition forest_model : Trained :=
  {| predict := fun _ => 0%Q;
     feature_importances_ := Some [1 # 10; 6 # 10; 3 # 10]%Q |}.

Definition three_columns : list string := ["month"; "day_of_week"; "season"]%string.

End Cases.

(** * Properties *)

(** ** The calendar, on known dates *)

Example parse_2020_01_01 : Calendar.parse_dmy "01/01/2020" = Some 18262.
Proof. reflexivity. Qed.

Example show_2020_01_01 : Calendar.strftime_ymd 18262 = "2020-01-01"%string.
Proof. reflexivity. Qed.

Example calendar_2021_01_01 :
  (fun t => (Calendar.weekday t, Calendar.dayofyear t, Calendar.isoweek t,
             Calendar.strftime_ymd t)) <$> Calendar.parse_dmy "1/1/2021"
  = Some (4, 1, 53, "2021-01-01"%string).
Proof. reflexivity. Qed.

Example calendar_2018_12_31 :
  (fun t => (Calendar.weekday t, Calendar.dayofyear t, Calendar.isoweek t,
             Calendar.month t)) <$> Calendar.parse_dmy "31/12/2018"
  = Some (0, 365, 1, 12).
Proof. reflexivity. Qed.

Example parse_rejects_30_feb : Calendar.parse_dmy "30/02/2020" = None.
Proof. reflexivity. Qed.

Example leap_days :
  map Calendar.parse_dmy ["29/02/2020"; "29/02/2021"; "31/04/2021"; "1/13/2021"]%string
  = [Some 18321; None; None; None].
Proof. reflexivity. Qed.

Example last_days_of_2020 :
  map (fun t => (Calendar.weekday t, Calendar.dayofyear t, Calendar.isoweek t))
      [18627; 18630; 18631]
  = [(3, 366, 53); (6, 3, 53); (0, 4, 1)].
Proof. reflexivity. Qed.

Example out_of_the_range_of_Timestamp :
  map Calendar.parse_dmy ["21/09/1677"; "22/09/1677"; "11/04/2262"; "12/04/2262"]%string
  = [None; Some (-106751); Some 106751; None].
Proof. reflexivity. Qed.

Ltac calendar_cases :=
  repeat match goal with
  | |- context [if ?b then _ else _] => destruct b eqn:?
  end;
  repeat match goal with
  | H : (_ <? _) = true |- _ => apply Z.ltb_lt in H
  | H : (_ <? _) = false |- _ => apply Z.ltb_ge in H
  | H : (_ <=? _) = true |- _ => apply Z.leb_le in H
  | H : (_ <=? _) = false |- _ => apply Z.leb_gt in H
  end.

(** The year, the month and the day of a date give the date back. *)
Lemma days_from_civil_of_date (t : Z) :
  Calendar.days_from_civil (Calendar.year t) (Calendar.month t) (Calendar.day t) = t.
Proof.
  unfold Calendar.year, Calendar.month, Calendar.day,
    Calendar.civil_from_days, Calendar.days_from_civil.
  cbv zeta. simpl fst. simpl snd.
  calendar_cases; Z.div_mod_to_equations; lia.
Qed.

Lemma month_and_day_in_range (t : Z) :
  1 <= Calendar.month t <= 12 /\ 1 <= Calendar.day t <= 31.
Proof.
  unfold Calendar.month, Calendar.day, Calendar.civil_from_days.
  cbv zeta. simpl fst. simpl snd.
  calendar_cases; Z.div_mod_to_equations; lia.
Qed.

Lemma weekday_of_next_day (t : Z) :
  Calendar.weekday (t + 1) = (Calendar.weekday t + 1) mod 7.
Proof. unfold Calendar.weekday. Z.div_mod_to_equations; lia. Qed.

(** ** The operations of pandas and numpy, on known values *)

Example shift_by_one : shift 1 [10; 20; 30] = [None; Some 10%Q; Some 20%Q].
Proof. reflexivity. Qed.

Example shift_beyond_the_end : shift 5 [10; 20; 30] = [None; None; None].
Proof. reflexivity. Qed.

Example rolling_mean_of_three :
  rolling_mean 3 [1; 2; 3; 7] = [None; None; Some (6 # 3); Some (12 # 3)].
Proof. reflexivity. Qed.

Example groupby_size_sorts_and_counts :
  groupby_size [Some 5; None; Some 3; Some 5; Some 9] = [(3, 1); (5, 2); (9, 1)].
Proof. reflexivity. Qed.

Example percentiles_of_four :
  map (fun P => reduced (np_percentile [4; 1; 3; 2] P)) [0; 50; 75; 100]%Q
  = map Some [1; 5 # 2; 13 # 4; 4]%Q.
Proof. vm_compute. reflexivity. Qed.

Example percentile_of_nothing : np_percentile [] 75 = Raised "IndexError".
Proof. reflexivity. Qed.

Example percentile_75_of_alternating_days :
  reduced (np_percentile (concat (replicate 60 [10; 20])) 75) = Some 20%Q.
Proof. vm_compute. reflexivity. Qed.

Example split_of_thirty :
  (fun s => (length s.1.1.1, length s.1.1.2)) <$>
    (match train_test_split (seq 0 30) (seq 0 30) TEST_SIZE with
     | Returned s => Some s
     | Raised _ => None
     end)
  = Some (24%nat, 6%nat).
Proof. reflexivity. Qed.

Example r2_of_a_constant_offset :
  reduced (r2_score [1; 2; 3]%Q [2; 3; 4]%Q) = Some (- (1 # 2))%Q.
Proof. vm_compute. reflexivity. Qed.

(** ** The store *)

Section Store.

Implicit Types (h : store) (l : loc) (o : pyobj).

Lemma preserves_ret {A} (a : A) : preserves (mret a).
Proof. intros h l o Hl. exact Hl. Qed.

Lemma preserves_raise {A} (e : string) : preserves (@mraise A e).
Proof. intros h l o Hl. exact Hl. Qed.

Lemma preserves_lift {A} (r : result A) : preserves (lift r).
Proof. intros h l o Hl. exact Hl. Qed.

Lemma preserves_bind {A B} (m : M A) (k : A -> M B) :
  preserves m -> (forall a, preserves (k a)) -> preserves (mbind_M m k).
Proof.
  intros Hm Hk h l o Hl. unfold mbind_M.
  specialize (Hm h l o Hl).
  destruct (m h) as [[a|e] h'] eqn:E; simpl in *.
  - apply Hk, Hm.
  - exact Hm.
Qed.

Lemma preserves_read l : preserves (read l).
Proof.
  intros h l' o Hl. unfold read. destruct (h !! l); exact Hl.
Qed.

Lemma preserves_alloc o : preserves (alloc o).
Proof.
  intros h l o' Hl. unfold alloc. simpl.
  rewrite lookup_insert_ne; [exact Hl|].
  intros <-. pose proof (is_fresh (dom h)) as Hf.
  apply Hf, elem_of_dom. eauto.
Qed.

Lemma preserves_attempt {A} (m : M A) : preserves m -> preserves (attempt m).
Proof.
  intros Hm h l o Hl. unfold attempt.
  specialize (Hm h l o Hl). destruct (m h). exact Hm.
Qed.

Lemma preserves_copy l : preserves (copy l).
Proof.
  apply preserves_bind; [apply preserves_read | intros; apply preserves_alloc].
Qed.

Lemma preserves_getitem l name : preserves (getitem l name).
Proof.
  apply preserves_bind; [apply preserves_read|].
  intros [cols| |]; try apply preserves_raise.
  destruct (cols !! name); [apply preserves_ret | apply preserves_raise].
Qed.

Lemma preserves_dt c : preserves (dt c).
Proof. destruct c; first [apply preserves_ret | apply preserves_raise]. Qed.

Lemma preserves_numbers c : preserves (numbers c).
Proof. destruct c; first [apply preserves_ret | apply preserves_raise]. Qed.

Lemma preserves_weaken d {A} (m : M A) : preserves m -> preserves_but d m.
Proof. intros Hm h l o _ Hl. apply Hm, Hl. Qed.

Lemma preserves_but_bind d {A B} (m : M A) (k : A -> M B) :
  preserves_but d m -> (forall a, preserves_but d (k a)) ->
  preserves_but d (mbind_M m k).
Proof.
  intros Hm Hk h l o Hne Hl. unfold mbind_M.
  specialize (Hm h l o Hne Hl).
  destruct (m h) as [[a|e] h'] eqn:E; simpl in *.
  - apply Hk; assumption.
  - exact Hm.
Qed.

Lemma preserves_but_setitem d name c : preserves_but d (setitem d name c).
Proof.
  apply preserves_but_bind; [apply preserves_weaken, preserves_read|].
  intros [cols| |]; try (apply preserves_weaken, preserves_raise).
  intros h l o Hne Hl. simpl. rewrite lookup_insert_ne; [exact Hl | congruence].
Qed.

Lemma preserves_create_holiday_indicator d :
  preserves (_create_holiday_indicator d).
Proof.
  unfold _create_holiday_indicator.
  repeat first
    [ apply preserves_ret
    | apply preserves_getitem
    | apply preserves_numbers
    | apply preserves_dt
    | apply preserves_bind; [|intros ?] ].
Qed.

(** The copy that [_add_temporal_features] fills is a new object. *)
Lemma preserves_add_temporal_features df : preserves (_add_temporal_features df).
Proof.
  intros h l o Hl. unfold _add_temporal_features, copy, mbind_M, read, alloc.
  destruct (h !! df) as [o'|] eqn:Hdf; simpl; [|exact Hl].
  assert (l <> fresh (dom h)) as Hne.
  { intros ->. apply (is_fresh (dom h)), elem_of_dom. eauto. }
  rewrite lookup_insert_eq.
  destruct o'; simpl; rewrite ?lookup_insert_ne by congruence;
    rewrite ?lookup_insert_ne by congruence; exact Hl.
Qed.

Lemma preserves_but_prepare_data d : preserves_but d (_prepare_data d).
Proof.
  unfold _prepare_data.
  repeat first
    [ apply preserves_but_setitem
    | apply preserves_weaken;
      first [ apply preserves_getitem | apply preserves_dt | apply preserves_numbers
            | apply preserves_create_holiday_indicator | apply preserves_alloc
            | apply preserves_add_temporal_features ]
    | apply preserves_but_bind; [|intros ?] ].
Qed.

(** The constructor writes into its own copy only. *)
Lemma preserves_init l : preserves (__init__ l).
Proof.
  intros h l0 o0 Hl0. unfold __init__, copy, mbind_M at 1 2, read, alloc.
  destruct (h !! l) as [o|] eqn:Hl; simpl; [|exact Hl0].
  assert (l0 <> fresh (dom h)) as Hne.
  { intros ->. apply (is_fresh (dom h)), elem_of_dom. eauto. }
  pose proof (preserves_but_prepare_data (fresh (dom h))
                (<[fresh (dom h) := o]> h) l0 o0 Hne) as Hp.
  rewrite lookup_insert_ne in Hp by congruence. specialize (Hp Hl0).
  unfold mbind_M.
  destruct (_prepare_data _ _) as [[daily|e] h']; simpl in *; exact Hp.
Qed.

Lemma init_private l h self h' :
  __init__ l h = (Returned self, h') ->
  is_Some (h !! l) /\ data self = fresh (dom h).
Proof.
  unfold __init__, copy, mbind_M at 1 2, read, alloc.
  destruct (h !! l) as [o|] eqn:Hl; simpl; [|discriminate].
  unfold mbind_M.
  destruct (_prepare_data _ _) as [[daily|e] h'']; simpl; [|discriminate].
  intros [= <- <-]. simpl. eauto.
Qed.

Lemma preserves_daily_rows self : preserves (daily_rows self).
Proof.
  apply preserves_bind; [apply preserves_read|].
  intros [| |]; first [apply preserves_ret | apply preserves_raise].
Qed.

End Store.

Section Frame.

Context `{Sklearn}.

Lemma preserves_predict_daily_admissions self days_ahead :
  preserves (predict_daily_admissions self days_ahead).
Proof.
  apply preserves_bind; [apply preserves_daily_rows | intros; apply preserves_lift].
Qed.

Lemma preserves_predict_busy_periods self q :
  preserves (predict_busy_periods self q).
Proof.
  apply preserves_bind; [apply preserves_daily_rows | intros; apply preserves_lift].
Qed.

Lemma preserves_analyze_capacity_requirements self :
  preserves (analyze_capacity_requirements self).
Proof.
  apply preserves_bind; [apply preserves_daily_rows | intros; apply preserves_lift].
Qed.

Lemma preserves_run_call self c : preserves (run_call self c).
Proof.
  destruct c; simpl;
    (apply preserves_bind; [apply preserves_attempt | intros; apply preserves_ret]).
  - apply preserves_predict_daily_admissions.
  - apply preserves_predict_busy_periods.
  - apply preserves_analyze_capacity_requirements.
Qed.

Lemma preserves_run_calls self cs : preserves (run_calls self cs).
Proof.
  induction cs as [|c cs IH]; simpl; [apply preserves_ret|].
  apply preserves_bind; [apply preserves_run_call|]. intros a.
  apply preserves_bind; [exact IH | intros; apply preserves_ret].
Qed.

(** C10. No public operation changes the DataFrame the caller supplied:
    the constructor copies it into a new object, which is not the
    caller's, and after the construction and any series of calls of
    [predict_daily_admissions], [predict_busy_periods] and
    [analyze_capacity_requirements], whether they return or raise, the
    object at the caller's reference is the table that was there. *)
Theorem caller_table_untouched (h : store) (admission_data : loc)
    (table : pyobj) (cs : list call) :
  h !! admission_data = Some table ->
  (session admission_data cs h).2 !! admission_data = Some table
  /\ (forall self h', __init__ admission_data h = (Returned self, h') ->
        data self <> admission_data
        /\ h' !! admission_data = Some table).
Proof.
  intros Ht. split.
  - revert Ht. apply (preserves_bind (__init__ admission_data) (fun self => run_calls self cs)).
    + apply preserves_init.
    + intros self. apply preserves_run_calls.
  - intros self h' Hinit. split.
    + destruct (init_private _ _ _ _ Hinit) as [_ ->].
      intros Heq. apply (is_fresh (dom h)). rewrite Heq.
      apply elem_of_dom. eauto.
    + pose proof (preserves_init admission_data h admission_data table Ht) as Hp.
      rewrite Hinit in Hp. exact Hp.
Qed.

End Frame.

(** ** The daily aggregate *)

Section Groupby.

Implicit Types (g : list (Z * Z)) (dates : list (option Z)) (k d c : Z).

Lemma admissions_on_snoc d dates x :
  admissions_on d (dates ++ [x])
  = admissions_on d dates + (if decide (x = Some d) then 1 else 0).
Proof.
  unfold admissions_on, len. rewrite filter_app, length_app.
  rewrite filter_cons, filter_nil. destruct (decide (x = Some d)); simpl; lia.
Qed.

Lemma admissions_on_pos d dates : 1 <= admissions_on d dates <-> Some d ∈ dates.
Proof.
  unfold admissions_on, len. split.
  - intros Hpos. destruct (filter _ dates) as [|x l] eqn:E; simpl in Hpos; [lia|].
    assert (x ∈ filter (fun x => x = Some d) dates) as Hx by (rewrite E; left).
    apply list_elem_of_filter in Hx as [-> Hx]. exact Hx.
  - intros Hin.
    assert (Some d ∈ filter (fun x => x = Some d) dates) as Hx
      by (apply list_elem_of_filter; auto).
    destruct (filter _ dates); [inversion Hx | simpl; lia].
Qed.

Lemma bump_keys k g d : d ∈ map fst (bump k g) <-> d = k \/ d ∈ map fst g.
Proof.
  induction g as [|[k' c'] g IH]; simpl.
  - rewrite list_elem_of_singleton. split; [auto | intros [Hd|Hd]; [exact Hd | inversion Hd]].
  - destruct (k <? k') eqn:E1; [simpl; rewrite !elem_of_cons; tauto|].
    destruct (k =? k') eqn:E2; simpl.
    + apply Z.eqb_eq in E2. subst. rewrite !elem_of_cons. tauto.
    + rewrite !elem_of_cons, IH. tauto.
Qed.

Lemma bump_sorted k g :
  StronglySorted Z.lt (map fst g) -> StronglySorted Z.lt (map fst (bump k g)).
Proof.
  induction g as [|[k' c'] g IH]; simpl; intros Hs.
  - repeat constructor.
  - apply StronglySorted_inv in Hs as [Hs Hall].
    destruct (k <? k') eqn:E1; simpl.
    + apply Z.ltb_lt in E1. constructor; [constructor; assumption|].
      constructor; [exact E1|].
      eapply Forall_impl; [exact Hall|]. simpl. intros; lia.
    + destruct (k =? k') eqn:E2; simpl.
      * constructor; assumption.
      * apply Z.ltb_ge in E1. apply Z.eqb_neq in E2.
        constructor; [apply IH, Hs|].
        apply Forall_forall. intros d Hd.
        apply bump_keys in Hd.
        destruct Hd as [->|Hd]; [lia|].
        rewrite Forall_forall in Hall. apply Hall, Hd.
Qed.

(** The rows of [bump k g], on a frame in increasing order of date. *)
Lemma bump_rows k g d c :
  StronglySorted Z.lt (map fst g) ->
  (d, c) ∈ bump k g ->
  (d <> k /\ (d, c) ∈ g)
  \/ (d = k /\ c = 1 /\ k ∉ map fst g)
  \/ (d = k /\ exists c0, (k, c0) ∈ g /\ c = c0 + 1).
Proof.
  induction g as [|[k' c'] g IH]; simpl; intros Hs Hin.
  - apply list_elem_of_singleton in Hin as [= -> ->].
    right; left. repeat split. apply not_elem_of_nil.
  - apply StronglySorted_inv in Hs as [Hs Hall]. rewrite Forall_forall in Hall.
    assert (forall x, x ∈ map fst g -> k' < x) as Hall'
      by (intros x Hx; apply Hall, Hx).
    assert (forall x y, (x, y) ∈ g -> k' < x) as Hlt.
    { intros x y Hxy. apply Hall'. apply list_elem_of_fmap. exists (x, y). auto. }
    destruct (k <? k') eqn:E1.
    + apply Z.ltb_lt in E1. apply elem_of_cons in Hin as [[= -> ->]|Hin].
      * right; left. repeat split. intros Hk%elem_of_cons.
        destruct Hk as [->|Hk]; [lia|]. apply Hall' in Hk. lia.
      * left. split; [|exact Hin].
        apply elem_of_cons in Hin as [[= -> ->]|Hin]; [lia|].
        apply Hlt in Hin. lia.
    + apply Z.ltb_ge in E1. destruct (k =? k') eqn:E2.
      * apply Z.eqb_eq in E2. subst k'.
        apply elem_of_cons in Hin as [[= -> ->]|Hin].
        -- right; right. split; [reflexivity|]. exists c'. split; [left|reflexivity].
        -- left. split; [|right; exact Hin]. apply Hlt in Hin. lia.
      * apply Z.eqb_neq in E2.
        apply elem_of_cons in Hin as [[= -> ->]|Hin].
        -- left. split; [congruence | left].
        -- destruct (IH Hs Hin) as [[Hne Hg]|[(-> & -> & Hnot)|(-> & c0 & Hc0 & ->)]].
           ++ left. split; [exact Hne | right; exact Hg].
           ++ right; left. repeat split. intros Hk%elem_of_cons.
              destruct Hk as [Hk|Hk]; [congruence | contradiction].
           ++ right; right. split; [reflexivity|]. exists c0. split; [right; exact Hc0 | reflexivity].
Qed.

Lemma grouped_by_nil : grouped_by [] [].
Proof.
  split; simpl.
  - constructor.
  - intros d c Hin. inversion Hin.
  - intros d. split; intros Hin; inversion Hin.
Qed.

Lemma grouped_by_step dates g x :
  grouped_by dates g ->
  grouped_by (dates ++ [x])
             (match x with Some k => bump k g | None => g end).
Proof.
  intros [Hs Hc Hd]. destruct x as [k|].
  - split.
    + apply bump_sorted, Hs.
    + intros d c Hin. rewrite admissions_on_snoc.
      destruct (bump_rows _ _ _ _ Hs Hin)
        as [[Hne Hg]|[(-> & -> & Hnot)|(-> & c0 & Hc0 & ->)]].
      * rewrite decide_False by congruence. rewrite (Hc _ _ Hg). lia.
      * rewrite decide_True by reflexivity.
        assert (~ 1 <= admissions_on k dates) as Hz.
        { rewrite admissions_on_pos, <- Hd. exact Hnot. }
        unfold admissions_on, len in *. lia.
      * rewrite decide_True by reflexivity. rewrite (Hc _ _ Hc0). reflexivity.
    + intros d. rewrite bump_keys, Hd, elem_of_app, list_elem_of_singleton.
      split.
      * intros [->|Hr]; [right; reflexivity | left; exact Hr].
      * intros [Hl|[= ->]]; [right; exact Hl | left; reflexivity].
  - split.
    + exact Hs.
    + intros d c Hin. rewrite admissions_on_snoc, decide_False by discriminate.
      rewrite (Hc _ _ Hin). lia.
    + intros d. rewrite Hd, elem_of_app, list_elem_of_singleton.
      split; [auto | intros [Hl|Hr]; [exact Hl | discriminate]].
Qed.

Lemma groupby_size_from dates0 g0 dates :
  grouped_by dates0 g0 ->
  grouped_by (dates0 ++ dates)
    (fold_left (fun groups x =>
                  match x with Some k => bump k groups | None => groups end)
               dates g0).
Proof.
  revert dates0 g0. induction dates as [|x dates IH]; intros dates0 g0 Hg; simpl.
  - rewrite app_nil_r. exact Hg.
  - replace (dates0 ++ x :: dates) with ((dates0 ++ [x]) ++ dates)
      by (rewrite <- app_assoc; reflexivity).
    apply IH. apply (grouped_by_step dates0 g0 x Hg).
Qed.

Lemma groupby_size_grouped dates : grouped_by dates (groupby_size dates).
Proof. apply (groupby_size_from [] [] dates), grouped_by_nil. Qed.

(** Dates in increasing order within [[d0, dN]] are at most
    [dN - d0 + 1]. *)
Lemma sorted_within_length (ds : list Z) d0 dN :
  StronglySorted Z.lt ds ->
  (forall d, d ∈ ds -> d0 <= d <= dN) ->
  ds = [] \/ len ds <= dN - d0 + 1.
Proof.
  revert d0. induction ds as [|d ds IH]; intros d0 Hs Hb; [left; reflexivity|].
  right. apply StronglySorted_inv in Hs as [Hs Hall]. rewrite Forall_forall in Hall.
  assert (d0 <= d <= dN) by (apply Hb; left).
  destruct (IH (d + 1) Hs) as [->|Hlen].
  - intros x Hx. specialize (Hall x Hx).
    specialize (Hb x (list_elem_of_further _ _ _ Hx)). lia.
  - unfold len. simpl. lia.
  - unfold len in *. simpl length. lia.
Qed.

End Groupby.

(** ** Lag and rolling features; feature-complete rows *)

Lemma map_fmap {A B} (f : A -> B) (l : list A) : map f l = f <$> l.
Proof. reflexivity. Qed.

(** [dropna] keeps exactly the feature-complete rows: no other column of
    a daily row can be missing. *)
Lemma complete_feature_complete r : complete r <-> feature_complete r.
Proof.
  unfold complete, feature_complete, daily_columns, of_int. simpl.
  repeat rewrite andb_True. repeat rewrite bool_decide_spec.
  split.
  - intros (H1 & H2 & H3 & H4 & H5 & H6 & H7 & H8 & H9 & _).
    repeat split; assumption.
  - intros (H1 & H2 & H3 & H4 & H5 & H6 & H7 & H8 & H9).
    repeat split; assumption.
Qed.

Lemma dropna_feature_complete rows : dropna rows = filter feature_complete rows.
Proof. apply list_filter_iff. intros r. apply complete_feature_complete. Qed.

Lemma mean_is_Some (l : list Q) : is_Some (mean l) <-> l <> [].
Proof.
  destruct l; simpl; split; intros Hs; try congruence; eauto.
  destruct Hs; discriminate.
Qed.

Lemma nth_float_shift (k : nat) (l : list Z) (i : nat) :
  (i < length l)%nat ->
  nth_float (shift k l) i
  = if (i <? k)%nat then None else (fun c => inject_Z c) <$> l !! (i - k)%nat.
Proof.
  intros Hi. unfold nth_float, shift. rewrite lookup_take_lt by exact Hi.
  destruct (i <? k)%nat eqn:E.
  - apply Nat.ltb_lt in E. rewrite lookup_app_l by (rewrite length_replicate; lia).
    rewrite lookup_replicate_2 by exact E. reflexivity.
  - apply Nat.ltb_ge in E. rewrite lookup_app_r by (rewrite length_replicate; lia).
    rewrite length_replicate, map_fmap, list_lookup_fmap.
    destruct (l !! (i - k)%nat) eqn:El; simpl; [reflexivity|].
    apply lookup_ge_None in El. lia.
Qed.

Lemma shift_is_Some (k : nat) (l : list Z) (i : nat) :
  (i < length l)%nat -> is_Some (nth_float (shift k l) i) <-> (k <= i)%nat.
Proof.
  intros Hi. rewrite nth_float_shift by exact Hi.
  destruct (i <? k)%nat eqn:E.
  - apply Nat.ltb_lt in E. split; [intros [x Hx]; discriminate | lia].
  - apply Nat.ltb_ge in E. split; [intros _; exact E | intros _].
    destruct (lookup_lt_is_Some_2 l (i - k)%nat) as [c ->]; [lia|]. simpl. eauto.
Qed.

Lemma nth_float_rolling (w : nat) (l : list Z) (i : nat) :
  (i < length l)%nat ->
  nth_float (rolling_mean w l) i
  = if (S i <? w)%nat then None
    else mean (map inject_Z (take w (drop (S i - w) l))).
Proof.
  intros Hi. unfold nth_float, rolling_mean.
  rewrite map_fmap, list_lookup_fmap, lookup_seq_lt by exact Hi. reflexivity.
Qed.

Lemma rolling_is_Some (w : nat) (l : list Z) (i : nat) :
  (0 < w)%nat -> (i < length l)%nat ->
  is_Some (nth_float (rolling_mean w l) i) <-> (w <= S i)%nat.
Proof.
  intros Hw Hi. rewrite nth_float_rolling by exact Hi.
  destruct (S i <? w)%nat eqn:E.
  - apply Nat.ltb_lt in E. split; [intros [x Hx]; discriminate | lia].
  - apply Nat.ltb_ge in E. split; [intros _; exact E | intros _].
    apply mean_is_Some. intros Hnil.
    apply (f_equal length) in Hnil. rewrite length_map, length_take, length_drop in Hnil.
    simpl in Hnil. lia.
Qed.

(** The row that [_add_temporal_features] makes of the [i]-th row of the
    [groupby] frame keeps its date and its count. *)
Lemma temporal_features_lookup (g : list (Z * Z)) (i : nat) (r : DailyRow) :
  temporal_features g !! i = Some r ->
  exists t c, g !! i = Some (t, c)
    /\ admission_date r = t /\ admission_count r = c
    /\ (feature_complete r <-> (30 <= i)%nat).
Proof.
  unfold temporal_features. rewrite list_lookup_imap.
  destruct (g !! i) as [[t c]|] eqn:Eg; simpl; [|discriminate].
  intros [= <-]. exists t, c.
  split; [reflexivity|]. split; [reflexivity|]. split; [reflexivity|].
  unfold feature_complete. simpl. split.
  - intros (H1 & H2 & H3 & H4 & H5 & _).
    apply shift_is_Some in H5; [exact H5|].
    rewrite length_map. apply lookup_lt_Some in Eg. exact Eg.
  - intros Hi.
    assert (i < length (map snd g))%nat as Hlen
      by (rewrite length_map; apply lookup_lt_Some in Eg; exact Eg).
    repeat split;
      first [ apply shift_is_Some; [exact Hlen | lia]
            | apply rolling_is_Some; [lia | exact Hlen | lia] ].
Qed.

Lemma temporal_features_length (g : list (Z * Z)) :
  length (temporal_features g) = length g.
Proof. unfold temporal_features. apply length_imap. Qed.

Lemma temporal_features_dates (g : list (Z * Z)) :
  map admission_date (temporal_features g) = map fst g.
Proof.
  apply list_eq. intros i. rewrite !map_fmap, !list_lookup_fmap.
  destruct (temporal_features g !! i) as [r|] eqn:E; simpl.
  - destruct (temporal_features_lookup _ _ _ E) as (t & c & -> & -> & _). reflexivity.
  - apply lookup_ge_None in E. rewrite temporal_features_length in E.
    apply lookup_ge_None in E. rewrite E. reflexivity.
Qed.

Lemma temporal_features_counts (g : list (Z * Z)) :
  map admission_count (temporal_features g) = map snd g.
Proof.
  apply list_eq. intros i. rewrite !map_fmap, !list_lookup_fmap.
  destruct (temporal_features g !! i) as [r|] eqn:E; simpl.
  - destruct (temporal_features_lookup _ _ _ E) as (t & c & -> & _ & -> & _). reflexivity.
  - apply lookup_ge_None in E. rewrite temporal_features_length in E.
    apply lookup_ge_None in E. rewrite E. reflexivity.
Qed.

Lemma filter_from_index {A} (P : A -> Prop) `{forall x, Decision (P x)}
    (l : list A) (n : nat) :
  (forall i x, l !! i = Some x -> (P x <-> (n <= i)%nat)) ->
  filter P l = drop n l.
Proof.
  revert n. induction l as [|x l IH]; intros n Hl; [destruct n; reflexivity|].
  destruct n as [|n].
  - rewrite filter_cons_True by (apply (Hl 0%nat); [reflexivity | lia]).
    rewrite (IH 0%nat); [reflexivity|].
    intros i y Hy. split; [lia | intros _]. apply (Hl (S i)); [exact Hy | lia].
  - rewrite filter_cons_False.
    + simpl. apply IH. intros i y Hy. rewrite (Hl (S i) y Hy). lia.
    + intros HP. apply (Hl 0%nat) in HP; [lia | reflexivity].
Qed.

(** The feature-complete rows of a daily frame are all but its first
    thirty. *)
Lemma dropna_temporal_features (g : list (Z * Z)) :
  dropna (temporal_features g) = drop 30 (temporal_features g).
Proof.
  rewrite dropna_feature_complete. apply filter_from_index.
  intros i r Hr. destruct (temporal_features_lookup _ _ _ Hr) as (_ & _ & _ & _ & _ & Hc).
  exact Hc.
Qed.

(** ** Running the constructor *)

Lemma bind_run {A B} (m : M A) (k : A -> M B) (h h' : store) (a : A) :
  m h = (Returned a, h') -> mbind_M m k h = k a h'.
Proof. intros Hm. unfold mbind_M. rewrite Hm. reflexivity. Qed.

Lemma bind_ret {A B} (a : A) (k : A -> M B) (h : store) :
  mbind_M (mret a) k h = k a h.
Proof. reflexivity. Qed.

Lemma getitem_run d name c cols (h : store) :
  h !! d = Some (OFrame cols) -> cols !! name = Some c ->
  getitem d name h = (Returned c, h).
Proof.
  intros Hd Hc. unfold getitem, mbind_M, read. rewrite Hd. unfold mret.
  rewrite Hc. reflexivity.
Qed.

Lemma setitem_run d name c cols (h : store) :
  h !! d = Some (OFrame cols) ->
  setitem d name c h = (Returned tt, <[d := OFrame (<[name := c]> cols)]> h).
Proof.
  intros Hd. unfold setitem, mbind_M, read. rewrite Hd. reflexivity.
Qed.

Lemma holiday_run d cols years dates (h : store) :
  h !! d = Some (OFrame cols) ->
  cols !! "year"%string = Some (ColNum years) ->
  cols !! "admission_date"%string = Some (ColDate dates) ->
  exists c, _create_holiday_indicator d h = (Returned c, h).
Proof.
  intros Hd Hy Ha. unfold _create_holiday_indicator.
  erewrite bind_run by (eapply getitem_run; eassumption).
  simpl numbers. rewrite bind_ret.
  erewrite bind_run by (eapply getitem_run; eassumption).
  simpl dt. rewrite bind_ret. eexists. reflexivity.
Qed.

Lemma add_temporal_features_run df g (h : store) :
  h !! df = Some (OCounts g) ->
  exists daily h',
    _add_temporal_features df h = (Returned daily, h')
    /\ h' !! daily = Some (ODaily (temporal_features g)).
Proof.
  intros Hdf. unfold _add_temporal_features, copy, mbind_M, read, alloc.
  rewrite Hdf. simpl. rewrite lookup_insert_eq.
  eexists _, _. split; [reflexivity | apply lookup_insert_eq].
Qed.

Ltac frame_lookup :=
  repeat first
    [ eassumption
    | apply lookup_insert_eq
    | rewrite lookup_insert_ne by discriminate ].

Ltac run_getitem :=
  erewrite bind_run by (eapply getitem_run; frame_lookup).

Ltac run_setitem :=
  erewrite bind_run by (eapply setitem_run; frame_lookup).

(** On a table with the two date columns the preparation succeeds, and
    the daily frame is made of the admission dates alone. *)
Lemma prepare_data_run d cols doa dod (h : store) :
  h !! d = Some (OFrame cols) ->
  cols !! "D.O.A"%string = Some doa -> cols !! "D.O.D"%string = Some dod ->
  exists daily h',
    _prepare_data d h = (Returned daily, h')
    /\ h' !! daily
       = Some (ODaily (temporal_features (groupby_size (to_datetime doa)))).
Proof.
  intros Hd Hdoa Hdod. unfold _prepare_data.
  run_getitem. run_setitem. run_getitem. run_setitem. run_getitem.
  simpl dt. rewrite bind_ret.
  do 6 run_setitem.
  run_getitem. unfold dt_field at 1. simpl numbers. rewrite bind_ret.
  run_setitem.
  run_getitem. unfold dt_field at 1. simpl numbers. rewrite bind_ret.
  run_setitem.
  match goal with
  | |- context [mbind_M (_create_holiday_indicator d) _ ?h0] =>
      destruct (holiday_run d _ _ (to_datetime doa) h0
                  ltac:(apply lookup_insert_eq)
                  ltac:(unfold dt_field; frame_lookup)
                  ltac:(frame_lookup)) as [hol Hhol]
  end.
  erewrite bind_run by exact Hhol.
  run_setitem. run_getitem. simpl dt. rewrite bind_ret.
  unfold mbind_M at 1, alloc at 1.
  apply add_temporal_features_run. apply lookup_insert_eq.
Qed.

Lemma init_run l cols doa dod (h : store) :
  h !! l = Some (OFrame cols) ->
  cols !! "D.O.A"%string = Some doa -> cols !! "D.O.D"%string = Some dod ->
  exists self h',
    __init__ l h = (Returned self, h')
    /\ daily_rows self h'
       = (Returned (temporal_features (groupby_size (to_datetime doa))), h').
Proof.
  intros Hl Hdoa Hdod. unfold __init__, copy.
  unfold mbind_M at 1 2, read. rewrite Hl. unfold alloc at 1.
  destruct (prepare_data_run (fresh (dom h)) cols doa dod
              (<[fresh (dom h) := OFrame cols]> h)
              ltac:(apply lookup_insert_eq) Hdoa Hdod)
    as (daily & h' & Hrun & Hdaily).
  erewrite bind_run by exact Hrun. unfold mret.
  eexists _, h'. split; [reflexivity|].
  unfold daily_rows, mbind_M, read. simpl. rewrite Hdaily. reflexivity.
Qed.

Lemma caller_table_untouched_witness :
  (@session Sample.estimators 1%positive
     [call_predict_daily_admissions 7; call_predict_busy_periods 75;
      call_analyze_capacity_requirements]
     (Sample.caller_store Sample.sparse)).2 !! 1%positive
  = Some (Sample.table Sample.sparse)
  /\ (forall self h',
        __init__ 1%positive (Sample.caller_store Sample.sparse) = (Returned self, h') ->
        data self <> 1%positive
        /\ h' !! 1%positive = Some (Sample.table Sample.sparse)).
Proof.
  apply (@caller_table_untouched Sample.estimators). reflexivity.
Defined.

(** ** C1: the daily aggregate has a row per observed date *)

(** C1, as the code has it.  The daily frame that the constructor builds
    has one row for every date on which the table has an admission, in
    strictly increasing order of date; the count of a row is the number
    of admissions of its date, at least 1.  A date of the span without an
    admission has no row: there are at most [dN - d0 + 1] rows. *)
Theorem daily_rows_per_observed_date (h : store) (admission_data : loc)
    (cols : gmap string column) (doa dod : column) :
  h !! admission_data = Some (OFrame cols) ->
  cols !! "D.O.A"%string = Some doa ->
  cols !! "D.O.D"%string = Some dod ->
  exists self h' rows,
    __init__ admission_data h = (Returned self, h')
    /\ daily_rows self h' = (Returned rows, h')
    /\ StronglySorted Z.lt (map admission_date rows)
    /\ (forall d, d ∈ map admission_date rows <-> Some d ∈ to_datetime doa)
    /\ (forall r, r ∈ rows ->
          admission_count r = admissions_on (admission_date r) (to_datetime doa)
          /\ 1 <= admission_count r)
    /\ (forall d0 dN, spans (to_datetime doa) d0 dN -> len rows <= dN - d0 + 1).
Proof.
  intros Hl Hdoa Hdod.
  destruct (init_run _ _ _ _ _ Hl Hdoa Hdod) as (self & h' & Hinit & Hrows).
  pose proof (groupby_size_grouped (to_datetime doa)) as [Hs Hc Hd].
  exists self, h', (temporal_features (groupby_size (to_datetime doa))).
  split; [exact Hinit|]. split; [exact Hrows|].
  rewrite temporal_features_dates.
  split; [exact Hs|]. split; [exact Hd|]. split.
  - intros r Hr. apply list_elem_of_lookup in Hr as [i Hi].
    destruct (temporal_features_lookup _ _ _ Hi) as (t & c & Hg & -> & -> & _).
    assert ((t, c) ∈ groupby_size (to_datetime doa)) as Hin
      by (apply list_elem_of_lookup; eauto).
    rewrite (Hc _ _ Hin). split; [reflexivity|].
    apply admissions_on_pos, Hd.
    apply (list_elem_of_fmap_2 fst) in Hin. exact Hin.
  - intros d0 dN (H0 & HN & Hb).
    destruct (sorted_within_length (map fst (groupby_size (to_datetime doa))) d0 dN Hs)
      as [Hnil|Hlen].
    + intros d Hin. apply Hb, Hd, Hin.
    + apply Hd in H0. rewrite Hnil in H0. inversion H0.
    + unfold len in *. rewrite temporal_features_length.
      rewrite length_map in Hlen. exact Hlen.
Qed.

Lemma daily_rows_per_observed_date_witness :
  exists self h' rows,
    __init__ 1%positive (Sample.caller_store Sample.sparse) = (Returned self, h')
    /\ daily_rows self h' = (Returned rows, h')
    /\ StronglySorted Z.lt (map admission_date rows)
    /\ (forall d, d ∈ map admission_date rows
          <-> Some d ∈ to_datetime (ColText (map Some Sample.sparse)))
    /\ (forall r, r ∈ rows ->
          admission_count r
          = admissions_on (admission_date r) (to_datetime (ColText (map Some Sample.sparse)))
          /\ 1 <= admission_count r)
    /\ (forall d0 dN, spans (to_datetime (ColText (map Some Sample.sparse))) d0 dN ->
          len rows <= dN - d0 + 1).
Proof.
  apply (daily_rows_per_observed_date (Sample.caller_store Sample.sparse) 1%positive
           (<["D.O.A"%string := ColText (map Some Sample.sparse)]>
              (<["D.O.D"%string := ColText (map Some Sample.sparse)]> ∅))
           (ColText (map Some Sample.sparse)) (ColText (map Some Sample.sparse)));
    reflexivity.
Defined.

(** C1, as the spec has it, fails on a table with admissions on
    2020-01-01 and 2020-01-03 only: the span has three dates, the daily
    frame two rows, and none for 2020-01-02. *)
Lemma daily_rows_gap_counterexample :
  exists rows,
    Sample.daily_frame Sample.sparse = Some rows
    /\ spans (to_datetime (ColText (map Some Sample.sparse))) 18262 18264
    /\ map (fun r => (admission_date r, admission_count r)) rows
       = [(18262, 2); (18264, 1)]
    /\ ~ one_row_per_calendar_date (to_datetime (ColText (map Some Sample.sparse))) rows.
Proof.
  eexists. split; [vm_compute; reflexivity|].
  assert (spans (to_datetime (ColText (map Some Sample.sparse))) 18262 18264) as Hspan.
  { change (to_datetime (ColText (map Some Sample.sparse)))
      with [Some 18262; Some 18264; None; Some 18262].
    split; [left|]. split; [right; left|].
    intros d Hd. repeat (apply elem_of_cons in Hd as [[= ->]|Hd]); try lia; try discriminate.
    inversion Hd. }
  split; [exact Hspan|]. split; [reflexivity|].
  intros Hclaim. specialize (Hclaim _ _ Hspan). vm_compute in Hclaim. discriminate Hclaim.
Qed.

(** ** C2: too few feature-complete rows *)

Lemma daily_rows_run (self : AdmissionPredictor) (rows : list DailyRow) (h : store) :
  h !! daily_admissions self = Some (ODaily rows) ->
  daily_rows self h = (Returned rows, h).
Proof. intros Hd. unfold daily_rows, mbind_M, read. rewrite Hd. reflexivity. Qed.

Section Insufficient.

Context `{Sklearn}.

Lemma predict_daily_admissions_run self rows days_ahead (h : store) :
  h !! daily_admissions self = Some (ODaily rows) ->
  predict_daily_admissions self days_ahead h
  = (predict_daily_admissions_on rows days_ahead, h).
Proof.
  intros Hd. unfold predict_daily_admissions.
  erewrite bind_run by (apply daily_rows_run, Hd). reflexivity.
Qed.

Lemma predict_busy_periods_run self rows q (h : store) :
  h !! daily_admissions self = Some (ODaily rows) ->
  predict_busy_periods self q h = (predict_busy_periods_on rows q, h).
Proof.
  intros Hd. unfold predict_busy_periods.
  erewrite bind_run by (apply daily_rows_run, Hd). reflexivity.
Qed.

(** C2, as the code has it.  With fewer than 30 feature-complete rows in
    the daily frame, [predict_daily_admissions] returns the dictionary
    [{'error': 'Insufficient data for prediction'}] to the caller: it
    raises nothing, trains nothing and leaves the store as it is.  For
    the frame the constructor builds, the feature-complete rows are all
    but the first 30. *)
Theorem insufficient_data_returns_error (h : store) (self : AdmissionPredictor)
    (rows : list DailyRow) (days_ahead : Z) :
  h !! daily_admissions self = Some (ODaily rows) ->
  (length (filter feature_complete rows) < 30)%nat ->
  predict_daily_admissions self days_ahead h
  = (Returned (DictError "Insufficient data for prediction"), h)
  /\ (forall g, rows = temporal_features g ->
        filter feature_complete rows = drop 30 rows).
Proof.
  intros Hd Hlen. split.
  - rewrite (predict_daily_admissions_run _ _ _ _ Hd).
    unfold predict_daily_admissions_on.
    rewrite dropna_feature_complete.
    apply Nat.ltb_lt in Hlen. rewrite Hlen. reflexivity.
  - intros g ->. rewrite <- dropna_feature_complete.
    apply dropna_temporal_features.
Qed.

End Insufficient.

Example rows60_is_daily_frame :
  Sample.daily_frame (Sample.alternating 60) = Some Sample.rows60.
Proof. vm_compute. reflexivity. Qed.

Example rows59_is_daily_frame :
  Sample.daily_frame (Sample.alternating 59) = Some Sample.rows59.
Proof. vm_compute. reflexivity. Qed.

Example predictor_of_60_days :
  (Sample.constructed (Sample.alternating 60)).1 = Returned Sample.predictor
  /\ Sample.store60 !! daily_admissions Sample.predictor = Some (ODaily Sample.rows60).
Proof. split; vm_compute; reflexivity. Qed.

Example predictor_of_59_days :
  (Sample.constructed (Sample.alternating 59)).1 = Returned Sample.predictor
  /\ Sample.store59 !! daily_admissions Sample.predictor = Some (ODaily Sample.rows59).
Proof. split; vm_compute; reflexivity. Qed.

Lemma insufficient_data_returns_error_witness :
  @predict_daily_admissions Sample.estimators Sample.predictor 30 Sample.store59
  = (Returned (DictError "Insufficient data for prediction"), Sample.store59)
  /\ (forall g, Sample.rows59 = temporal_features g ->
        filter feature_complete Sample.rows59 = drop 30 Sample.rows59).
Proof.
  apply (@insufficient_data_returns_error Sample.estimators).
  - vm_compute. reflexivity.
  - vm_compute. lia.
Defined.

(** C2, as the spec has it, fails: on a table of 59 consecutive days,
    with 29 feature-complete rows, the call returns the dictionary of the
    error and does not raise [InsufficientDataError]. *)
Lemma insufficient_data_counterexample :
  let r := ((let+ self := __init__ 1%positive in
             @predict_daily_admissions Sample.estimators self 30)
              (Sample.caller_store (Sample.alternating 59))).1 in
  length (filter feature_complete Sample.rows59) = 29%nat
  /\ r = Returned (DictError "Insufficient data for prediction")
  /\ r <> Raised "InsufficientDataError".
Proof.
  assert (((let+ self := __init__ 1%positive in
            @predict_daily_admissions Sample.estimators self 30)
             (Sample.caller_store (Sample.alternating 59))).1
          = Returned (DictError "Insufficient data for prediction")) as Hr
    by (vm_compute; reflexivity).
  cbv zeta. rewrite Hr. split; [vm_compute; reflexivity|].
  split; [reflexivity | discriminate].
Qed.

(** ** Training and forecasting on sufficient data *)

Lemma select_columns_feature_cols rows :
  select_columns feature_cols rows = Returned (map feature_row rows).
Proof. reflexivity. Qed.

Lemma select_features_dict (v1 v2 v3 v4 v5 v6 rv : option Q) :
  select_features feature_cols
    (<["admission_count_rolling_7" := rv]>
    (<["admission_count_rolling_3" := rv]>
    (<["admission_count_lag_7" := rv]>
    (<["admission_count_lag_3" := rv]>
    (<["admission_count_lag_1" := rv]>
    (<["season" := v6]>
    (<["is_weekend" := v5]>
    (<["week_of_year" := v4]>
    (<["day_of_year" := v3]>
    (<["day_of_week" := v2]>
    (<["month" := v1]> (∅ : gmap string (option Q)))))))))))))
  = Returned [v1; v2; v3; v4; v5; v6; rv; rv; rv; rv; rv].
Proof. vm_compute. reflexivity. Qed.

Lemma n_test_bounds (n : nat) :
  (2 <= n)%nat ->
  (1 <= Qceiling_nat (TEST_SIZE * inject_Z (Z.of_nat n)) < n)%nat.
Proof.
  intros Hn. unfold Qceiling_nat.
  pose proof (Qle_ceiling (TEST_SIZE * inject_Z (Z.of_nat n))) as H1.
  pose proof (Qceiling_lt (TEST_SIZE * inject_Z (Z.of_nat n))) as H2.
  set (c := Qceiling _) in *.
  unfold Qle, Qlt, TEST_SIZE in *. simpl in *. lia.
Qed.

Lemma feature_row_complete r :
  feature_complete r -> exists x, mapM id (feature_row r) = Some x.
Proof.
  intros (H1 & H3 & H7 & _ & _ & R3 & R7 & _).
  destruct H1 as [a1 E1], H3 as [a3 E3], H7 as [a7 E7], R3 as [b3 F3], R7 as [b7 F7].
  unfold feature_row, of_int. rewrite E1, E3, E7, F3, F7. eexists. reflexivity.
Qed.

Lemma check_array_complete rows :
  Forall feature_complete rows ->
  exists X, check_array (map feature_row rows) = Returned X
            /\ length X = length rows.
Proof.
  intros Hall. unfold check_array.
  destruct (mapM (mapM id) (map feature_row rows)) as [X|] eqn:E.
  - exists X. split; [reflexivity|].
    apply length_mapM in E. rewrite length_map in E. auto.
  - apply mapM_None_1 in E. apply Exists_exists in E as (row & Hin & Hnone).
    rewrite map_fmap in Hin. apply list_elem_of_fmap in Hin as (r & -> & Hr).
    rewrite Forall_forall in Hall.
    destruct (feature_row_complete r (Hall r Hr)) as [x Hx]. congruence.
Qed.

Lemma metric_mean_returns (l : list Q) : l <> [] -> exists m, metric_mean l = Returned m.
Proof.
  intros Hl. unfold metric_mean. destruct (proj2 (mean_is_Some l) Hl) as [m ->]. eauto.
Qed.

Lemma residuals_nonempty (y p : list Q) : y <> [] -> p <> [] -> residuals y p <> [].
Proof. destruct y, p; simpl; congruence. Qed.

Section Returns.

Context `{Sklearn}.

Lemma evaluate_returns X_train X_test y_train y_test e :
  X_test <> [] -> y_test <> [] ->
  exists r, evaluate X_train X_test y_train y_test e = Returned r
            /\ model r = fit e X_train y_train.
Proof.
  intros HX Hy. unfold evaluate, mean_absolute_error, mean_squared_error, r2_score.
  assert (residuals y_test (map (predict (fit e X_train y_train)) X_test) <> []) as Hres.
  { apply residuals_nonempty; [exact Hy|]. destruct X_test; simpl; congruence. }
  destruct (metric_mean_returns (map Qabs (residuals y_test
              (map (predict (fit e X_train y_train)) X_test)))) as [a ->].
  { destruct (residuals _ _); simpl; congruence. }
  destruct (metric_mean_returns (map Qsquare (residuals y_test
              (map (predict (fit e X_train y_train)) X_test)))) as [b ->].
  { destruct (residuals _ _); simpl; congruence. }
  destruct (metric_mean_returns y_test Hy) as [c ->].
  simpl. eexists. split; reflexivity.
Qed.

Lemma train_all_returns X_train X_test y_train y_test ms :
  X_test <> [] -> y_test <> [] ->
  exists rs, train_all X_train X_test y_train y_test ms = Returned rs
             /\ map fst rs = map fst ms.
Proof.
  intros HX Hy. induction ms as [|[name e] ms (rs & IH & Hnames)]; simpl.
  - exists []. split; reflexivity.
  - destruct (evaluate_returns X_train X_test y_train y_test e HX Hy) as (r & -> & _).
    simpl. rewrite IH. simpl. exists ((name, r) :: rs). split; [reflexivity|].
    simpl. rewrite Hnames. reflexivity.
Qed.
End Returns.

Lemma select_future_features rows t :
  select_features feature_cols (future_features rows t)
  = Returned (future_vector rows t).
Proof. unfold future_features. apply select_features_dict. Qed.

Lemma recent_mean_is_Some rows : rows <> [] -> is_Some (recent_mean rows).
Proof.
  intros Hr. apply mean_is_Some. intros Hnil. apply (f_equal length) in Hnil.
  unfold tail in Hnil. rewrite length_map, length_drop, length_map in Hnil.
  destruct rows; [congruence|]. simpl in Hnil. lia.
Qed.

Lemma forecast_point_Some rows m rv t :
  recent_mean rows = Some rv ->
  forecast_point rows m feature_cols (Some t) = Returned (point_of m rv t).
Proof.
  intros Hrv. unfold forecast_point. rewrite select_future_features.
  unfold future_vector. rewrite Hrv. reflexivity.
Qed.

Lemma future_loop_spec rows m cols ds acc :
  future_loop rows m cols ds acc
  = let* points := points_of rows m cols ds in Returned (acc ++ points).
Proof.
  unfold points_of. revert acc. induction ds as [|d ds IH]; intros acc; simpl.
  - rewrite app_nil_r. reflexivity.
  - destruct (forecast_point rows m cols d) as [p|e]; simpl; [|reflexivity].
    rewrite IH.
    destruct (foldr _ _ ds) as [ps|e]; simpl; [|reflexivity].
    rewrite <- app_assoc. reflexivity.
Qed.

Lemma future_points_returns rows m rv (ts : list Z) :
  recent_mean rows = Some rv ->
  points_of rows m feature_cols (map Some ts)
  = Returned (map (point_of m rv) ts).
Proof.
  intros Hrv. unfold points_of. induction ts as [|t ts IH]; [reflexivity|].
  cbn [map foldr fold_right].
  rewrite (forecast_point_Some _ _ _ _ Hrv), IH. reflexivity.
Qed.

Lemma max_date_is_Some rows : rows <> [] -> is_Some (max_date rows).
Proof. destruct rows; [congruence | simpl; eauto]. Qed.

(** On a frame that is not empty the forecast is one point per day after
    the last date, each computed from the date and the frame alone. *)
Lemma generate_future_predictions_returns rows m days_ahead last rv :
  max_date rows = Some last -> recent_mean rows = Some rv ->
  _generate_future_predictions rows m feature_cols days_ahead
  = Returned (map (fun i => point_of m rv (last + (i + 1))) (range days_ahead)).
Proof.
  intros Hlast Hrv. unfold _generate_future_predictions. rewrite Hlast. simpl.
  rewrite future_loop_spec.
  replace (map (fun i => Some (last + (i + 1))) (range days_ahead))
    with (map Some (map (fun i => last + (i + 1)) (range days_ahead)))
    by (rewrite map_map; reflexivity).
  rewrite (future_points_returns _ _ _ _ Hrv). simpl.
  rewrite map_map. reflexivity.
Qed.

Section Forecasts.

Context `{Sklearn}.

(** What [predict_daily_admissions] computes on 30 feature-complete rows
    or more: the three candidates are trained and scored, the best is
    taken by [max], and the forecast is made with its model. *)
Lemma predict_daily_admissions_on_returns rows days_ahead :
  (30 <= length (dropna rows))%nat ->
  exists rs best last rv,
    map fst rs = map fst models
    /\ py_max (fun kv => r2 (snd kv)) rs = Returned best
    /\ max_date rows = Some last
    /\ recent_mean rows = Some rv
    /\ predict_daily_admissions_on rows days_ahead
       = Returned (DictForecast
           {| best_model := fst best;
              model_metrics := map metrics_of rs;
              future_predictions :=
                map (fun i => point_of (model (snd best)) rv (last + (i + 1)))
                    (range days_ahead);
              feature_importance :=
                _get_feature_importance (model (snd best)) feature_cols |}).
Proof.
  intros Hlen. unfold predict_daily_admissions_on.
  assert ((length (dropna rows) <? 30)%nat = false) as -> by (apply Nat.ltb_ge, Hlen).
  rewrite select_columns_feature_cols.
  destruct (check_array_complete (dropna rows)) as (X & HX & HlenX).
  { rewrite dropna_feature_complete. apply Forall_forall.
    intros r Hr. apply list_elem_of_filter in Hr. tauto. }
  cbn [rbind]. rewrite HX. cbn [rbind].
  unfold train_test_split.
  pose proof (n_test_bounds (length X) ltac:(lia)) as Hn.
  set (n_test := Qceiling_nat (TEST_SIZE * inject_Z (Z.of_nat (length X)))) in *.
  assert ((length X - n_test =? 0)%nat = false) as -> by (apply Nat.eqb_neq; lia).
  cbn [rbind].
  set (y := floats (map admission_count (dropna rows))).
  assert (length y = length X) as Hy
    by (unfold y, floats; rewrite !length_map; lia).
  destruct (train_all_returns (take (length X - n_test) X) (drop (length X - n_test) X)
              (take (length X - n_test) y) (drop (length X - n_test) y) models)
    as (rs & -> & Hnames).
  { intros Hnil. apply (f_equal length) in Hnil. rewrite length_drop in Hnil.
    simpl in Hnil. lia. }
  { intros Hnil. apply (f_equal length) in Hnil. rewrite length_drop in Hnil.
    simpl in Hnil. lia. }
  cbn [rbind].
  destruct rs as [|best0 rs]; [discriminate Hnames|].
  assert (rows <> []) as Hrows.
  { intros ->. simpl in Hlen. lia. }
  destruct (max_date_is_Some rows Hrows) as [last Hlast].
  destruct (recent_mean_is_Some rows Hrows) as [rv Hrv].
  exists (best0 :: rs), (max_from (fun kv => r2 (snd kv)) best0 rs), last, rv.
  split; [exact Hnames|]. split; [reflexivity|].
  split; [exact Hlast|]. split; [exact Hrv|].
  unfold py_max. cbn [rbind].
  rewrite (generate_future_predictions_returns _ _ _ _ _ Hlast Hrv).
  reflexivity.
Qed.

(** [predict_daily_admissions] returns on every daily frame. *)
Lemma predict_daily_admissions_on_total rows days_ahead :
  exists d, predict_daily_admissions_on rows days_ahead = Returned d.
Proof.
  destruct (Nat.lt_ge_cases (length (dropna rows)) 30) as [Hlt|Hge].
  - unfold predict_daily_admissions_on.
    apply Nat.ltb_lt in Hlt. rewrite Hlt. eauto.
  - destruct (predict_daily_admissions_on_returns rows days_ahead Hge)
      as (rs & best & last & rv & _ & _ & _ & _ & ->). eauto.
Qed.

End Forecasts.

(** ** C4: the choice of the best model *)

Lemma Qltb_lt (x y : Q) : Qltb x y = true <-> (x < y)%Q.
Proof.
  unfold Qltb. rewrite negb_true_iff. split.
  - intros Hf. apply Qnot_le_lt. intros Hle.
    apply Qle_bool_iff in Hle. congruence.
  - intros Hlt. destruct (Qle_bool y x) eqn:E; [|reflexivity].
    apply Qle_bool_iff in E. exfalso. exact (Qlt_not_le _ _ Hlt E).
Qed.

Lemma Qltb_ge (x y : Q) : Qltb x y = false <-> (y <= x)%Q.
Proof.
  unfold Qltb. rewrite negb_false_iff. apply Qle_bool_iff.
Qed.

(** [max] returns the first of the items whose key is the greatest:
    the items before it have a smaller key, those after it none
    greater. *)
Lemma max_from_first {A} (key : A -> Q) (l before after : list A) (best : A) :
  (forall x, x ∈ before -> (key x < key best)%Q) ->
  (forall x, x ∈ after -> (key x <= key best)%Q) ->
  exists before' after',
    before ++ best :: after ++ l = before' ++ max_from key best l :: after'
    /\ (forall x, x ∈ before' -> (key x < key (max_from key best l))%Q)
    /\ (forall x, x ∈ after' -> (key x <= key (max_from key best l))%Q).
Proof.
  revert before after best.
  induction l as [|x l IH]; intros before after best Hb Ha; simpl.
  - exists before, after. rewrite app_nil_r. auto.
  - destruct (Qltb (key best) (key x)) eqn:E.
    + apply Qltb_lt in E.
      destruct (IH (before ++ best :: after) [] x) as (b' & a' & Heq & Hb' & Ha').
      * intros y Hy. apply elem_of_app in Hy as [Hy|Hy].
        -- eapply Qlt_trans; [apply Hb, Hy | exact E].
        -- apply elem_of_cons in Hy as [->|Hy]; [exact E|].
           eapply Qle_lt_trans; [apply Ha, Hy | exact E].
      * intros y Hy. inversion Hy.
      * exists b', a'. split; [|auto].
        rewrite <- Heq. rewrite <- !app_assoc. reflexivity.
    + apply Qltb_ge in E.
      destruct (IH before (after ++ [x]) best) as (b' & a' & Heq & Hb' & Ha').
      * exact Hb.
      * intros y Hy. apply elem_of_app in Hy as [Hy|Hy]; [apply Ha, Hy|].
        apply list_elem_of_singleton in Hy as ->. exact E.
      * exists b', a'. split; [|auto].
        rewrite <- Heq. rewrite <- !app_assoc. reflexivity.
Qed.

Lemma py_max_first {A} (key : A -> Q) (l : list A) (best : A) :
  py_max key l = Returned best ->
  exists before after,
    l = before ++ best :: after
    /\ (forall x, x ∈ before -> (key x < key best)%Q)
    /\ (forall x, x ∈ after -> (key x <= key best)%Q).
Proof.
  destruct l as [|x l]; simpl; [discriminate|]. intros [= <-].
  destruct (max_from_first key l [] [] x) as (b & a & Heq & Hb & Ha).
  - intros y Hy. inversion Hy.
  - intros y Hy. inversion Hy.
  - exists b, a. auto.
Qed.

Section Selection.

Context `{Sklearn}.

(** C4, as the code has it.  When [predict_daily_admissions] returns a
    forecast, the three candidates are scored in the order
    [random_forest], [gradient_boosting], [linear_regression], and the
    best model is the first of them with the highest R²: the candidates
    before it have a strictly lower R², those after it none higher.  The
    MAE has no part in the choice. *)
Theorem best_model_first_highest_r2 (rows : list DailyRow) (days_ahead : Z)
    (f : Forecast) :
  predict_daily_admissions_on rows days_ahead = Returned (DictForecast f) ->
  map fst (model_metrics f)
  = ["random_forest"; "gradient_boosting"; "linear_regression"]%string
  /\ exists before best after,
       model_metrics f = before ++ (best_model f, best) :: after
       /\ (forall c, c ∈ before -> (metrics_r2 (snd c) < metrics_r2 best)%Q)
       /\ (forall c, c ∈ after -> (metrics_r2 (snd c) <= metrics_r2 best)%Q).
Proof.
  intros Hf.
  destruct (Nat.lt_ge_cases (length (dropna rows)) 30) as [Hlt|Hge].
  { unfold predict_daily_admissions_on in Hf.
    apply Nat.ltb_lt in Hlt. rewrite Hlt in Hf. discriminate Hf. }
  destruct (predict_daily_admissions_on_returns rows days_ahead Hge)
    as (rs & best & last & rv & Hnames & Hmax & _ & _ & Hret).
  rewrite Hret in Hf. injection Hf as <-. simpl.
  split.
  - rewrite map_map. simpl. exact Hnames.
  - destruct (py_max_first _ _ _ Hmax) as (b & a & -> & Hb & Ha).
    exists (map metrics_of b), (snd (metrics_of best)), (map metrics_of a).
    split; [rewrite map_app; reflexivity|]. split.
    + intros c Hc. rewrite map_fmap in Hc.
      apply list_elem_of_fmap in Hc as (kv & -> & Hkv). apply Hb, Hkv.
    + intros c Hc. rewrite map_fmap in Hc.
      apply list_elem_of_fmap in Hc as (kv & -> & Hkv). apply Ha, Hkv.
Qed.

End Selection.

Lemma best_model_first_highest_r2_witness :
  exists f,
    @predict_daily_admissions_on Sample.estimators Sample.rows60 7
    = Returned (DictForecast f)
    /\ map fst (model_metrics f)
       = ["random_forest"; "gradient_boosting"; "linear_regression"]%string
    /\ exists before best after,
         model_metrics f = before ++ (best_model f, best) :: after
         /\ (forall c, c ∈ before -> (metrics_r2 (snd c) < metrics_r2 best)%Q)
         /\ (forall c, c ∈ after -> (metrics_r2 (snd c) <= metrics_r2 best)%Q).
Proof.
  eexists. split; [vm_compute; reflexivity|].
  apply (@best_model_first_highest_r2 Sample.estimators Sample.rows60 7).
  vm_compute. reflexivity.
Defined.

(** C4, as the spec has it, fails on the sample of 60 days: the random
    forest and the gradient boosting have the same R² on the held-out
    rows, the gradient boosting has the lower MAE, and the random forest,
    the first of the two, is the best model. *)
Lemma best_model_tie_counterexample :
  exists f rf gb,
    @predict_daily_admissions_on Sample.estimators Sample.rows60 7
    = Returned (DictForecast f)
    /\ assoc "random_forest" (model_metrics f) = Some rf
    /\ assoc "gradient_boosting" (model_metrics f) = Some gb
    /\ (metrics_r2 rf == metrics_r2 gb)%Q
    /\ (metrics_mae gb < metrics_mae rf)%Q
    /\ best_model f = "random_forest"%string
    /\ best_model f <> "gradient_boosting"%string.
Proof.
  eexists _, _, _. split; [vm_compute; reflexivity|].
  split; [vm_compute; reflexivity|]. split; [vm_compute; reflexivity|].
  split; [reflexivity|]. split; [reflexivity|]. split; [reflexivity | discriminate].
Qed.

(** ** C5: the dates of the forecast *)




Section Horizon.

Context `{Sklearn}.


End Horizon.


Example forecast_of_the_sample :
  match ((let+ self := __init__ 1%positive in
          @predict_daily_admissions Sample.estimators self 3)
           (Sample.caller_store (Sample.alternating 60))).1 with
  | Returned (DictForecast f) => future_predictions f
  | _ => []
  end
  = [ {| date := "2021-03-02"; predicted_admissions := 2 |};
      {| date := "2021-03-03"; predicted_admissions := 2 |};
      {| date := "2021-03-04"; predicted_admissions := 2 |} ].
Proof. vm_compute. reflexivity. Qed.

(** ** C6: the predicted counts *)

Lemma py_round_nearest (x : Q) :
  (Qabs (x - inject_Z (py_round x)) <= 1 # 2)%Q.
Proof.
  unfold py_round.
  pose proof (Qfloor_le x) as Hlo. pose proof (Qlt_floor x) as Hhi.
  rewrite inject_Z_plus in Hhi. change (inject_Z 1) with 1%Q in Hhi.
  set (f := Qfloor x) in *.
  apply Qabs_Qle_condition.
  destruct (Qcompare_spec (x - inject_Z f) (1 # 2)) as [Heq|Hlt|Hgt].
  - destruct (Z.even f);
      [|rewrite inject_Z_plus; change (inject_Z 1) with 1%Q]; split; lra.
  - split; lra.
  - rewrite inject_Z_plus. change (inject_Z 1) with 1%Q. split; lra.
Qed.

Lemma future_points_inv rows m cols (ds : list (option Z)) (ps : list ForecastPoint) :
  points_of rows m cols ds = Returned ps ->
  Forall2 (fun d p => forecast_point rows m cols d = Returned p) ds ps.
Proof.
  unfold points_of. revert ps. induction ds as [|d ds IH]; intros ps; simpl.
  - intros [= <-]. constructor.
  - destruct (forecast_point rows m cols d) as [p|e] eqn:Ep; simpl; [|discriminate].
    destruct (foldr _ _ ds) as [ps'|e]; simpl; [|discriminate].
    intros [= <-]. constructor; [exact Ep | apply IH; reflexivity].
Qed.

(** Every point of the forecast is the body of the loop on its date. *)
Lemma generate_future_predictions_inv rows m cols days_ahead preds :
  _generate_future_predictions rows m cols days_ahead = Returned preds ->
  Forall2 (fun i p =>
             forecast_point rows m cols ((fun t => t + (i + 1)) <$> max_date rows)
             = Returned p)
          (range days_ahead) preds.
Proof.
  unfold _generate_future_predictions. rewrite future_loop_spec.
  destruct (points_of _ _ _ _) as [ps|e] eqn:E; simpl; [|discriminate].
  intros [= <-]. apply future_points_inv in E.
  rewrite map_fmap in E. apply Forall2_fmap_l in E. exact E.
Qed.

Lemma forecast_point_inv rows m cols d p :
  forecast_point rows m cols d = Returned p ->
  exists t row x,
    d = Some t
    /\ select_features cols (future_features rows t) = Returned row
    /\ mapM id row = Some x
    /\ date p = Calendar.strftime_ymd t
    /\ predicted_admissions p = Z.max 0 (py_round (predict m x)).
Proof.
  unfold forecast_point. destruct d as [t|]; [|discriminate].
  destruct (select_features cols (future_features rows t)) as [row|e] eqn:Es;
    simpl; [|discriminate].
  unfold predict_one, check_array. simpl.
  destruct (mapM id row) as [x|] eqn:Ex; simpl; [|discriminate].
  intros [= <-]. exists t, row, x. auto.
Qed.

(** C6.  Every point that [_generate_future_predictions] returns has, as
    its predicted count, the prediction of the model for the features of
    its date, rounded to a nearest integer, and 0 where that integer is
    negative: an integer that is not negative. *)
Theorem predicted_admissions_rounded_nonnegative (rows : list DailyRow)
    (m : Trained) (cols : list string) (days_ahead : Z)
    (preds : list ForecastPoint) :
  _generate_future_predictions rows m cols days_ahead = Returned preds ->
  Forall (fun p =>
            0 <= predicted_admissions p
            /\ exists x : list Q,
                 predicted_admissions p = Z.max 0 (py_round (predict m x))
                 /\ (Qabs (predict m x - inject_Z (py_round (predict m x))) <= 1 # 2)%Q)
         preds.
Proof.
  intros Hgen. apply generate_future_predictions_inv in Hgen.
  apply Forall_forall. intros p Hp.
  apply list_elem_of_lookup in Hp as [i Hi].
  destruct (Forall2_lookup_r _ _ _ _ _ Hgen Hi) as (j & _ & Hpoint).
  destruct (forecast_point_inv _ _ _ _ _ Hpoint) as (t & row & x & _ & _ & _ & _ & Hpred).
  split; [rewrite Hpred; apply Z.le_max_l|].
  exists x. split; [exact Hpred | apply py_round_nearest].
Qed.

Lemma predicted_admissions_rounded_nonnegative_witness :
  Forall (fun p =>
            0 <= predicted_admissions p
            /\ exists x : list Q,
                 predicted_admissions p
                 = Z.max 0 (py_round (predict (fit (Sample.follower Sample.off_5) [] []) x))
                 /\ (Qabs (predict (fit (Sample.follower Sample.off_5) [] []) x
                           - inject_Z (py_round
                               (predict (fit (Sample.follower Sample.off_5) [] []) x)))
                     <= 1 # 2)%Q)
    [ {| date := "2021-03-02"; predicted_admissions := 2 |};
      {| date := "2021-03-03"; predicted_admissions := 2 |} ].
Proof.
  apply (predicted_admissions_rounded_nonnegative Sample.rows60
           (fit (Sample.follower Sample.off_5) [] []) feature_cols 2).
  vm_compute. reflexivity.
Defined.

Example py_round_half_to_even :
  map py_round [5 # 2; 7 # 2; -(5 # 2); 12 # 5; -(1 # 3)]%Q = [2; 4; -2; 2; 0].
Proof. reflexivity. Qed.

(** ** C8: the lag and rolling features of a future date *)


Example lag_and_rolling_features_fed :
  drop 6 feature_cols
  = ["admission_count_lag_1"; "admission_count_lag_3"; "admission_count_lag_7";
     "admission_count_rolling_3"; "admission_count_rolling_7"]%string.
Proof. reflexivity. Qed.

(** ** C9: the feature vector *)



(** ** The percentile of the daily counts *)

Lemma sort_sorted (a : list Z) : StronglySorted Z.le (sort a).
Proof. unfold sort. apply StronglySorted_merge_sort; apply _. Qed.

Lemma sort_perm (a : list Z) : sort a ≡ₚ a.
Proof. apply merge_sort_Permutation. Qed.

Lemma sort_length (a : list Z) : length (sort a) = length a.
Proof. apply Permutation_length, sort_perm. Qed.

Lemma sorted_nth (s : list Z) (i j : nat) :
  StronglySorted Z.le s -> (i <= j < length s)%nat -> nth i s 0 <= nth j s 0.
Proof.
  intros Hs. revert i j. induction Hs as [|x s Hs IH Hall]; intros i j Hij.
  - simpl in Hij. lia.
  - destruct i as [|i], j as [|j]; simpl in *; try lia.
    + rewrite Forall_forall in Hall. apply Hall.
      apply list_elem_of_In, nth_In. lia.
    + apply IH. lia.
Qed.

Lemma nthZ_le (s : list Z) (i j : Z) :
  StronglySorted Z.le s -> 0 <= i <= j -> j < len s ->
  (nthZ s i <= nthZ s j)%Q.
Proof.
  intros Hs Hij Hj. unfold nthZ. rewrite <- Zle_Qle.
  apply sorted_nth; [exact Hs|]. unfold len in Hj. lia.
Qed.

Lemma quantile_linear_mono (s : list Z) (q1 q2 : Q) :
  StronglySorted Z.le s -> s <> [] ->
  (0 <= q1)%Q -> (q1 <= q2)%Q -> (q2 <= 1)%Q ->
  (quantile_linear s q1 <= quantile_linear s q2)%Q.
Proof.
  intros Hs Hne H0 H12 H1. unfold quantile_linear.
  assert (1 <= len s) as Hn by (unfold len; destruct s; [congruence | simpl; lia]).
  fold (len s).
  set (n1 := inject_Z (len s - 1)).
  assert (0 <= n1)%Q as Hn1.
  { unfold n1. change 0%Q with (inject_Z 0). rewrite <- Zle_Qle. lia. }
  set (v1 := (n1 * q1)%Q). set (v2 := (n1 * q2)%Q).
  assert (0 <= v1)%Q as Hv1 by (unfold v1; nra).
  assert (v1 <= v2)%Q as Hv12 by (unfold v1, v2; nra).
  assert (v2 <= n1)%Q as Hv2 by (unfold v2; nra).
  pose proof (Qfloor_le v1) as Hf1. pose proof (Qlt_floor v1) as Hc1.
  pose proof (Qfloor_le v2) as Hf2. pose proof (Qlt_floor v2) as Hc2.
  rewrite inject_Z_plus in Hc1, Hc2. change (inject_Z 1) with 1%Q in Hc1, Hc2.
  assert (0 <= Qfloor v1) as Hp0.
  { change 0 with (Qfloor (inject_Z 0)). apply Qfloor_resp_le. exact Hv1. }
  assert (Qfloor v1 <= Qfloor v2) as Hp12 by (apply Qfloor_resp_le; exact Hv12).
  assert (Qfloor v2 <= len s - 1) as Hpn.
  { rewrite <- (Qfloor_Z (len s - 1)). apply Qfloor_resp_le. exact Hv2. }
  set (p1 := Qfloor v1) in *. set (p2 := Qfloor v2) in *.
  pose proof (nthZ_le s p1 (Z.min (p1 + 1) (len s - 1)) Hs ltac:(lia) ltac:(lia)) as Hab1.
  pose proof (nthZ_le s p2 (Z.min (p2 + 1) (len s - 1)) Hs ltac:(lia) ltac:(lia)) as Hab2.
  destruct (Z.eq_dec p1 p2) as [Heq|Hneq].
  - rewrite <- Heq in *.
    set (A := nthZ s p1) in *. set (B := nthZ s (Z.min (p1 + 1) (len s - 1))) in *.
    nra.
  - pose proof (nthZ_le s (Z.min (p1 + 1) (len s - 1)) p2 Hs ltac:(lia) ltac:(lia)) as Hba.
    set (A1 := nthZ s p1) in *. set (B1 := nthZ s (Z.min (p1 + 1) (len s - 1))) in *.
    set (A2 := nthZ s p2) in *. set (B2 := nthZ s (Z.min (p2 + 1) (len s - 1))) in *.
    nra.
Qed.

Lemma np_percentile_in_range (a : list Z) (P : Q) :
  a <> [] -> (0 <= P)%Q -> (P <= 100)%Q ->
  np_percentile a P = Returned (quantile_linear (sort a) (P / 100)).
Proof.
  intros Ha H0 H100. unfold np_percentile.
  apply Qle_bool_iff in H0, H100. rewrite H0, H100. simpl.
  destruct a; [congruence | reflexivity].
Qed.

Lemma np_percentile_out_of_range (a : list Z) (P : Q) :
  (P < 0)%Q \/ (100 < P)%Q -> np_percentile a P = Raised "ValueError".
Proof.
  intros Hout. unfold np_percentile.
  destruct (Qle_bool 0 P) eqn:E0; simpl; [|reflexivity].
  destruct (Qle_bool P 100) eqn:E1; simpl; [|reflexivity].
  apply Qle_bool_iff in E0, E1. destruct Hout as [Hlt|Hgt]; lra.
Qed.

Lemma sort_nonempty (a : list Z) : a <> [] -> sort a <> [].
Proof.
  intros Ha Hs. apply (f_equal length) in Hs. rewrite sort_length in Hs.
  destruct a; [congruence | discriminate].
Qed.

(** The 0-th percentile is the least of the data. *)
Lemma quantile_linear_zero (a : list Z) :
  a <> [] ->
  exists m, (quantile_linear (sort a) (0 / 100) == inject_Z m)%Q
            /\ m ∈ a /\ (forall c, c ∈ a -> m <= c).
Proof.
  intros Ha. exists (nth 0 (sort a) 0).
  pose proof (sort_nonempty a Ha) as Hs. split; [|split].
  - unfold quantile_linear.
    set (v := (inject_Z (Z.of_nat (length (sort a)) - 1) * (0 / 100))%Q).
    assert (v == 0)%Q as Hv by (unfold v; field).
    assert (Qfloor v = 0) as Hf by (rewrite Hv; reflexivity).
    rewrite Hf. change (inject_Z (nth 0 (sort a) 0)) with (nthZ (sort a) 0).
    rewrite Hv. change (inject_Z 0) with 0%Q. ring.
  - apply list_elem_of_In. eapply Permutation_in; [apply sort_perm|].
    apply nth_In. destruct (sort a); [congruence | simpl; lia].
  - intros c Hc. apply list_elem_of_In in Hc.
    eapply Permutation_in in Hc; [|symmetry; apply sort_perm].
    apply list_elem_of_In, list_elem_of_lookup in Hc as [j Hj].
    rewrite <- (nth_lookup_Some _ _ 0 _ Hj).
    apply sorted_nth; [apply sort_sorted|]. apply lookup_lt_Some in Hj. lia.
Qed.

Section Busy.

Context `{Sklearn}.

Lemma predict_busy_periods_on_returns rows (P : Q) :
  rows <> [] -> (0 <= P)%Q -> (P <= 100)%Q ->
  exists b,
    predict_busy_periods_on rows P = Returned b
    /\ threshold b = quantile_linear (sort (map admission_count rows)) (P / 100).
Proof.
  intros Hr H0 H100. unfold predict_busy_periods_on.
  rewrite np_percentile_in_range; [|destruct rows; [congruence | discriminate]|exact H0|exact H100].
  cbn [rbind]. unfold true_divide.
  assert ((len rows =? 0) = false) as ->.
  { apply Z.eqb_neq. unfold len. destruct rows; [congruence | simpl; lia]. }
  cbn [rbind].
  destruct (predict_daily_admissions_on_total rows 90) as [d ->]. cbn [rbind].
  destruct d; eexists; split; reflexivity.
Qed.

End Busy.

(** ** C7: the threshold grows with the percentile *)

Section Threshold.

Context `{Sklearn}.

(** C7.  On a daily frame that is not empty, and for percentiles
    [0 <= P1 <= P2 <= 100], [predict_busy_periods] returns on both, and
    the threshold for [P1] is at most the threshold for [P2]. *)
Theorem busy_threshold_monotone (rows : list DailyRow) (P1 P2 : Q) :
  rows <> [] ->
  (0 <= P1)%Q -> (P1 <= P2)%Q -> (P2 <= 100)%Q ->
  exists b1 b2,
    predict_busy_periods_on rows P1 = Returned b1
    /\ predict_busy_periods_on rows P2 = Returned b2
    /\ (threshold b1 <= threshold b2)%Q.
Proof.
  intros Hr H0 H12 H100.
  destruct (predict_busy_periods_on_returns rows P1 Hr H0 ltac:(lra)) as (b1 & Hb1 & Ht1).
  destruct (predict_busy_periods_on_returns rows P2 Hr ltac:(lra) H100) as (b2 & Hb2 & Ht2).
  exists b1, b2. split; [exact Hb1|]. split; [exact Hb2|].
  rewrite Ht1, Ht2. apply quantile_linear_mono.
  - apply sort_sorted.
  - apply sort_nonempty. destruct rows; [congruence | discriminate].
  - apply Qle_shift_div_l; lra.
  - apply Qmult_le_compat_r; [exact H12 | discriminate].
  - apply Qle_shift_div_r; lra.
Qed.

(** ** C3: a percentile out of range *)

(** C3, as the code has it.  [predict_busy_periods] has no check of its
    own: a percentile below 0 or above 100 is refused by [np.percentile],
    and the [ValueError] it raises goes to the caller before anything
    else is computed.  The percentile 0 is accepted: on a frame that is
    not empty the analysis returns, with the least daily count as
    threshold. *)
Theorem percentile_out_of_range_raises_ValueError (h : store)
    (self : AdmissionPredictor) (rows : list DailyRow) (P : Q) :
  h !! daily_admissions self = Some (ODaily rows) ->
  ((P < 0)%Q \/ (100 < P)%Q ->
     predict_busy_periods self P h = (Raised "ValueError", h))
  /\ (rows <> [] ->
      exists b m,
        predict_busy_periods self 0 h = (Returned b, h)
        /\ (threshold b == inject_Z m)%Q
        /\ m ∈ map admission_count rows
        /\ (forall c, c ∈ map admission_count rows -> m <= c)).
Proof.
  intros Hd. split.
  - intros Hout. rewrite (predict_busy_periods_run _ _ _ _ Hd).
    unfold predict_busy_periods_on.
    rewrite (np_percentile_out_of_range _ _ Hout). reflexivity.
  - intros Hr. rewrite (predict_busy_periods_run _ _ _ _ Hd).
    destruct (predict_busy_periods_on_returns rows 0 Hr ltac:(lra) ltac:(lra))
      as (b & -> & Ht).
    destruct (quantile_linear_zero (map admission_count rows)) as (m & Hm & Hin & Hmin).
    { destruct rows; [congruence | discriminate]. }
    exists b, m. split; [reflexivity|]. rewrite Ht. auto.
Qed.

End Threshold.

Lemma busy_threshold_monotone_witness :
  exists b1 b2,
    @predict_busy_periods_on Sample.estimators Sample.rows60 75 = Returned b1
    /\ @predict_busy_periods_on Sample.estimators Sample.rows60 90 = Returned b2
    /\ (threshold b1 <= threshold b2)%Q.
Proof.
  apply (@busy_threshold_monotone Sample.estimators Sample.rows60 75 90).
  - discriminate.
  - vm_compute. discriminate.
  - vm_compute. discriminate.
  - vm_compute. discriminate.
Defined.

Lemma percentile_out_of_range_raises_ValueError_witness :
  (@predict_busy_periods Sample.estimators Sample.predictor 101 Sample.store60
   = (Raised "ValueError", Sample.store60))
  /\ (exists b m,
        @predict_busy_periods Sample.estimators Sample.predictor 0 Sample.store60
        = (Returned b, Sample.store60)
        /\ (threshold b == inject_Z m)%Q
        /\ m ∈ map admission_count Sample.rows60
        /\ (forall c, c ∈ map admission_count Sample.rows60 -> m <= c)).
Proof.
  destruct (@percentile_out_of_range_raises_ValueError Sample.estimators
              Sample.store60 Sample.predictor Sample.rows60 101
              ltac:(vm_compute; reflexivity)) as [Hout Hzero].
  split.
  - apply Hout. right. vm_compute. reflexivity.
  - apply Hzero. discriminate.
Defined.

(** C3, as the spec has it, fails on the sample of 60 days: at the
    percentile 0 the analysis returns, with the threshold 1; at 101 it
    raises [ValueError]; [InvalidParameterError] is raised at neither. *)
Lemma percentile_counterexample :
  let run P :=
    ((let+ self := __init__ 1%positive in
      @predict_busy_periods Sample.estimators self P)
       (Sample.caller_store (Sample.alternating 60))).1 in
  (exists b, run 0%Q = Returned b /\ (threshold b == 1)%Q)
  /\ run 101%Q = Raised "ValueError"
  /\ run 0%Q <> Raised "InvalidParameterError"
  /\ run 101%Q <> Raised "InvalidParameterError".
Proof.
  cbv zeta.
  assert (exists b,
            ((let+ self := __init__ 1%positive in
              @predict_busy_periods Sample.estimators self 0)
               (Sample.caller_store (Sample.alternating 60))).1 = Returned b
            /\ (threshold b == 1)%Q) as (b & Hb & Ht)
    by (eexists; split; [vm_compute; reflexivity | reflexivity]).
  assert (((let+ self := __init__ 1%positive in
            @predict_busy_periods Sample.estimators self 101)
             (Sample.caller_store (Sample.alternating 60))).1
          = Raised "ValueError") as H101 by (vm_compute; reflexivity).
  rewrite Hb, H101. split; [eauto|]. split; [reflexivity|].
  split; discriminate.
Qed.

(** * Further properties *)

(** ** The rows of the daily frame *)

Lemma temporal_features_row (g : list (Z * Z)) (i : nat) (r : DailyRow) :
  temporal_features g !! i = Some r ->
  exists t c, g !! i = Some (t, c)
    /\ r = {| admission_date := t;
              admission_count := c;
              year := Calendar.year t;
              month := Calendar.month t;
              day := Calendar.day t;
              day_of_week := Calendar.weekday t;
              day_of_year := Calendar.dayofyear t;
              week_of_year := Calendar.isoweek t;
              is_weekend := if 5 <=? Calendar.weekday t then 1 else 0;
              season := _get_season (Some (inject_Z (Calendar.month t)));
              admission_count_lag_1 := nth_float (shift 1 (map snd g)) i;
              admission_count_lag_3 := nth_float (shift 3 (map snd g)) i;
              admission_count_lag_7 := nth_float (shift 7 (map snd g)) i;
              admission_count_lag_14 := nth_float (shift 14 (map snd g)) i;
              admission_count_lag_30 := nth_float (shift 30 (map snd g)) i;
              admission_count_rolling_3 := nth_float (rolling_mean 3 (map snd g)) i;
              admission_count_rolling_7 := nth_float (rolling_mean 7 (map snd g)) i;
              admission_count_rolling_14 := nth_float (rolling_mean 14 (map snd g)) i;
              admission_count_rolling_30 := nth_float (rolling_mean 30 (map snd g)) i |}.
Proof.
  unfold temporal_features. rewrite list_lookup_imap.
  destruct (g !! i) as [[t c]|] eqn:Eg; simpl; [|discriminate].
  intros [= <-]. exists t, c. split; reflexivity.
Qed.

Lemma counts_lookup (g : list (Z * Z)) (j : nat) :
  map snd g !! j = admission_count <$> temporal_features g !! j.
Proof.
  rewrite <- temporal_features_counts. rewrite map_fmap, list_lookup_fmap. reflexivity.
Qed.

Lemma lag_of_row (k : nat) (g : list (Z * Z)) (i : nat) :
  (i < length g)%nat ->
  nth_float (shift k (map snd g)) i = lag_at k i (temporal_features g).
Proof.
  intros Hi. rewrite nth_float_shift by (rewrite length_map; exact Hi).
  unfold lag_at. destruct (i <? k)%nat; [reflexivity|].
  rewrite counts_lookup. destruct (temporal_features g !! (i - k)%nat); reflexivity.
Qed.

Lemma rolling_of_row (w : nat) (g : list (Z * Z)) (i : nat) :
  (0 < w)%nat -> (i < length g)%nat ->
  nth_float (rolling_mean w (map snd g)) i = rolling_at w i (temporal_features g).
Proof.
  intros Hw Hi. rewrite nth_float_rolling by (rewrite length_map; exact Hi).
  unfold rolling_at. destruct (S i <? w)%nat eqn:E; [reflexivity|].
  apply Nat.ltb_ge in E.
  rewrite <- (temporal_features_counts g).
  rewrite !map_fmap, <- fmap_drop, <- fmap_take, <- list_fmap_compose.
  set (l := take w (drop (S i - w) (temporal_features g))).
  assert (length l = w) as Hl.
  { unfold l. rewrite length_take, length_drop, temporal_features_length. lia. }
  unfold mean. rewrite length_fmap, Hl.
  destruct l as [|r l]; [simpl in Hl; lia|]. reflexivity.
Qed.

(** X1.  In the frame that [_add_temporal_features] returns, the lag of
    [k] of a row is the count of the row [k] places above it, whatever
    the dates of the two rows, and is missing on the first [k] rows; so
    for the lags 1, 3, 7, 14 and 30. *)
Theorem lags_look_back_by_rows (g : list (Z * Z)) (i : nat) (r : DailyRow) :
  temporal_features g !! i = Some r ->
  admission_count_lag_1 r = lag_at 1 i (temporal_features g)
  /\ admission_count_lag_3 r = lag_at 3 i (temporal_features g)
  /\ admission_count_lag_7 r = lag_at 7 i (temporal_features g)
  /\ admission_count_lag_14 r = lag_at 14 i (temporal_features g)
  /\ admission_count_lag_30 r = lag_at 30 i (temporal_features g).
Proof.
  intros Hr. destruct (temporal_features_row g i r Hr) as (t & c & Hg & ->).
  apply lookup_lt_Some in Hg. cbn.
  repeat split; apply lag_of_row; exact Hg.
Qed.

Lemma lags_look_back_by_rows_witness :
  exists r,
    temporal_features Cases.three_days !! 2%nat = Some r
    /\ admission_count_lag_1 r = lag_at 1 2 (temporal_features Cases.three_days)
    /\ admission_count_lag_3 r = lag_at 3 2 (temporal_features Cases.three_days)
    /\ admission_count_lag_7 r = lag_at 7 2 (temporal_features Cases.three_days)
    /\ admission_count_lag_14 r = lag_at 14 2 (temporal_features Cases.three_days)
    /\ admission_count_lag_30 r = lag_at 30 2 (temporal_features Cases.three_days).
Proof.
  eexists. split; [vm_compute; reflexivity|].
  apply (lags_look_back_by_rows Cases.three_days 2). vm_compute. reflexivity.
Defined.

(** The row of 2020-01-09 follows the row of 2020-01-03: its lag of 1 is
    the count of 2020-01-03, six days earlier. *)
Example lag_of_one_row_over_a_gap :
  exists r,
    temporal_features Cases.three_days !! 2%nat = Some r
    /\ admission_date r = 18270
    /\ admission_count_lag_1 r = Some 1%Q
    /\ admission_count_lag_3 r = None.
Proof. eexists. split; [vm_compute; reflexivity|]. repeat split. Qed.

(** X2.  In the frame that [_add_temporal_features] returns, the rolling
    mean of [w] of a row is the sum of the counts of the [w] rows that
    end at it, divided by [w], and is missing on the first [w - 1] rows;
    so for the windows 3, 7, 14 and 30. *)
Theorem rolling_means_of_the_last_rows (g : list (Z * Z)) (i : nat) (r : DailyRow) :
  temporal_features g !! i = Some r ->
  admission_count_rolling_3 r = rolling_at 3 i (temporal_features g)
  /\ admission_count_rolling_7 r = rolling_at 7 i (temporal_features g)
  /\ admission_count_rolling_14 r = rolling_at 14 i (temporal_features g)
  /\ admission_count_rolling_30 r = rolling_at 30 i (temporal_features g).
Proof.
  intros Hr. destruct (temporal_features_row g i r Hr) as (t & c & Hg & ->).
  apply lookup_lt_Some in Hg. cbn.
  repeat split; apply rolling_of_row; first [lia | exact Hg].
Qed.

Lemma rolling_means_of_the_last_rows_witness :
  exists r,
    temporal_features Cases.three_days !! 2%nat = Some r
    /\ admission_count_rolling_3 r = rolling_at 3 2 (temporal_features Cases.three_days)
    /\ admission_count_rolling_7 r = rolling_at 7 2 (temporal_features Cases.three_days)
    /\ admission_count_rolling_14 r = rolling_at 14 2 (temporal_features Cases.three_days)
    /\ admission_count_rolling_30 r = rolling_at 30 2 (temporal_features Cases.three_days).
Proof.
  eexists. split; [vm_compute; reflexivity|].
  apply (rolling_means_of_the_last_rows Cases.three_days 2). vm_compute. reflexivity.
Defined.

(** ** The calendar columns *)

Lemma dayofyear_in_range (t : Z) : 1 <= Calendar.dayofyear t <= 366.
Proof.
  pose proof (days_from_civil_of_date t) as Ht.
  pose proof (month_and_day_in_range t) as [Hm Hd].
  unfold Calendar.dayofyear.
  set (Y := Calendar.year t) in *. set (M := Calendar.month t) in *.
  set (D := Calendar.day t) in *. clearbody Y M D.
  rewrite <- Ht. clear Ht.
  unfold Calendar.days_from_civil. cbv zeta.
  change (1 <=? 2) with true. change (2 <? 1) with false. cbv iota.
  calendar_cases; Z.div_mod_to_equations; lia.
Qed.

Lemma isoweek_in_range (t : Z) : 1 <= Calendar.isoweek t <= 53.
Proof.
  pose proof (dayofyear_in_range t) as Hd.
  assert (0 <= Calendar.weekday t <= 6) as Hw
    by (unfold Calendar.weekday; Z.div_mod_to_equations; lia).
  unfold Calendar.isoweek. cbv zeta.
  set (w := (Calendar.dayofyear t - (Calendar.weekday t + 1) + 10) / 7).
  assert (0 <= w <= 53) as Hwk by (unfold w; Z.div_mod_to_equations; lia).
  destruct (w <? 1) eqn:E1.
  - destruct (Calendar.iso_long_year _); lia.
  - apply Z.ltb_ge in E1.
    destruct ((w =? 53) && negb (Calendar.iso_long_year (Calendar.year t))); lia.
Qed.

Lemma Qeqb_Z_inject (n k : Z) : Qeqb_Z (inject_Z n) k = (n =? k).
Proof.
  unfold Qeqb_Z. destruct (n =? k) eqn:E.
  - apply Z.eqb_eq in E. subst. apply Qeq_bool_iff. reflexivity.
  - destruct (Qeq_bool _ _) eqn:E2; [|reflexivity].
    apply Qeq_bool_iff in E2. rewrite inject_Z_injective in E2.
    apply Z.eqb_neq in E. contradiction.
Qed.

Lemma season_of_month (n : Z) :
  1 <= n <= 12 -> _get_season (Some (inject_Z n)) = (n mod 12) / 3.
Proof.
  intros Hn. unfold _get_season. rewrite !Qeqb_Z_inject.
  assert (n ∈ seqZ 1 12) as Hin by (apply elem_of_seqZ; lia).
  vm_compute seqZ in Hin.
  repeat (apply elem_of_cons in Hin as [->|Hin]; [reflexivity|]).
  inversion Hin.
Qed.

(** X3.  [_get_season] sends the month [n] of a date to [(n mod 12) / 3]:
    0 for December, January and February, then 1, 2 and 3 for the
    quarters that follow.  A number that is no month, and the missing
    month of a row without a date, are put in the season 3. *)
Theorem season_of_a_month_number (n : Z) :
  _get_season (Some (inject_Z n))
  = (if (1 <=? n) && (n <=? 12) then (n mod 12) / 3 else 3)
  /\ _get_season None = 3.
Proof.
  split; [|reflexivity].
  destruct ((1 <=? n) && (n <=? 12)) eqn:E.
  - apply andb_prop in E as [E1 E2]. apply Z.leb_le in E1, E2.
    apply season_of_month. lia.
  - unfold _get_season. rewrite !Qeqb_Z_inject.
    assert (n < 1 \/ 12 < n) as Hn.
    { destruct (1 <=? n) eqn:E1; [|apply Z.leb_gt in E1; lia].
      destruct (n <=? 12) eqn:E2; [discriminate|apply Z.leb_gt in E2; lia]. }
    repeat match goal with
    | |- context [n =? ?k] =>
        let Hk := fresh in
        assert ((n =? k) = false) as Hk by (apply Z.eqb_neq; lia); rewrite Hk; clear Hk
    end.
    reflexivity.
Qed.

(** X4.  The calendar columns of a row of the daily frame are those of
    its date: year, month and day give the date back; the day of the
    week counts from Monday as 0; the day of the year is within 1..366
    and the ISO week within 1..53; [is_weekend] is 1 exactly on the days
    5 and 6; the season is [(month mod 12) / 3]. *)
Theorem calendar_columns_of_a_daily_row (g : list (Z * Z)) (i : nat) (r : DailyRow) :
  temporal_features g !! i = Some r ->
  Calendar.days_from_civil (year r) (month r) (day r) = admission_date r
  /\ 1 <= month r <= 12 /\ 1 <= day r <= 31
  /\ 0 <= day_of_week r <= 6
  /\ day_of_week r = (admission_date r + 3) mod 7
  /\ 1 <= day_of_year r <= 366
  /\ 1 <= week_of_year r <= 53
  /\ is_weekend r = (if bool_decide (day_of_week r ∈ [5; 6]) then 1 else 0)
  /\ season r = (month r mod 12) / 3.
Proof.
  intros Hi.
  destruct (temporal_features_row g i r Hi) as (t & c & _ & ->).
  cbn [admission_date year month day day_of_week day_of_year week_of_year
       is_weekend season].
  pose proof (month_and_day_in_range t) as [Hm Hd].
  assert (0 <= Calendar.weekday t <= 6) as Hw
    by (unfold Calendar.weekday; Z.div_mod_to_equations; lia).
  split; [apply days_from_civil_of_date|]. split; [exact Hm|]. split; [exact Hd|].
  split; [exact Hw|]. split; [reflexivity|].
  split; [apply dayofyear_in_range|]. split; [apply isoweek_in_range|]. split.
  - destruct (5 <=? Calendar.weekday t) eqn:E.
    + apply Z.leb_le in E. rewrite bool_decide_eq_true_2; [reflexivity|].
      rewrite !elem_of_cons. lia.
    + apply Z.leb_gt in E. rewrite bool_decide_eq_false_2; [reflexivity|].
      rewrite !elem_of_cons, elem_of_nil. lia.
  - apply season_of_month, Hm.
Qed.

Lemma calendar_columns_of_a_daily_row_witness :
  exists r,
    temporal_features Cases.three_days !! 2%nat = Some r
    /\ Calendar.days_from_civil (year r) (month r) (day r) = admission_date r
    /\ 1 <= month r <= 12 /\ 1 <= day r <= 31
    /\ 0 <= day_of_week r <= 6
    /\ day_of_week r = (admission_date r + 3) mod 7
    /\ 1 <= day_of_year r <= 366
    /\ 1 <= week_of_year r <= 53
    /\ is_weekend r = (if bool_decide (day_of_week r ∈ [5; 6]) then 1 else 0)
    /\ season r = (month r mod 12) / 3.
Proof.
  eexists. split; [vm_compute; reflexivity|].
  apply (calendar_columns_of_a_daily_row Cases.three_days 2). vm_compute. reflexivity.
Defined.

(** X5.  [_add_temporal_features] works on a copy: it returns a new
    frame and leaves the frame it was given as it was; the new frame has
    the rows of the old one, in their order, with their dates and
    counts. *)
Theorem temporal_features_on_a_copy (h : store) (df : loc) (g : list (Z * Z)) :
  h !! df = Some (OCounts g) ->
  exists daily h' rows,
    _add_temporal_features df h = (Returned daily, h')
    /\ daily <> df
    /\ h' !! df = Some (OCounts g)
    /\ h' !! daily = Some (ODaily rows)
    /\ map (fun r => (admission_date r, admission_count r)) rows = g.
Proof.
  intros Hdf.
  assert (fresh (dom h) <> df) as Hne.
  { intros Heq. apply (is_fresh (dom h)). rewrite Heq. apply elem_of_dom. eauto. }
  unfold _add_temporal_features, copy, mbind_M, read, alloc.
  rewrite Hdf. simpl. rewrite lookup_insert_eq.
  eexists _, _, _. split; [reflexivity|]. split; [exact Hne|].
  split; [rewrite !lookup_insert_ne by exact Hne; exact Hdf|].
  split; [apply lookup_insert_eq|].
  apply list_eq. intros i. rewrite map_fmap, list_lookup_fmap.
  destruct (temporal_features g !! i) as [r|] eqn:E; simpl.
  - destruct (temporal_features_lookup _ _ _ E) as (t & c & -> & -> & -> & _).
    reflexivity.
  - apply lookup_ge_None in E. rewrite temporal_features_length in E.
    apply lookup_ge_None in E. rewrite E. reflexivity.
Qed.

Lemma temporal_features_on_a_copy_witness :
  exists daily h' rows,
    _add_temporal_features 1%positive (<[1%positive := OCounts Cases.three_days]> ∅)
    = (Returned daily, h')
    /\ daily <> 1%positive
    /\ h' !! 1%positive = Some (OCounts Cases.three_days)
    /\ h' !! daily = Some (ODaily rows)
    /\ map (fun r => (admission_date r, admission_count r)) rows = Cases.three_days.
Proof.
  apply (temporal_features_on_a_copy (<[1%positive := OCounts Cases.three_days]> ∅)
           1%positive Cases.three_days).
  reflexivity.
Defined.

(** ** The holidays *)

Lemma year_of_era_of_holidays (doy yoe : Z) :
  doy ∈ [306; 167; 215] -> 0 <= yoe < 400 -> year_of_era_recovered doy yoe = true.
Proof.
  intros Hdoy Hyoe.
  assert (forallb (fun doy => forallb (year_of_era_recovered doy) (seqZ 0 400))
            [306; 167; 215] = true) as Hall by (vm_compute; reflexivity).
  rewrite forallb_forall in Hall.
  specialize (Hall doy ltac:(apply list_elem_of_In; exact Hdoy)).
  rewrite forallb_forall in Hall. apply Hall.
  apply list_elem_of_In, elem_of_seqZ. lia.
Qed.

(** The day number of a holiday of the year [y] is a date of the year
    [y], of the month and the day of the holiday. *)
Lemma civil_of_holiday (y m d : Z) :
  (m, d) ∈ holidays_of_a_year ->
  Calendar.civil_from_days (Calendar.days_from_civil y m d) = (y, m, d).
Proof.
  intros Hmd. unfold holidays_of_a_year in Hmd.
  assert (exists doy, doy ∈ [306; 167; 215]
            /\ (153 * (if 2 <? m then m - 3 else m + 9) + 2) / 5 + d - 1 = doy
            /\ (let mp := (5 * doy + 2) / 153 in
                doy - (153 * mp + 2) / 5 + 1 = d
                /\ (if mp <? 10 then mp + 3 else mp - 9) = m)) as (doy & Hdoy & Hd & Hm).
  { repeat (apply elem_of_cons in Hmd as [[= -> ->]|Hmd]); [| | |inversion Hmd].
    - exists 306. split; [left|]. split; [reflexivity|]. split; reflexivity.
    - exists 167. split; [right; left|]. split; [reflexivity|]. split; reflexivity.
    - exists 215. split; [right; right; left|]. split; [reflexivity|]. split; reflexivity. }
  unfold Calendar.civil_from_days, Calendar.days_from_civil.
  cbv zeta in *. rewrite Hd.
  set (y' := if m <=? 2 then y - 1 else y).
  set (era := y' / 400). set (yoe := y' - era * 400).
  assert (0 <= yoe < 400) as Hyoe by (unfold yoe, era; Z.div_mod_to_equations; lia).
  pose proof (year_of_era_of_holidays doy yoe Hdoy Hyoe) as Hrec.
  unfold year_of_era_recovered in Hrec. cbv zeta in Hrec.
  set (doe := yoe * 365 + yoe / 4 - yoe / 100 + doy) in *.
  apply andb_prop in Hrec as [Hrec H4]. apply andb_prop in Hrec as [Hrec H3].
  apply andb_prop in Hrec as [H1 H2].
  apply Z.eqb_eq in H1, H2. apply Z.leb_le in H3. apply Z.ltb_lt in H4.
  replace (era * 146097 + doe - 719468 + 719468) with (doe + era * 146097) by lia.
  assert ((doe + era * 146097) / 146097 = era) as ->.
  { rewrite Z.div_add by lia. rewrite Z.div_small by lia. lia. }
  replace (doe + era * 146097 - era * 146097) with doe by lia.
  rewrite H1, H2. destruct Hm as [-> ->].
  f_equal. f_equal. unfold yoe, y'.
  destruct (m <=? 2); lia.
Qed.

Lemma month_and_day_of_holiday (y m d : Z) :
  (m, d) ∈ holidays_of_a_year ->
  Calendar.year (Calendar.days_from_civil y m d) = y
  /\ Calendar.month (Calendar.days_from_civil y m d) = m
  /\ Calendar.day (Calendar.days_from_civil y m d) = d.
Proof.
  intros Hmd. unfold Calendar.year, Calendar.month, Calendar.day.
  rewrite (civil_of_holiday y m d Hmd). auto.
Qed.

Lemma unique_elem (seen l : list (option Z)) (x : option Z) :
  x ∈ unique seen l <-> x ∈ l /\ x ∉ seen.
Proof.
  revert seen. induction l as [|y l IH]; intros seen; simpl.
  - rewrite elem_of_nil. tauto.
  - destruct (bool_decide (y ∈ seen)) eqn:E.
    + apply bool_decide_eq_true in E. rewrite IH, elem_of_cons.
      split; [tauto|]. intros [[->|Hl] Hs]; [contradiction | tauto].
    + apply bool_decide_eq_false in E. rewrite !elem_of_cons, IH, elem_of_cons.
      destruct (decide (x = y)) as [->|Hne]; tauto.
Qed.

Lemma Qtrunc_inject (n : Z) : Qtrunc (inject_Z n) = n.
Proof. unfold Qtrunc. simpl. apply Z.quot_1_r. Qed.

(** The list of holidays that [_create_holiday_indicator] builds from
    the years of the dates holds a date of the column exactly when it is
    a holiday of its own year. *)
Lemma holidays_elem (dates : list (option Z)) (t : Z) :
  Some t ∈ dates ->
  t ∈ concat (map (fun y =>
                     match y with
                     | Some y =>
                         [Calendar.days_from_civil y 1 1;
                          Calendar.days_from_civil y 8 15;
                          Calendar.days_from_civil y 10 2]
                     | None => []
                     end)
                  (unique [] (map (fun o => Qtrunc <$> o)
                                (map (fun o => (fun t => inject_Z (Calendar.year t)) <$> o)
                                     dates))))
  <-> is_holiday_date t = true.
Proof.
  intros Hin. unfold is_holiday_date.
  rewrite bool_decide_eq_true.
  rewrite list_elem_of_In, in_concat. split.
  - intros (l & Hl & Ht). apply in_map_iff in Hl as ([y|] & <- & _); [|inversion Ht].
    apply list_elem_of_In in Ht.
    repeat (apply elem_of_cons in Ht as [->|Ht]);
      [| | |inversion Ht];
      match goal with
      | |- context [Calendar.days_from_civil y ?m ?d] =>
          destruct (month_and_day_of_holiday y m d) as (_ & -> & ->);
            unfold holidays_of_a_year; rewrite !elem_of_cons; auto
      end.
  - intros Hmd. unfold holidays_of_a_year in Hmd.
    exists [Calendar.days_from_civil (Calendar.year t) 1 1;
            Calendar.days_from_civil (Calendar.year t) 8 15;
            Calendar.days_from_civil (Calendar.year t) 10 2].
    split.
    + apply in_map_iff. exists (Some (Calendar.year t)). split; [reflexivity|].
      apply list_elem_of_In, unique_elem. split; [|apply not_elem_of_nil].
      rewrite map_map, map_fmap. apply list_elem_of_fmap.
      exists (Some t). split; [|exact Hin].
      simpl. rewrite Qtrunc_inject. reflexivity.
    + apply list_elem_of_In.
      pose proof (days_from_civil_of_date t) as Ht.
      repeat (apply elem_of_cons in Hmd as [[= Hm Hd]|Hmd]);
        [| | |inversion Hmd]; rewrite Hm, Hd in Ht; rewrite <- Ht at 1;
        rewrite !elem_of_cons; auto.
Qed.

(** X6.  [_create_holiday_indicator], on a frame whose [year] column is
    the year of its dates, as [_prepare_data] has made it: the indicator
    is 1 on the rows dated 1 January, 15 August or 2 October, of
    whatever year, and 0 on every other row, the rows without a date
    among them; the frame is left as it is.  The dates are taken in the
    years 1678 to 2261, all of whose holidays are in the range of
    [Timestamp]. *)
Theorem holiday_indicator_marks_three_dates (h : store) (d : loc)
    (cols : gmap string column) (dates : list (option Z)) :
  h !! d = Some (OFrame cols) ->
  cols !! "admission_date"%string = Some (ColDate dates) ->
  cols !! "year"%string = Some (dt_field Calendar.year dates) ->
  (forall t, Some t ∈ dates -> 1678 <= Calendar.year t <= 2261) ->
  _create_holiday_indicator d h = (Returned (holiday_column dates), h).
Proof.
  intros Hd Hdates Hyear _. unfold _create_holiday_indicator.
  erewrite bind_run by (eapply getitem_run; eassumption).
  unfold dt_field. simpl numbers. rewrite bind_ret.
  erewrite bind_run by (eapply getitem_run; eassumption).
  simpl dt. rewrite bind_ret. unfold mret, holiday_column. do 3 f_equal.
  apply map_ext_in. intros [t|] Hin; [|reflexivity].
  apply list_elem_of_In in Hin.
  pose proof (holidays_elem dates t Hin) as Hiff.
  destruct (is_holiday_date t).
  - rewrite bool_decide_eq_true_2; [reflexivity|]. apply Hiff. reflexivity.
  - rewrite bool_decide_eq_false_2; [reflexivity|].
    intros Hc. apply Hiff in Hc. discriminate.
Qed.

Lemma holiday_indicator_marks_three_dates_witness :
  _create_holiday_indicator 1%positive Cases.holiday_store
  = (Returned (holiday_column Cases.holiday_dates), Cases.holiday_store).
Proof.
  apply (holiday_indicator_marks_three_dates Cases.holiday_store 1%positive
           Cases.holiday_frame Cases.holiday_dates).
  - reflexivity.
  - reflexivity.
  - reflexivity.
  - intros t Ht. unfold Cases.holiday_dates in Ht.
    repeat (apply elem_of_cons in Ht as [Ht|Ht];
            [first [discriminate Ht | injection Ht as ->; vm_compute; split; discriminate]|]).
    inversion Ht.
Defined.

Example holidays_of_2020 :
  holiday_column Cases.holiday_dates = int_column [1; 0; 1; 1; 0].
Proof. reflexivity. Qed.

(** ** The constructor *)

Lemma getitem_raise d name cols (h : store) :
  h !! d = Some (OFrame cols) -> cols !! name = None ->
  getitem d name h = (Raised "KeyError", h).
Proof.
  intros Hd Hc. unfold getitem, mbind_M, read. rewrite Hd. rewrite Hc. reflexivity.
Qed.

Lemma bind_raise {A B} (m : M A) (k : A -> M B) (h h' : store) (e : string) :
  m h = (Raised e, h') -> mbind_M m k h = (Raised e, h').
Proof. intros Hm. unfold mbind_M. rewrite Hm. reflexivity. Qed.

Lemma prepare_data_raise d cols (h : store) :
  h !! d = Some (OFrame cols) ->
  cols !! "D.O.A"%string = None \/ cols !! "D.O.D"%string = None ->
  exists h', _prepare_data d h = (Raised "KeyError", h').
Proof.
  intros Hd Hmiss. unfold _prepare_data.
  destruct (cols !! "D.O.A"%string) as [doa|] eqn:Edoa.
  - destruct Hmiss as [Hmiss|Hmiss]; [discriminate|].
    run_getitem. run_setitem.
    eexists. apply bind_raise. eapply getitem_raise; [apply lookup_insert_eq|].
    rewrite lookup_insert_ne by discriminate. exact Hmiss.
  - eexists. apply bind_raise. eapply getitem_raise; eassumption.
Qed.

(** X7.  On a table without the column [D.O.A] or without the column
    [D.O.D] the constructor raises [KeyError]; the caller's table is as
    it was. *)
Theorem constructor_needs_the_date_columns (h : store) (admission_data : loc)
    (cols : gmap string column) :
  h !! admission_data = Some (OFrame cols) ->
  cols !! "D.O.A"%string = None \/ cols !! "D.O.D"%string = None ->
  exists h',
    __init__ admission_data h = (Raised "KeyError", h')
    /\ h' !! admission_data = Some (OFrame cols).
Proof.
  intros Hl Hmiss.
  pose proof (preserves_init admission_data h admission_data _ Hl) as Hkeep.
  assert (exists h', __init__ admission_data h = (Raised "KeyError", h')) as [h' Hinit].
  { unfold __init__, copy. unfold mbind_M at 1 2, read. rewrite Hl. unfold alloc at 1.
    destruct (prepare_data_raise (fresh (dom h)) cols
                (<[fresh (dom h) := OFrame cols]> h)
                ltac:(apply lookup_insert_eq) Hmiss) as [h' Hraise].
    exists h'. apply bind_raise. exact Hraise. }
  exists h'. split; [exact Hinit|]. rewrite Hinit in Hkeep. exact Hkeep.
Qed.

Lemma constructor_needs_the_date_columns_witness :
  exists h',
    __init__ 1%positive Cases.no_discharge_store = (Raised "KeyError", h')
    /\ h' !! 1%positive = Some (OFrame Cases.no_discharge).
Proof.
  apply (constructor_needs_the_date_columns Cases.no_discharge_store 1%positive
           Cases.no_discharge).
  - reflexivity.
  - right. reflexivity.
Defined.

(** ** The counts of the daily frame *)

Lemma bump_total (k : Z) (g : list (Z * Z)) :
  total (map snd (bump k g)) = total (map snd g) + 1.
Proof.
  induction g as [|[k' c] g IH]; simpl; [reflexivity|].
  destruct (k <? k'); [simpl; lia|].
  destruct (k =? k'); simpl; lia.
Qed.

Lemma groupby_total_from (dates : list (option Z)) (g : list (Z * Z)) :
  total (map snd (fold_left (fun groups d =>
                               match d with
                               | Some k => bump k groups
                               | None => groups
                               end) dates g))
  = total (map snd g) + len (dated dates).
Proof.
  revert g. induction dates as [|[t|] dates IH]; intros g; cbn [fold_left].
  - unfold len. simpl. lia.
  - rewrite IH, bump_total. change (dated (Some t :: dates)) with (t :: dated dates).
    unfold len. rewrite length_cons, Nat2Z.inj_succ. lia.
  - rewrite IH. reflexivity.
Qed.

Lemma groupby_total (dates : list (option Z)) :
  total (map snd (groupby_size dates)) = len (dated dates).
Proof. unfold groupby_size. rewrite groupby_total_from. simpl. lia. Qed.

Lemma dated_elem (dates : list (option Z)) (d : Z) : d ∈ dated dates <-> Some d ∈ dates.
Proof.
  unfold dated. rewrite list_elem_of_omap. split.
  - intros (x & Hx & Hd). simpl in Hd. subst. exact Hx.
  - intros Hd. exists (Some d). split; [exact Hd | reflexivity].
Qed.

Lemma dated_length (dates : list (option Z)) : (length (dated dates) <= length dates)%nat.
Proof.
  induction dates as [|[t|] dates IH].
  - reflexivity.
  - change (dated (Some t :: dates)) with (t :: dated dates). simpl. lia.
  - change (dated (None :: dates)) with (dated dates). simpl. lia.
Qed.

Lemma distinct_dates_le (dates : list (option Z)) :
  (distinct_dates dates <= length (dated dates))%nat.
Proof.
  unfold distinct_dates. apply submseteq_length, NoDup_submseteq.
  - apply NoDup_remove_dups.
  - intros x Hx. rewrite elem_of_remove_dups in Hx. exact Hx.
Qed.

Lemma strongly_sorted_NoDup (l : list Z) : StronglySorted Z.lt l -> NoDup l.
Proof.
  induction 1 as [|x l Hs IH Hall]; constructor; [|exact IH].
  intros Hx. rewrite Forall_forall in Hall. specialize (Hall x Hx). lia.
Qed.

(** The [groupby] frame has as many rows as the column has distinct
    dates. *)
Lemma groupby_size_length (dates : list (option Z)) :
  length (groupby_size dates) = distinct_dates dates.
Proof.
  pose proof (groupby_size_grouped dates) as [Hs _ Hd].
  unfold distinct_dates. rewrite <- (length_map fst (groupby_size dates)).
  apply Permutation_length, NoDup_Permutation.
  - apply strongly_sorted_NoDup, Hs.
  - apply NoDup_remove_dups.
  - intros d. rewrite Hd, elem_of_remove_dups, dated_elem. reflexivity.
Qed.

(** X8.  The counts of the daily frame that the constructor builds add
    up to the number of rows of the table whose [D.O.A] parses: a row
    without a date is in no group.  The frame has as many rows as the
    table has distinct admission dates. *)
Theorem daily_counts_add_up (h : store) (admission_data : loc)
    (cols : gmap string column) (doa dod : column) :
  h !! admission_data = Some (OFrame cols) ->
  cols !! "D.O.A"%string = Some doa ->
  cols !! "D.O.D"%string = Some dod ->
  exists self h' rows,
    __init__ admission_data h = (Returned self, h')
    /\ daily_rows self h' = (Returned rows, h')
    /\ total (map admission_count rows) = len (dated (to_datetime doa))
    /\ length rows = distinct_dates (to_datetime doa)
    /\ len rows <= total (map admission_count rows) <= len (to_datetime doa).
Proof.
  intros Hl Hdoa Hdod.
  destruct (init_run _ _ _ _ _ Hl Hdoa Hdod) as (self & h' & Hinit & Hrows).
  exists self, h', (temporal_features (groupby_size (to_datetime doa))).
  split; [exact Hinit|]. split; [exact Hrows|].
  unfold len at 2. rewrite temporal_features_counts, !temporal_features_length.
  rewrite groupby_total, groupby_size_length.
  split; [reflexivity|]. split; [reflexivity|].
  pose proof (dated_length (to_datetime doa)).
  pose proof (distinct_dates_le (to_datetime doa)).
  unfold len. lia.
Qed.

Lemma daily_counts_add_up_witness :
  exists self h' rows,
    __init__ 1%positive (Sample.caller_store Sample.sparse) = (Returned self, h')
    /\ daily_rows self h' = (Returned rows, h')
    /\ total (map admission_count rows)
       = len (dated (to_datetime (ColText (map Some Sample.sparse))))
    /\ length rows = distinct_dates (to_datetime (ColText (map Some Sample.sparse)))
    /\ len rows <= total (map admission_count rows)
       <= len (to_datetime (ColText (map Some Sample.sparse))).
Proof.
  apply (daily_counts_add_up (Sample.caller_store Sample.sparse) 1%positive
           (<["D.O.A"%string := ColText (map Some Sample.sparse)]>
              (<["D.O.D"%string := ColText (map Some Sample.sparse)]> ∅))
           (ColText (map Some Sample.sparse)) (ColText (map Some Sample.sparse)));
    reflexivity.
Defined.

Section Sixty.

Context `{Sklearn}.


End Sixty.


(** The sample of 60 days has 60 distinct dates, the sample of 59 days
    59. *)
Example distinct_dates_of_the_samples :
  distinct_dates (to_datetime (ColText (map Some (Sample.alternating 60)))) = 60%nat
  /\ distinct_dates (to_datetime (ColText (map Some (Sample.alternating 59)))) = 59%nat.
Proof. split; vm_compute; reflexivity. Qed.

(** ** The held-out rows and the horizon *)

Lemma held_out_fifth (n : nat) :
  5 * (Z.of_nat (held_out n) - 1) < Z.of_nat n <= 5 * Z.of_nat (held_out n).
Proof.
  unfold held_out, Qceiling_nat.
  pose proof (Qle_ceiling (TEST_SIZE * inject_Z (Z.of_nat n))) as H1.
  pose proof (Qceiling_lt (TEST_SIZE * inject_Z (Z.of_nat n))) as H2.
  set (c := Qceiling _) in *.
  unfold Qle, Qlt, TEST_SIZE in *. simpl in *. lia.
Qed.

Section Training.

Context `{Sklearn}.

Lemma train_all_inv X_train X_test y_train y_test ms rs :
  train_all X_train X_test y_train y_test ms = Returned rs ->
  Forall2 (fun ne nr =>
             fst nr = fst ne
             /\ model (snd nr) = fit (snd ne) X_train y_train
             /\ predictions (snd nr) = map (predict (fit (snd ne) X_train y_train)) X_test
             /\ mean_absolute_error y_test (predictions (snd nr)) = Returned (mae (snd nr))
             /\ mean_squared_error y_test (predictions (snd nr)) = Returned (mse (snd nr))
             /\ r2_score y_test (predictions (snd nr)) = Returned (r2 (snd nr)))
          ms rs.
Proof.
  revert rs. induction ms as [|[name e] ms IH]; intros rs; simpl.
  - intros [= <-]. constructor.
  - unfold evaluate.
    destruct (mean_absolute_error _ _) as [a|] eqn:Ea; cbn [rbind]; [|discriminate].
    destruct (mean_squared_error _ _) as [b|] eqn:Eb; cbn [rbind]; [|discriminate].
    destruct (r2_score _ _) as [c|] eqn:Ec; cbn [rbind]; [|discriminate].
    destruct (train_all _ _ _ _ ms) as [rs'|] eqn:Et; cbn [rbind]; [|discriminate].
    intros [= <-]. constructor; [|apply IH; reflexivity].
    cbn [fst snd model predictions mae mse r2].
    repeat split; first [reflexivity | assumption].
Qed.

(** What [predict_daily_admissions] does on sufficient data, whatever the
    horizon. *)
Lemma predict_daily_admissions_on_unfold rows :
  (30 <= length (dropna rows))%nat ->
  exists X rs best last rv,
    check_array (map feature_row (dropna rows)) = Returned X
    /\ length X = length (dropna rows)
    /\ (let k := (length X - held_out (length X))%nat in
        let y := floats (map admission_count (dropna rows)) in
        train_all (take k X) (drop k X) (take k y) (drop k y) models = Returned rs)
    /\ map fst rs = map fst models
    /\ py_max (fun kv => r2 (snd kv)) rs = Returned best
    /\ max_date rows = Some last
    /\ recent_mean rows = Some rv
    /\ forall days_ahead,
         predict_daily_admissions_on rows days_ahead
         = Returned (DictForecast
             {| best_model := fst best;
                model_metrics := map metrics_of rs;
                future_predictions :=
                  map (fun i => point_of (model (snd best)) rv (last + (i + 1)))
                      (range days_ahead);
                feature_importance :=
                  _get_feature_importance (model (snd best)) feature_cols |}).
Proof.
  intros Hlen.
  destruct (check_array_complete (dropna rows)) as (X & HX & HlenX).
  { rewrite dropna_feature_complete. apply Forall_forall.
    intros r Hr. apply list_elem_of_filter in Hr. tauto. }
  pose proof (n_test_bounds (length X) ltac:(lia)) as Hn.
  fold (held_out (length X)) in Hn.
  set (y := floats (map admission_count (dropna rows))).
  assert (length y = length X) as Hy
    by (unfold y, floats; rewrite !length_map; lia).
  destruct (train_all_returns (take (length X - held_out (length X)) X)
              (drop (length X - held_out (length X)) X)
              (take (length X - held_out (length X)) y)
              (drop (length X - held_out (length X)) y) models)
    as (rs & Hrs & Hnames).
  { intros Hnil. apply (f_equal length) in Hnil. rewrite length_drop in Hnil.
    simpl in Hnil. lia. }
  { intros Hnil. apply (f_equal length) in Hnil. rewrite length_drop in Hnil.
    simpl in Hnil. lia. }
  destruct rs as [|best0 rs]; [discriminate Hnames|].
  assert (rows <> []) as Hrows.
  { intros ->. simpl in Hlen. lia. }
  destruct (max_date_is_Some rows Hrows) as [last Hlast].
  destruct (recent_mean_is_Some rows Hrows) as [rv Hrv].
  exists X, (best0 :: rs), (max_from (fun kv => r2 (snd kv)) best0 rs), last, rv.
  split; [exact HX|]. split; [exact HlenX|]. split; [exact Hrs|].
  split; [exact Hnames|]. split; [reflexivity|].
  split; [exact Hlast|]. split; [exact Hrv|].
  intros days_ahead. unfold predict_daily_admissions_on.
  assert ((length (dropna rows) <? 30)%nat = false) as -> by (apply Nat.ltb_ge, Hlen).
  rewrite select_columns_feature_cols.
  cbn [rbind]. rewrite HX. cbn [rbind].
  unfold train_test_split. fold (held_out (length X)).
  assert ((length X - held_out (length X) =? 0)%nat = false) as ->
    by (apply Nat.eqb_neq; lia).
  cbn [rbind]. fold y. rewrite Hrs. cbn [rbind].
  unfold py_max. cbn [rbind].
  rewrite (generate_future_predictions_returns _ _ _ _ _ Hlast Hrv).
  reflexivity.
Qed.

Lemma forecast_inv rows days_ahead f :
  predict_daily_admissions_on rows days_ahead = Returned (DictForecast f) ->
  (30 <= length (dropna rows))%nat.
Proof.
  intros Hf. destruct (Nat.lt_ge_cases (length (dropna rows)) 30) as [Hlt|Hge]; [|exact Hge].
  unfold predict_daily_admissions_on in Hf.
  apply Nat.ltb_lt in Hlt. rewrite Hlt in Hf. discriminate Hf.
Qed.

Lemma forecast_length (rows : list DailyRow) (days_ahead : Z) (f : Forecast) :
  predict_daily_admissions_on rows days_ahead = Returned (DictForecast f) ->
  length (future_predictions f) = Z.to_nat days_ahead.
Proof.
  intros Hd. pose proof (forecast_inv _ _ _ Hd) as Hlen.
  destruct (predict_daily_admissions_on_unfold rows Hlen)
    as (X & rs & best & last & rv & _ & _ & _ & _ & _ & _ & _ & Hret).
  rewrite Hret in Hd. injection Hd as <-. cbn [future_predictions].
  rewrite length_map. unfold range. apply length_seqZ.
Qed.

(** X10.  When [predict_daily_admissions] returns a forecast, the
    feature-complete rows were split in their order, without shuffling:
    the last fifth of them, rounded up, was held out, and every
    candidate was fitted on the rows before and scored on the held-out
    rows alone; the predictions and the three metrics that the result
    reports for a candidate are those of that model on those rows. *)
Theorem candidates_scored_on_the_last_rows (rows : list DailyRow) (days_ahead : Z)
    (f : Forecast) :
  predict_daily_admissions_on rows days_ahead = Returned (DictForecast f) ->
  exists X : list (list Q),
    check_array (map feature_row (dropna rows)) = Returned X
    /\ length X = length (dropna rows)
    /\ 5 * (Z.of_nat (held_out (length X)) - 1) < Z.of_nat (length X)
         <= 5 * Z.of_nat (held_out (length X))
    /\ (let k := (length X - held_out (length X))%nat in
        let y := floats (map admission_count (dropna rows)) in
        Forall2 (fun ne nm =>
                   fst nm = fst ne
                   /\ metrics_predictions (snd nm)
                      = map (predict (fit (snd ne) (take k X) (take k y))) (drop k X)
                   /\ length (metrics_predictions (snd nm)) = held_out (length X)
                   /\ mean_absolute_error (drop k y) (metrics_predictions (snd nm))
                      = Returned (metrics_mae (snd nm))
                   /\ mean_squared_error (drop k y) (metrics_predictions (snd nm))
                      = Returned (metrics_mse (snd nm))
                   /\ r2_score (drop k y) (metrics_predictions (snd nm))
                      = Returned (metrics_r2 (snd nm)))
                models (model_metrics f)).
Proof.
  intros Hf. pose proof (forecast_inv _ _ _ Hf) as Hlen.
  destruct (predict_daily_admissions_on_unfold rows Hlen)
    as (X & rs & best & last & rv & HX & HlenX & Htrain & _ & _ & _ & _ & Hret).
  rewrite Hret in Hf. injection Hf as <-.
  exists X. split; [exact HX|]. split; [exact HlenX|].
  split; [apply held_out_fifth|].
  cbv zeta in *. apply train_all_inv in Htrain.
  cbn [model_metrics]. rewrite map_fmap. apply Forall2_fmap_r.
  eapply Forall2_impl; [exact Htrain|].
  intros ne nr (Hn & Hm & Hp & Ha & Hb & Hc).
  unfold metrics_of. cbn [fst snd metrics_predictions metrics_mae metrics_mse metrics_r2].
  split; [exact Hn|]. split; [exact Hp|]. split; [|auto].
  cbn [snd metrics_predictions]. rewrite Hp, length_map, length_drop.
  pose proof (n_test_bounds (length X) ltac:(lia)) as Hb'.
  fold (held_out (length X)) in Hb'. lia.
Qed.

(** X11.  On sufficient data a horizon that is zero or negative gives
    a forecast without a point: the models are trained and scored, and
    the loop over the future dates does not run. *)
Theorem forecast_of_no_days (rows : list DailyRow) (days_ahead : Z) :
  (30 <= length (filter feature_complete rows))%nat ->
  days_ahead <= 0 ->
  exists f,
    predict_daily_admissions_on rows days_ahead = Returned (DictForecast f)
    /\ future_predictions f = [].
Proof.
  intros Hlen Hdays. rewrite <- dropna_feature_complete in Hlen.
  destruct (predict_daily_admissions_on_unfold rows Hlen)
    as (X & rs & best & last & rv & _ & _ & _ & _ & _ & _ & _ & Hret).
  eexists. split; [apply Hret|]. simpl. unfold range.
  rewrite seqZ_nil by exact Hdays. reflexivity.
Qed.


End Training.

Lemma candidates_scored_on_the_last_rows_witness :
  exists f,
    @predict_daily_admissions_on Sample.estimators Sample.rows60 7
    = Returned (DictForecast f)
    /\ exists X : list (list Q),
         check_array (map feature_row (dropna Sample.rows60)) = Returned X
         /\ length X = length (dropna Sample.rows60)
         /\ 5 * (Z.of_nat (held_out (length X)) - 1) < Z.of_nat (length X)
              <= 5 * Z.of_nat (held_out (length X))
         /\ (let k := (length X - held_out (length X))%nat in
             let y := floats (map admission_count (dropna Sample.rows60)) in
             Forall2 (fun ne nm =>
                        fst nm = fst ne
                        /\ metrics_predictions (snd nm)
                           = map (predict (fit (snd ne) (take k X) (take k y))) (drop k X)
                        /\ length (metrics_predictions (snd nm)) = held_out (length X)
                        /\ mean_absolute_error (drop k y) (metrics_predictions (snd nm))
                           = Returned (metrics_mae (snd nm))
                        /\ mean_squared_error (drop k y) (metrics_predictions (snd nm))
                           = Returned (metrics_mse (snd nm))
                        /\ r2_score (drop k y) (metrics_predictions (snd nm))
                           = Returned (metrics_r2 (snd nm)))
                     (@models Sample.estimators) (model_metrics f)).
Proof.
  eexists. split; [vm_compute; reflexivity|].
  apply (@candidates_scored_on_the_last_rows Sample.estimators Sample.rows60 7).
  vm_compute. reflexivity.
Defined.

(** Of the 30 feature-complete rows of the sample of 60 days, 6 are held
    out. *)
Example held_out_of_thirty : held_out 30 = 6%nat /\ held_out 31 = 7%nat.
Proof. split; reflexivity. Qed.

Lemma forecast_of_no_days_witness :
  exists f,
    @predict_daily_admissions_on Sample.estimators Sample.rows60 (-3)
    = Returned (DictForecast f)
    /\ future_predictions f = [].
Proof.
  apply (@forecast_of_no_days Sample.estimators Sample.rows60 (-3)).
  - vm_compute. lia.
  - lia.
Defined.


(** ** The importances of the features *)

Lemma insert_desc_perm (x : string * Q) (l : list (string * Q)) :
  insert_desc x l ≡ₚ x :: l.
Proof.
  induction l as [|y l IH]; simpl; [reflexivity|].
  destruct (Qltb (snd y) (snd x)); [reflexivity|].
  rewrite IH. apply Permutation_swap.
Qed.

Lemma insert_desc_sorted (x : string * Q) (l : list (string * Q)) :
  StronglySorted by_importance l -> StronglySorted by_importance (insert_desc x l).
Proof.
  induction 1 as [|y l Hs IH Hall]; simpl.
  - repeat constructor.
  - destruct (Qltb (snd y) (snd x)) eqn:E.
    + apply Qltb_lt in E. constructor; [constructor; assumption|].
      constructor; [unfold by_importance; lra|].
      eapply Forall_impl; [exact Hall|]. unfold by_importance. intros z Hz. lra.
    + apply Qltb_ge in E. constructor; [exact IH|].
      rewrite insert_desc_perm. constructor; [exact E | exact Hall].
Qed.

Lemma sorted_desc_from (l acc : list (string * Q)) :
  StronglySorted by_importance acc ->
  StronglySorted by_importance (fold_left (fun acc x => insert_desc x acc) l acc)
  /\ fold_left (fun acc x => insert_desc x acc) l acc ≡ₚ acc ++ l.
Proof.
  revert acc. induction l as [|x l IH]; intros acc Hacc; simpl.
  - rewrite app_nil_r. auto.
  - destruct (IH (insert_desc x acc) (insert_desc_sorted x acc Hacc)) as [Hs Hp].
    split; [exact Hs|]. rewrite Hp, insert_desc_perm.
    rewrite <- Permutation_middle. reflexivity.
Qed.

Lemma zip_NoDup_fst (cols : list string) (importances : list Q) :
  NoDup cols -> NoDup (map fst (zip cols importances)).
Proof.
  intros Hnd. revert importances.
  induction Hnd as [|c cols Hc Hnd IH]; intros [|x importances]; simpl;
    try constructor.
  - intros Hin. apply Hc. rewrite map_fmap in Hin.
    apply list_elem_of_fmap in Hin as ([c' x'] & -> & Hin).
    apply elem_of_zip_l in Hin. exact Hin.
  - apply IH.
Qed.

(** X13.  [_get_feature_importance] gives nothing for a model without
    importances; otherwise it pairs the columns with the importances,
    each column once, as many pairs as the shorter of the two has, and
    lists them from the most important to the least. *)
Theorem feature_importance_in_decreasing_order (m : Trained) (cols : list string) :
  NoDup cols ->
  match feature_importances_ m with
  | None => _get_feature_importance m cols = []
  | Some importances =>
      _get_feature_importance m cols ≡ₚ zip cols importances
      /\ StronglySorted by_importance (_get_feature_importance m cols)
      /\ NoDup (map fst (_get_feature_importance m cols))
      /\ length (_get_feature_importance m cols)
         = Nat.min (length cols) (length importances)
  end.
Proof.
  intros Hnd. unfold _get_feature_importance.
  destruct (feature_importances_ m) as [importances|]; [|reflexivity].
  destruct (sorted_desc_from (zip cols importances) [] ltac:(constructor)) as [Hs Hp].
  fold (sorted_desc (zip cols importances)) in Hs, Hp. simpl in Hp.
  split; [exact Hp|]. split; [exact Hs|]. split.
  - rewrite map_fmap, Hp. apply zip_NoDup_fst, Hnd.
  - rewrite Hp. apply length_zip_with.
Qed.

Lemma feature_importance_in_decreasing_order_witness :
  _get_feature_importance Cases.forest_model Cases.three_columns
    ≡ₚ zip Cases.three_columns [1 # 10; 6 # 10; 3 # 10]%Q
  /\ StronglySorted by_importance
       (_get_feature_importance Cases.forest_model Cases.three_columns)
  /\ NoDup (map fst (_get_feature_importance Cases.forest_model Cases.three_columns))
  /\ length (_get_feature_importance Cases.forest_model Cases.three_columns)
     = Nat.min (length Cases.three_columns) 3.
Proof.
  apply (feature_importance_in_decreasing_order Cases.forest_model Cases.three_columns).
  apply (bool_decide_unpack _). vm_compute. exact I.
Defined.

Example feature_importance_of_three :
  _get_feature_importance Cases.forest_model Cases.three_columns
  = [("day_of_week", 6 # 10); ("season", 3 # 10); ("month", 1 # 10)]%string%Q.
Proof. reflexivity. Qed.

(** ** The report of the busy periods *)

Lemma sorted_ends (a : list Z) :
  a <> [] ->
  least_of (nth 0 (sort a) 0) a
  /\ greatest_of (nth (length (sort a) - 1) (sort a) 0) a.
Proof.
  intros Ha. pose proof (sort_nonempty a Ha) as Hs.
  assert (0 < length (sort a))%nat as Hlen by (destruct (sort a); [congruence | simpl; lia]).
  assert (forall i, (i < length (sort a))%nat -> nth i (sort a) 0 ∈ a) as Hin.
  { intros i Hi. apply list_elem_of_In. eapply Permutation_in; [apply sort_perm|].
    apply nth_In. exact Hi. }
  assert (forall c, c ∈ a -> exists j, (j < length (sort a))%nat /\ nth j (sort a) 0 = c)
    as Hall.
  { intros c Hc. apply list_elem_of_In in Hc.
    eapply Permutation_in in Hc; [|symmetry; apply sort_perm].
    apply list_elem_of_In, list_elem_of_lookup in Hc as [j Hj].
    exists j. split; [apply lookup_lt_Some in Hj; exact Hj|].
    apply nth_lookup_Some with (d := 0) in Hj. exact Hj. }
  split; (split; [apply Hin; lia|]); intros c Hc;
    destruct (Hall c Hc) as (j & Hj & <-);
    apply sorted_nth; try apply sort_sorted; lia.
Qed.

Lemma quantile_linear_between (s : list Z) (q : Q) :
  StronglySorted Z.le s -> s <> [] -> (0 <= q)%Q -> (q <= 1)%Q ->
  (nthZ s 0 <= quantile_linear s q)%Q
  /\ (quantile_linear s q <= nthZ s (len s - 1))%Q.
Proof.
  intros Hs Hne H0 H1. unfold quantile_linear.
  assert (1 <= len s) as Hn by (unfold len; destruct s; [congruence | simpl; lia]).
  fold (len s).
  set (n1 := inject_Z (len s - 1)).
  assert (0 <= n1)%Q as Hn1.
  { unfold n1. change 0%Q with (inject_Z 0). rewrite <- Zle_Qle. lia. }
  set (v := (n1 * q)%Q).
  assert (0 <= v)%Q as Hv0 by (unfold v; nra).
  assert (v <= n1)%Q as Hv1 by (unfold v; nra).
  pose proof (Qfloor_le v) as Hf. pose proof (Qlt_floor v) as Hc.
  rewrite inject_Z_plus in Hc. change (inject_Z 1) with 1%Q in Hc.
  assert (0 <= Qfloor v) as Hp0.
  { change 0 with (Qfloor (inject_Z 0)). apply Qfloor_resp_le. exact Hv0. }
  assert (Qfloor v <= len s - 1) as Hpn.
  { rewrite <- (Qfloor_Z (len s - 1)). apply Qfloor_resp_le. exact Hv1. }
  set (p := Qfloor v) in *.
  pose proof (nthZ_le s 0 p Hs ltac:(lia) ltac:(lia)) as H0p.
  pose proof (nthZ_le s p (Z.min (p + 1) (len s - 1)) Hs ltac:(lia) ltac:(lia)) as Hpq.
  pose proof (nthZ_le s (Z.min (p + 1) (len s - 1)) (len s - 1) Hs ltac:(lia) ltac:(lia))
    as Hqn.
  set (A := nthZ s p) in *. set (B := nthZ s (Z.min (p + 1) (len s - 1))) in *.
  set (L := nthZ s 0) in *. set (U := nthZ s (len s - 1)) in *.
  split; nra.
Qed.

(** The percentile of data lies between the least and the greatest. *)
Lemma percentile_between (a : list Z) (P : Q) :
  a <> [] -> (0 <= P)%Q -> (P <= 100)%Q ->
  exists lo hi,
    least_of lo a /\ greatest_of hi a
    /\ (inject_Z lo <= quantile_linear (sort a) (P / 100))%Q
    /\ (quantile_linear (sort a) (P / 100) <= inject_Z hi)%Q.
Proof.
  intros Ha H0 H100.
  destruct (sorted_ends a Ha) as [Hlo Hhi].
  exists (nth 0 (sort a) 0), (nth (length (sort a) - 1) (sort a) 0).
  split; [exact Hlo|]. split; [exact Hhi|].
  destruct (quantile_linear_between (sort a) (P / 100) (sort_sorted a) (sort_nonempty a Ha))
    as [H1 H2].
  - apply Qle_shift_div_l; lra.
  - apply Qle_shift_div_r; lra.
  - split; [exact H1|].
    unfold nthZ, len in H2.
    replace (Z.to_nat (Z.of_nat (length (sort a)) - 1)) with (length (sort a) - 1)%nat in H2
      by lia.
    exact H2.
Qed.

Lemma Qsum_ge (t : Q) (l : list Q) :
  Forall (fun x => (t <= x)%Q) l ->
  (inject_Z (Z.of_nat (length l)) * t <= Qsum l)%Q.
Proof.
  induction 1 as [|x l Hx Hall IH]; simpl Qsum.
  - change (inject_Z (Z.of_nat (@length Q []))) with 0%Q. lra.
  - rewrite length_cons, Nat2Z.inj_succ. unfold Z.succ. rewrite inject_Z_plus.
    change (inject_Z 1) with 1%Q. lra.
Qed.

Lemma Qsum_le (t : Q) (l : list Q) :
  Forall (fun x => (x <= t)%Q) l ->
  (Qsum l <= inject_Z (Z.of_nat (length l)) * t)%Q.
Proof.
  induction 1 as [|x l Hx Hall IH]; simpl Qsum.
  - change (inject_Z (Z.of_nat (@length Q []))) with 0%Q. lra.
  - rewrite length_cons, Nat2Z.inj_succ. unfold Z.succ. rewrite inject_Z_plus.
    change (inject_Z 1) with 1%Q. lra.
Qed.

Lemma mean_between (lo hi : Q) (l : list Q) :
  l <> [] -> Forall (fun x => (lo <= x)%Q /\ (x <= hi)%Q) l ->
  exists a, mean l = Some a /\ (lo <= a)%Q /\ (a <= hi)%Q.
Proof.
  intros Hl Hall. destruct l as [|x l]; [congruence|].
  eexists. split; [reflexivity|].
  set (l' := x :: l) in *.
  assert (0 < inject_Z (Z.of_nat (length l')))%Q as Hpos.
  { change 0%Q with (inject_Z 0). rewrite <- Zlt_Qlt. unfold l'. simpl. lia. }
  pose proof (Qsum_ge lo l' ltac:(eapply Forall_impl; [exact Hall|]; simpl; tauto)) as H1.
  pose proof (Qsum_le hi l' ltac:(eapply Forall_impl; [exact Hall|]; simpl; tauto)) as H2.
  split.
  - apply Qle_shift_div_l; [exact Hpos|]. lra.
  - apply Qle_shift_div_r; [exact Hpos|]. lra.
Qed.

Lemma value_counts_from (l : list Z) (m : gmap Z Z) (k : Z) :
  fold_left (fun m k => <[k := default 0 (m !! k) + 1]> m) l m !! k
  = match m !! k with
    | Some c => Some (c + occurrences k l)
    | None => counted k l
    end.
Proof.
  revert m. induction l as [|x l IH]; intros m; cbn [fold_left].
  - unfold counted, occurrences, len. simpl.
    destruct (m !! k) as [c|]; [f_equal; lia | reflexivity].
  - rewrite IH. unfold counted, occurrences, len. rewrite filter_cons.
    destruct (decide (x = k)) as [->|Hne].
    + rewrite lookup_insert_eq. rewrite length_cons.
      destruct (m !! k) as [c|]; simpl default.
      * f_equal. lia.
      * assert ((Z.of_nat (S (length (filter (fun x => x = k) l))) =? 0) = false) as ->
          by (apply Z.eqb_neq; lia).
        f_equal. lia.
    + rewrite lookup_insert_ne by exact Hne. reflexivity.
Qed.

Lemma value_counts_lookup (l : list Z) (k : Z) : value_counts l !! k = counted k l.
Proof. unfold value_counts. rewrite value_counts_from, lookup_empty. reflexivity. Qed.

Lemma busy_rows_elem (t : Q) (rows : list DailyRow) (r : DailyRow) :
  r ∈ busy_rows t rows <-> r ∈ rows /\ (t <= inject_Z (admission_count r))%Q.
Proof.
  unfold busy_rows. rewrite list_elem_of_filter.
  rewrite Is_true_true, Qle_bool_iff. tauto.
Qed.

Section BusyReport.

Context `{Sklearn}.

(** What [predict_busy_periods] returns, field by field. *)
Lemma predict_busy_periods_on_unfold (rows : list DailyRow) (P : Q) :
  rows <> [] -> (0 <= P)%Q -> (P <= 100)%Q ->
  exists d,
    predict_daily_admissions_on rows 90 = Returned d
    /\ predict_busy_periods_on rows P
       = Returned
           (let t := quantile_linear (sort (map admission_count rows)) (P / 100) in
            let busy := busy_rows t rows in
            {| threshold := t;
               busy_day_count := len busy;
               busy_day_percentage := (inject_Z (len busy) / inject_Z (len rows) * 100)%Q;
               average_busy_day_admissions := mean (floats (map admission_count busy));
               busy_months := value_counts (map month busy);
               busy_days_of_week := value_counts (map day_of_week busy);
               busy_seasons := value_counts (map season busy);
               future_busy_periods :=
                 match d with
                 | DictForecast f => Some (busy_points t (future_predictions f))
                 | DictError _ => None
                 end;
               predicted_busy_days :=
                 match d with
                 | DictForecast f => Some (len (busy_points t (future_predictions f)))
                 | DictError _ => None
                 end |}).
Proof.
  intros Hr H0 H100. unfold predict_busy_periods_on.
  rewrite np_percentile_in_range; [|destruct rows; [congruence | discriminate]|exact H0|exact H100].
  cbn [rbind]. unfold true_divide.
  assert ((len rows =? 0) = false) as ->.
  { apply Z.eqb_neq. unfold len. destruct rows; [congruence | simpl; lia]. }
  cbn [rbind].
  destruct (predict_daily_admissions_on_total rows 90) as [d Hd]. rewrite Hd. cbn [rbind].
  exists d. split; [reflexivity|]. destruct d; reflexivity.
Qed.

Lemma predict_busy_periods_on_inv (rows : list DailyRow) (P : Q) (b : BusyPatterns) :
  predict_busy_periods_on rows P = Returned b ->
  rows <> [] /\ (0 <= P)%Q /\ (P <= 100)%Q.
Proof.
  unfold predict_busy_periods_on, np_percentile. intros Hb.
  destruct (Qle_bool 0 P) eqn:E0; [|discriminate Hb].
  destruct (Qle_bool P 100) eqn:E1; [|discriminate Hb].
  apply Qle_bool_iff in E0, E1.
  destruct rows; [discriminate Hb|]. repeat split; [discriminate | exact E0 | exact E1].
Qed.

(** X14.  The historical part of the report of [predict_busy_periods],
    on a daily frame that is not empty and a percentile within 0..100: the threshold lies between the least
    and the greatest daily count; the busy days are the rows at or above
    it, at least one of them, the day of the greatest count; their share
    is above 0 and at most 100 percent; their mean count is at least the
    threshold. *)
Theorem busy_days_of_the_report (rows : list DailyRow) (P : Q) :
  rows <> [] -> (0 <= P)%Q -> (P <= 100)%Q ->
  exists b lo hi,
    predict_busy_periods_on rows P = Returned b
    /\ least_of lo (map admission_count rows)
    /\ greatest_of hi (map admission_count rows)
    /\ (inject_Z lo <= threshold b)%Q /\ (threshold b <= inject_Z hi)%Q
    /\ busy_day_count b = len (busy_rows (threshold b) rows)
    /\ 1 <= busy_day_count b <= len rows
    /\ (busy_day_percentage b
        == inject_Z (busy_day_count b) / inject_Z (len rows) * 100)%Q
    /\ (0 < busy_day_percentage b)%Q /\ (busy_day_percentage b <= 100)%Q
    /\ exists a, average_busy_day_admissions b = Some a
                 /\ (threshold b <= a)%Q /\ (a <= inject_Z hi)%Q.
Proof.
  intros Hr H0 H100.
  destruct (predict_busy_periods_on_unfold rows P Hr H0 H100) as (d & _ & Hb).
  destruct (percentile_between (map admission_count rows) P) as (lo & hi & Hlo & Hhi & Hlt & Hth);
    [destruct rows; [congruence | discriminate] | exact H0 | exact H100 |].
  eexists _, lo, hi. split; [exact Hb|]. cbv zeta.
  cbn [threshold busy_day_count busy_day_percentage average_busy_day_admissions].
  set (t := quantile_linear (sort (map admission_count rows)) (P / 100)) in *.
  split; [exact Hlo|]. split; [exact Hhi|]. split; [exact Hlt|]. split; [exact Hth|].
  split; [reflexivity|].
  assert (exists r, r ∈ busy_rows t rows) as [r Hbusy].
  { destruct Hhi as [Hin _]. rewrite map_fmap in Hin.
    apply list_elem_of_fmap in Hin as (r & -> & Hr'). exists r.
    apply busy_rows_elem. split; [exact Hr' | exact Hth]. }
  assert (1 <= len (busy_rows t rows) <= len rows) as Hcount.
  { unfold len. split.
    - destruct (busy_rows t rows); [inversion Hbusy | simpl; lia].
    - apply inj_le. unfold busy_rows. apply length_filter. }
  split; [exact Hcount|]. split; [reflexivity|].
  assert (0 < inject_Z (len rows))%Q as Hn
    by (change 0%Q with (inject_Z 0); rewrite <- Zlt_Qlt; lia).
  assert (0 < inject_Z (len (busy_rows t rows)))%Q as Hk
    by (change 0%Q with (inject_Z 0); rewrite <- Zlt_Qlt; lia).
  assert (inject_Z (len (busy_rows t rows)) <= inject_Z (len rows))%Q as Hkn
    by (rewrite <- Zle_Qle; lia).
  split; [|split].
  - apply Qmult_lt_0_compat; [|reflexivity]. apply Qlt_shift_div_l; [exact Hn | lra].
  - assert (inject_Z (len (busy_rows t rows)) / inject_Z (len rows) <= 1)%Q as Hfrac
      by (apply Qle_shift_div_r; [exact Hn | lra]).
    lra.
  - apply mean_between.
    + unfold floats. destruct (busy_rows t rows); [inversion Hbusy | discriminate].
    + unfold floats. rewrite !map_fmap, <- list_fmap_compose. apply Forall_fmap.
      apply Forall_forall. intros r' Hr'. apply busy_rows_elem in Hr' as [Hin Hge].
      simpl. split; [exact Hge|]. rewrite <- Zle_Qle.
      destruct Hhi as [_ Hmax]. apply Hmax. rewrite map_fmap.
      apply list_elem_of_fmap. eauto.
Qed.

(** X15.  The breakdowns of the report count the busy days: under each month,
    day of the week and season, the number of busy days that have it,
    and no entry for one that no busy day has. *)
Theorem busy_breakdowns_count_the_busy_days (rows : list DailyRow) (P : Q)
    (b : BusyPatterns) (k : Z) :
  predict_busy_periods_on rows P = Returned b ->
  busy_months b !! k = counted k (map month (busy_rows (threshold b) rows))
  /\ busy_days_of_week b !! k
     = counted k (map day_of_week (busy_rows (threshold b) rows))
  /\ busy_seasons b !! k = counted k (map season (busy_rows (threshold b) rows)).
Proof.
  intros Hb. destruct (predict_busy_periods_on_inv rows P b Hb) as (Hr & H0 & H100).
  destruct (predict_busy_periods_on_unfold rows P Hr H0 H100) as (d & _ & Hb').
  rewrite Hb' in Hb. injection Hb as <-. cbv zeta.
  cbn [threshold busy_months busy_days_of_week busy_seasons].
  rewrite !value_counts_lookup. auto.
Qed.

(** X16.  The forecast part of the report.  It is there exactly when the daily
    frame has 30 feature-complete rows; it is made of the points of the
    forecast for 90 days whose predicted count is at or above the
    threshold, in their order, and [predicted_busy_days] is their
    number. *)
Theorem busy_forecast_of_the_report (rows : list DailyRow) (P : Q) (b : BusyPatterns) :
  predict_busy_periods_on rows P = Returned b ->
  (is_Some (future_busy_periods b)
   <-> (30 <= length (filter feature_complete rows))%nat)
  /\ predicted_busy_days b = len <$> future_busy_periods b
  /\ forall points,
       future_busy_periods b = Some points ->
       exists f,
         predict_daily_admissions_on rows 90 = Returned (DictForecast f)
         /\ points = busy_points (threshold b) (future_predictions f)
         /\ len points <= 90
         /\ Forall (fun p => (threshold b <= inject_Z (predicted_admissions p))%Q) points.
Proof.
  intros Hb. destruct (predict_busy_periods_on_inv rows P b Hb) as (Hr & H0 & H100).
  destruct (predict_busy_periods_on_unfold rows P Hr H0 H100) as (d & Hd & Hb').
  rewrite Hb' in Hb. injection Hb as <-. cbv zeta.
  cbn [threshold future_busy_periods predicted_busy_days].
  set (t := quantile_linear (sort (map admission_count rows)) (P / 100)).
  rewrite <- dropna_feature_complete.
  destruct d as [e|f].
  - split; [|split; [reflexivity|intros points; discriminate]].
    split; [intros [x Hx]; discriminate|]. intros Hlen.
    destruct (predict_daily_admissions_on_unfold rows Hlen)
      as (X & rs & best & last & rv & _ & _ & _ & _ & _ & _ & _ & Hret).
    rewrite Hret in Hd. discriminate Hd.
  - split; [|split; [reflexivity|]].
    + split; [intros _; exact (forecast_inv _ _ _ Hd) | eauto].
    + intros points [= <-]. exists f. split; [exact Hd|]. split; [reflexivity|].
      split.
      * pose proof (forecast_length _ _ _ Hd) as Hl.
        pose proof (length_filter
                      (fun p => Qle_bool t (inject_Z (predicted_admissions p)))
                      (future_predictions f)) as Hle.
        fold (busy_points t (future_predictions f)) in Hle.
        unfold len. lia.
      * apply Forall_forall. intros p Hp. unfold busy_points in Hp.
        apply list_elem_of_filter in Hp as [Hp _].
        apply Is_true_true, Qle_bool_iff in Hp. exact Hp.
Qed.

End BusyReport.

Lemma busy_days_of_the_report_witness :
  exists b lo hi,
    @predict_busy_periods_on Sample.estimators Sample.rows60 75 = Returned b
    /\ least_of lo (map admission_count Sample.rows60)
    /\ greatest_of hi (map admission_count Sample.rows60)
    /\ (inject_Z lo <= threshold b)%Q /\ (threshold b <= inject_Z hi)%Q
    /\ busy_day_count b = len (busy_rows (threshold b) Sample.rows60)
    /\ 1 <= busy_day_count b <= len Sample.rows60
    /\ (busy_day_percentage b
        == inject_Z (busy_day_count b) / inject_Z (len Sample.rows60) * 100)%Q
    /\ (0 < busy_day_percentage b)%Q /\ (busy_day_percentage b <= 100)%Q
    /\ exists a, average_busy_day_admissions b = Some a
                 /\ (threshold b <= a)%Q /\ (a <= inject_Z hi)%Q.
Proof.
  apply (@busy_days_of_the_report Sample.estimators Sample.rows60 75).
  - discriminate.
  - vm_compute. discriminate.
  - vm_compute. discriminate.
Defined.

Lemma busy_breakdowns_count_the_busy_days_witness :
  exists b,
    @predict_busy_periods_on Sample.estimators Sample.rows60 75 = Returned b
    /\ busy_months b !! 1
       = counted 1 (map month (busy_rows (threshold b) Sample.rows60))
    /\ busy_days_of_week b !! 1
       = counted 1 (map day_of_week (busy_rows (threshold b) Sample.rows60))
    /\ busy_seasons b !! 1
       = counted 1 (map season (busy_rows (threshold b) Sample.rows60)).
Proof.
  eexists. split; [vm_compute; reflexivity|].
  apply (@busy_breakdowns_count_the_busy_days Sample.estimators Sample.rows60 75).
  vm_compute. reflexivity.
Defined.

Lemma busy_forecast_of_the_report_witness :
  exists b,
    @predict_busy_periods_on Sample.estimators Sample.rows60 75 = Returned b
    /\ (is_Some (future_busy_periods b)
        <-> (30 <= length (filter feature_complete Sample.rows60))%nat)
    /\ predicted_busy_days b = len <$> future_busy_periods b
    /\ forall points,
         future_busy_periods b = Some points ->
         exists f,
           @predict_daily_admissions_on Sample.estimators Sample.rows60 90
           = Returned (DictForecast f)
           /\ points = busy_points (threshold b) (future_predictions f)
           /\ len points <= 90
           /\ Forall (fun p => (threshold b <= inject_Z (predicted_admissions p))%Q) points.
Proof.
  eexists. split; [vm_compute; reflexivity|].
  apply (@busy_forecast_of_the_report Sample.estimators Sample.rows60 75).
  vm_compute. reflexivity.
Defined.

(** On the sample of 60 days, 30 days with one admission and 30 with
    two, the 75th percentile is 2 and the busy days are the 30 days
    with two admissions, half of the frame. *)
Example busy_days_of_the_sample :
  exists b,
    @predict_busy_periods_on Sample.estimators Sample.rows60 75 = Returned b
    /\ (threshold b == 2)%Q
    /\ busy_day_count b = 30
    /\ (busy_day_percentage b == 50)%Q
    /\ predicted_busy_days b = Some (len (default [] (future_busy_periods b))).
Proof.
  eexists. split; [vm_compute; reflexivity|].
  split; [reflexivity|]. split; [reflexivity|]. split; reflexivity.
Qed.

(** ** The capacity requirements *)

Lemma Qtrunc_floor (x : Q) : (0 <= x)%Q -> Qtrunc x = Qfloor x.
Proof.
  destruct x as [n d]. unfold Qle, Qtrunc, Qfloor. simpl. intros Hn.
  apply Z.quot_div_nonneg; lia.
Qed.

Lemma Qtrunc_ceiling (x : Q) : (x <= 0)%Q -> Qtrunc x = Qceiling x.
Proof.
  destruct x as [n d]. unfold Qle, Qtrunc, Qceiling, Qfloor, Qopp. simpl. intros Hn.
  rewrite <- (Z.opp_involutive n) at 1. rewrite Z.quot_opp_l by lia.
  rewrite Z.quot_div_nonneg by lia. reflexivity.
Qed.

(** [int] of a float does not change the order. *)
Lemma Qtrunc_mono (x y : Q) : (x <= y)%Q -> Qtrunc x <= Qtrunc y.
Proof.
  intros Hxy. destruct (Qlt_le_dec x 0) as [Hx|Hx], (Qlt_le_dec y 0) as [Hy|Hy].
  - rewrite !Qtrunc_ceiling by lra. apply Qceiling_resp_le, Hxy.
  - rewrite Qtrunc_ceiling by lra. rewrite Qtrunc_floor by exact Hy.
    assert (Qceiling x <= 0).
    { change 0 with (Qceiling (inject_Z 0)). apply Qceiling_resp_le.
      change (inject_Z 0) with 0%Q. lra. }
    assert (0 <= Qfloor y).
    { change 0 with (Qfloor (inject_Z 0)). apply Qfloor_resp_le. exact Hy. }
    lia.
  - lra.
  - rewrite !Qtrunc_floor by lra. apply Qfloor_resp_le, Hxy.
Qed.

Lemma fold_max_greatest (l : list Z) (x : Z) : greatest_of (fold_left Z.max l x) (x :: l).
Proof.
  revert x. induction l as [|y l IH]; intros x; simpl.
  - split; [left|]. intros c Hc. apply list_elem_of_singleton in Hc. lia.
  - destruct (IH (Z.max x y)) as [Hin Hmax]. split.
    + apply elem_of_cons in Hin as [Hin|Hin]; [|right; right; exact Hin].
      rewrite Hin. destruct (Z.max_spec x y) as [[_ ->]|[_ ->]]; [right; left | left].
    + intros c Hc. apply elem_of_cons in Hc as [->|Hc].
      * pose proof (Hmax (Z.max x y) ltac:(left)). lia.
      * apply elem_of_cons in Hc as [->|Hc].
        -- pose proof (Hmax (Z.max x y) ltac:(left)). lia.
        -- apply Hmax. right. exact Hc.
Qed.

Lemma fold_min_least (l : list Z) (x : Z) : least_of (fold_left Z.min l x) (x :: l).
Proof.
  revert x. induction l as [|y l IH]; intros x; simpl.
  - split; [left|]. intros c Hc. apply list_elem_of_singleton in Hc. lia.
  - destruct (IH (Z.min x y)) as [Hin Hmin]. split.
    + apply elem_of_cons in Hin as [Hin|Hin]; [|right; right; exact Hin].
      rewrite Hin. destruct (Z.min_spec x y) as [[_ ->]|[_ ->]]; [left | right; left].
    + intros c Hc. apply elem_of_cons in Hc as [->|Hc].
      * pose proof (Hmin (Z.min x y) ltac:(left)). lia.
      * apply elem_of_cons in Hc as [->|Hc].
        -- pose proof (Hmin (Z.min x y) ltac:(left)). lia.
        -- apply Hmin. right. exact Hc.
Qed.

Lemma percentile_mono (a : list Z) (P1 P2 : Q) :
  a <> [] -> (0 <= P1)%Q -> (P1 <= P2)%Q -> (P2 <= 100)%Q ->
  (quantile_linear (sort a) (P1 / 100) <= quantile_linear (sort a) (P2 / 100))%Q.
Proof.
  intros Ha H0 H12 H100. apply quantile_linear_mono.
  - apply sort_sorted.
  - apply sort_nonempty, Ha.
  - apply Qle_shift_div_l; lra.
  - apply Qmult_le_compat_r; [exact H12 | discriminate].
  - apply Qle_shift_div_r; lra.
Qed.

(** X17.  The peak requirements of [analyze_capacity_requirements], on
    a daily frame that is not empty: the greatest daily count, and the
    75th, 90th and 95th percentiles of the counts cut to integers, in
    increasing order and between the least and the greatest count; the
    statistics report the number of rows, the least and the greatest
    count. *)
Theorem peak_requirements_in_order (rows : list DailyRow) :
  rows <> [] ->
  exists c lo,
    analyze_capacity_requirements_on rows = Returned c
    /\ least_of lo (map admission_count rows)
    /\ greatest_of (max_daily_admissions (peak_requirements c))
                   (map admission_count rows)
    /\ lo <= percentile_75 (peak_requirements c)
    /\ percentile_75 (peak_requirements c) <= percentile_90 (peak_requirements c)
    /\ percentile_90 (peak_requirements c) <= percentile_95 (peak_requirements c)
    /\ percentile_95 (peak_requirements c)
       <= max_daily_admissions (peak_requirements c)
    /\ stat_count (daily_admission_stats c) = len rows
    /\ stat_min (daily_admission_stats c) = Some lo
    /\ stat_max (daily_admission_stats c)
       = Some (max_daily_admissions (peak_requirements c)).
Proof.
  intros Hr.
  set (counts := map admission_count rows).
  assert (counts <> []) as Hc by (unfold counts; destruct rows; [congruence | discriminate]).
  unfold analyze_capacity_requirements_on. fold counts. cbv zeta.
  destruct counts as [|x l] eqn:Ecounts; [congruence|].
  cbn [max_count rbind]. rewrite <- Ecounts in *.
  unfold int_of_float.
  rewrite !np_percentile_in_range by (first [exact Hc | lra]).
  cbn [rbind].
  pose proof (fold_max_greatest l x) as Hmax. rewrite <- Ecounts in Hmax.
  pose proof (fold_min_least l x) as Hmin. rewrite <- Ecounts in Hmin.
  eexists _, (fold_left Z.min l x). split; [reflexivity|].
  cbn [peak_requirements max_daily_admissions percentile_75 percentile_90 percentile_95
       daily_admission_stats].
  split; [exact Hmin|]. split; [exact Hmax|].
  destruct (percentile_between counts 75 Hc ltac:(lra) ltac:(lra))
    as (lo & hi & Hlo & Hhi & Hlo75 & _).
  destruct (percentile_between counts 95 Hc ltac:(lra) ltac:(lra))
    as (lo' & hi' & _ & Hhi' & _ & Hhi95).
  split.
  { apply Qtrunc_mono in Hlo75. rewrite Qtrunc_inject in Hlo75.
    destruct Hlo as [Hin Hle], Hmin as [Hin' Hle'].
    pose proof (Hle _ Hin'). pose proof (Hle' _ Hin). lia. }
  split; [apply Qtrunc_mono, percentile_mono; first [exact Hc | lra]|].
  split; [apply Qtrunc_mono, percentile_mono; first [exact Hc | lra]|].
  split.
  { apply Qtrunc_mono in Hhi95. rewrite Qtrunc_inject in Hhi95.
    destruct Hhi' as [Hin Hle], Hmax as [Hin' Hle'].
    pose proof (Hle' _ Hin). lia. }
  unfold describe. cbn [stat_count stat_min stat_max].
  split; [unfold counts, len; rewrite length_map; reflexivity|].
  rewrite Ecounts. split; reflexivity.
Qed.

Lemma peak_requirements_in_order_witness :
  exists c lo,
    analyze_capacity_requirements_on Sample.rows60 = Returned c
    /\ least_of lo (map admission_count Sample.rows60)
    /\ greatest_of (max_daily_admissions (peak_requirements c))
                   (map admission_count Sample.rows60)
    /\ lo <= percentile_75 (peak_requirements c)
    /\ percentile_75 (peak_requirements c) <= percentile_90 (peak_requirements c)
    /\ percentile_90 (peak_requirements c) <= percentile_95 (peak_requirements c)
    /\ percentile_95 (peak_requirements c)
       <= max_daily_admissions (peak_requirements c)
    /\ stat_count (daily_admission_stats c) = len Sample.rows60
    /\ stat_min (daily_admission_stats c) = Some lo
    /\ stat_max (daily_admission_stats c)
       = Some (max_daily_admissions (peak_requirements c)).
Proof.
  apply (peak_requirements_in_order Sample.rows60). discriminate.
Defined.

Lemma keyed_lookup {V} (key : DailyRow -> Z) (F : Z -> V) (rows : list DailyRow) (k : Z) :
  (list_to_map (map (fun r => (key r, F (key r))) rows) : gmap Z V) !! k
  = if bool_decide (k ∈ map key rows) then Some (F k) else None.
Proof.
  induction rows as [|r rows IH]; cbn [map list_to_map foldr].
  - rewrite lookup_empty. rewrite bool_decide_eq_false_2; [reflexivity | apply not_elem_of_nil].
  - destruct (decide (k = key r)) as [->|Hne].
    + rewrite lookup_insert_eq. rewrite bool_decide_eq_true_2; [reflexivity | left].
    + rewrite lookup_insert_ne by (intros Heq; apply Hne; symmetry; exact Heq). rewrite IH.
      destruct (bool_decide (k ∈ map key rows)) eqn:E.
      * apply bool_decide_eq_true in E. rewrite bool_decide_eq_true_2; [reflexivity|].
        right. exact E.
      * apply bool_decide_eq_false in E. rewrite bool_decide_eq_false_2; [reflexivity|].
        intros Hin. apply elem_of_cons in Hin as [Hin|Hin]; contradiction.
Qed.

Lemma grouped_lookup (key : DailyRow -> Z) (rows : list DailyRow) (k : Z) :
  grouped key rows !! k
  = if bool_decide (k ∈ map key rows) then Some (group_stats (counts_in key k rows))
    else None.
Proof.
  unfold grouped. cbv zeta.
  pose proof (keyed_lookup key
                (fun k => group_stats
                            (map admission_count (filter (fun r => key r =? k) rows)))
                rows k) as Hk.
  cbv beta in Hk. rewrite Hk. clear Hk.
  destruct (bool_decide _); [|reflexivity].
  unfold counts_in. do 3 f_equal. apply list_filter_iff.
  intros r. rewrite Is_true_true, Z.eqb_eq. reflexivity.
Qed.

Lemma counts_in_nonempty (key : DailyRow -> Z) (rows : list DailyRow) (k : Z) :
  k ∈ map key rows -> counts_in key k rows <> [].
Proof.
  intros Hin. rewrite map_fmap in Hin. apply list_elem_of_fmap in Hin as (r & -> & Hr).
  unfold counts_in. intros Hnil.
  assert (r ∈ filter (fun r' => key r' = key r) rows) as Hf
    by (apply list_elem_of_filter; auto).
  destruct (filter _ rows); [inversion Hf | discriminate Hnil].
Qed.

(** The statistics of a group that is not empty. *)
Lemma group_stats_of (l : list Z) :
  l <> [] ->
  exists hi a,
    group_max (group_stats l) = Some hi /\ greatest_of hi l
    /\ group_mean (group_stats l) = Some a /\ (a <= inject_Z hi)%Q
    /\ (is_Some (group_std_squared (group_stats l)) <-> (2 <= length l)%nat).
Proof.
  intros Hl. destruct l as [|x l]; [congruence|].
  pose proof (fold_max_greatest l x) as Hmax.
  destruct (mean_between (inject_Z (fold_left Z.min l x)) (inject_Z (fold_left Z.max l x))
              (floats (x :: l))) as (a & Ha & _ & Hhi).
  { discriminate. }
  { unfold floats. rewrite map_fmap. apply Forall_fmap, Forall_forall. intros c Hc. simpl.
    rewrite <- !Zle_Qle. split.
    - apply (fold_min_least l x), Hc.
    - apply Hmax, Hc. }
  exists (fold_left Z.max l x), a.
  split; [reflexivity|]. split; [exact Hmax|]. split; [exact Ha|]. split; [exact Hhi|].
  cbn [group_stats group_std_squared]. unfold variance. rewrite Ha.
  unfold floats. rewrite length_map.
  destruct (length (x :: l) <? 2)%nat eqn:E.
  - apply Nat.ltb_lt in E. split; [intros [v Hv]; discriminate | lia].
  - apply Nat.ltb_ge in E. split; [intros _; exact E | eauto].
Qed.

(** X18.  The monthly and the day-of-week patterns of
    [analyze_capacity_requirements] have an entry for each month, and
    each day of the week, that some row of the daily frame has, and for
    no other; the entry gives the mean and the greatest of the counts of
    those rows, and their deviation when they are two or more. *)
Theorem capacity_patterns_by_group (rows : list DailyRow) (c : CapacityAnalysis) (k : Z) :
  analyze_capacity_requirements_on rows = Returned c ->
  monthly_patterns c !! k
  = (if bool_decide (k ∈ map month rows)
     then Some (group_stats (counts_in month k rows)) else None)
  /\ day_of_week_patterns c !! k
     = (if bool_decide (k ∈ map day_of_week rows)
        then Some (group_stats (counts_in day_of_week k rows)) else None)
  /\ (forall key, k ∈ map key rows ->
        exists hi a,
          group_max (group_stats (counts_in key k rows)) = Some hi
          /\ greatest_of hi (counts_in key k rows)
          /\ group_mean (group_stats (counts_in key k rows)) = Some a
          /\ (a <= inject_Z hi)%Q
          /\ (is_Some (group_std_squared (group_stats (counts_in key k rows)))
              <-> (2 <= length (counts_in key k rows))%nat)).
Proof.
  intros Hc. unfold analyze_capacity_requirements_on in Hc. cbv zeta in Hc.
  destruct (max_count (map admission_count rows)) as [mx|]; [|discriminate Hc].
  cbn [rbind] in Hc.
  destruct (int_of_float (np_percentile _ 95)) as [p95|]; [|discriminate Hc].
  cbn [rbind] in Hc.
  destruct (int_of_float (np_percentile _ 90)) as [p90|]; [|discriminate Hc].
  cbn [rbind] in Hc.
  destruct (int_of_float (np_percentile _ 75)) as [p75|]; [|discriminate Hc].
  cbn [rbind] in Hc. injection Hc as <-.
  cbn [monthly_patterns day_of_week_patterns].
  split; [apply grouped_lookup|]. split; [apply grouped_lookup|].
  intros key Hin. apply group_stats_of, counts_in_nonempty, Hin.
Qed.

Lemma capacity_patterns_by_group_witness :
  exists c,
    analyze_capacity_requirements_on Sample.rows60 = Returned c
    /\ monthly_patterns c !! 1
       = (if bool_decide (1 ∈ map month Sample.rows60)
          then Some (group_stats (counts_in month 1 Sample.rows60)) else None)
    /\ day_of_week_patterns c !! 1
       = (if bool_decide (1 ∈ map day_of_week Sample.rows60)
          then Some (group_stats (counts_in day_of_week 1 Sample.rows60)) else None)
    /\ (forall key, 1 ∈ map key Sample.rows60 ->
          exists hi a,
            group_max (group_stats (counts_in key 1 Sample.rows60)) = Some hi
            /\ greatest_of hi (counts_in key 1 Sample.rows60)
            /\ group_mean (group_stats (counts_in key 1 Sample.rows60)) = Some a
            /\ (a <= inject_Z hi)%Q
            /\ (is_Some (group_std_squared (group_stats (counts_in key 1 Sample.rows60)))
                <-> (2 <= length (counts_in key 1 Sample.rows60))%nat)).
Proof.
  eexists. split; [vm_compute; reflexivity|].
  apply (capacity_patterns_by_group Sample.rows60). vm_compute. reflexivity.
Defined.

(** ** A table without a date *)

Lemma groupby_size_no_date (dates : list (option Z)) :
  dated dates = [] -> groupby_size dates = [].
Proof.
  intros Hd. pose proof (groupby_size_length dates) as Hlen.
  unfold distinct_dates in Hlen. rewrite Hd in Hlen.
  destruct (groupby_size dates); [reflexivity | discriminate].
Qed.

Section NoDate.

Context `{Sklearn}.

(** X19.  A table none of whose admission dates parses: the constructor
    returns, the daily frame has no row, [predict_daily_admissions]
    returns the dictionary of the error, and the other two analyses
    raise. *)
Theorem table_without_a_date (h : store) (admission_data : loc)
    (cols : gmap string column) (doa dod : column) :
  h !! admission_data = Some (OFrame cols) ->
  cols !! "D.O.A"%string = Some doa ->
  cols !! "D.O.D"%string = Some dod ->
  dated (to_datetime doa) = [] ->
  exists self h',
    __init__ admission_data h = (Returned self, h')
    /\ daily_rows self h' = (Returned [], h')
    /\ (forall days_ahead,
          predict_daily_admissions self days_ahead h'
          = (Returned (DictError "Insufficient data for prediction"), h'))
    /\ (forall P, exists e, predict_busy_periods self P h' = (Raised e, h'))
    /\ analyze_capacity_requirements self h' = (Raised "ValueError", h').
Proof.
  intros Hl Hdoa Hdod Hnone.
  destruct (init_run _ _ _ _ _ Hl Hdoa Hdod) as (self & h' & Hinit & Hrows).
  rewrite (groupby_size_no_date _ Hnone) in Hrows.
  change (temporal_features []) with (@nil DailyRow) in Hrows.
  exists self, h'. split; [exact Hinit|]. split; [exact Hrows|].
  split; [|split].
  - intros days_ahead. unfold predict_daily_admissions.
    erewrite bind_run by exact Hrows. reflexivity.
  - intros P. unfold predict_busy_periods. erewrite bind_run by exact Hrows.
    unfold lift, predict_busy_periods_on, np_percentile.
    destruct (negb _); cbn [rbind map]; eauto.
  - unfold analyze_capacity_requirements. erewrite bind_run by exact Hrows.
    reflexivity.
Qed.

End NoDate.

Lemma table_without_a_date_witness :
  exists self h',
    __init__ 1%positive (Sample.caller_store Cases.undated) = (Returned self, h')
    /\ daily_rows self h' = (Returned [], h')
    /\ (forall days_ahead,
          @predict_daily_admissions Sample.estimators self days_ahead h'
          = (Returned (DictError "Insufficient data for prediction"), h'))
    /\ (forall P, exists e,
          @predict_busy_periods Sample.estimators self P h' = (Raised e, h'))
    /\ analyze_capacity_requirements self h' = (Raised "ValueError", h').
Proof.
  apply (@table_without_a_date Sample.estimators
           (Sample.caller_store Cases.undated) 1%positive
           (<["D.O.A"%string := ColText (map Some Cases.undated)]>
              (<["D.O.D"%string := ColText (map Some Cases.undated)]> ∅))
           (ColText (map Some Cases.undated)) (ColText (map Some Cases.undated)));
    reflexivity.
Defined.

(** ** [DataLoader._get_date_range] *)

(** X20.  [_get_date_range] gives nothing for a column that the frame does not
    have, and for one without a date that parses; otherwise the earliest
    and the latest of the dates that parse, each written as
    [YYYY-MM-DD]. *)
Theorem date_range_of_a_column (df : gmap string column) (date_col : string) :
  match _get_date_range df date_col with
  | None =>
      df !! date_col = None
      \/ exists c, df !! date_col = Some c /\ dated (to_datetime c) = []
  | Some (first, last) =>
      exists c tmin tmax,
        df !! date_col = Some c
        /\ least_of tmin (dated (to_datetime c))
        /\ greatest_of tmax (dated (to_datetime c))
        /\ first = Calendar.strftime_ymd tmin
        /\ last = Calendar.strftime_ymd tmax
  end.
Proof.
  unfold _get_date_range.
  destruct (df !! date_col) as [c|]; [|left; reflexivity].
  unfold series_min, series_max. fold (dated (to_datetime c)).
  destruct (dated (to_datetime c)) as [|t ts] eqn:E.
  - cbn. right. exists c. split; [reflexivity | exact E].
  - cbn. exists c, (fold_left Z.min ts t), (fold_left Z.max ts t).
    split; [reflexivity|]. rewrite E.
    split; [apply fold_min_least|]. split; [apply fold_max_greatest|].
    split; reflexivity.
Qed.

Example date_range_of_the_sparse_table :
  _get_date_range (<["D.O.A"%string := ColText (map Some Sample.sparse)]> ∅) "D.O.A"
  = Some ("2020-01-01", "2020-01-03")%string
  /\ _get_date_range (<["D.O.A"%string := ColText (map Some Cases.undated)]> ∅) "D.O.A"
     = None
  /\ _get_date_range (<["D.O.A"%string := ColText (map Some Sample.sparse)]> ∅) "D.O.D"
     = None.
Proof. repeat split. Qed.

(** ** [AdmissionAnalyzer._categorize_age] *)

Lemma Qle_bool_false (x y : Q) : Qle_bool x y = false <-> (y < x)%Q.
Proof.
  split.
  - intros Hf. apply Qnot_le_lt. intros Hle. apply Qle_bool_iff in Hle. congruence.
  - intros Hlt. destruct (Qle_bool x y) eqn:E; [|reflexivity].
    apply Qle_bool_iff in E. lra.
Qed.

Ltac age_cases :=
  repeat match goal with
  | |- context [Qle_bool ?a ?b] =>
      let E := fresh "E" in
      destruct (Qle_bool a b) eqn:E;
      [apply Qle_bool_iff in E | apply Qle_bool_false in E];
      cbn [andb]
  end.

(** X21.  [_categorize_age] by the bounds of [AGE_GROUPS]: an age is in
    the first group whose bounds hold it, so 80 is [Elderly (66-80)] and
    not [Very Elderly (80+)]; an age below 18 or above 120, and an age
    strictly between two groups, such as 35.5, is [Other]; a missing
    age, and no other, is [Unknown]. *)
Theorem categorize_age_groups (age : Q) :
  (_categorize_age (Some age) = "Young Adult (18-35)"%string <-> (18 <= age <= 35)%Q)
  /\ (_categorize_age (Some age) = "Middle Age (36-50)"%string <-> (36 <= age <= 50)%Q)
  /\ (_categorize_age (Some age) = "Older Adult (51-65)"%string <-> (51 <= age <= 65)%Q)
  /\ (_categorize_age (Some age) = "Elderly (66-80)"%string <-> (66 <= age <= 80)%Q)
  /\ (_categorize_age (Some age) = "Very Elderly (80+)"%string <-> (80 < age <= 120)%Q)
  /\ (_categorize_age (Some age) = "Other"%string
      <-> (age < 18 \/ 120 < age \/ 35 < age < 36 \/ 50 < age < 51 \/ 65 < age < 66)%Q)
  /\ _categorize_age (Some age) <> "Unknown"%string
  /\ _categorize_age None = "Unknown"%string.
Proof.
  unfold _categorize_age, AGE_GROUPS, first_group.
  change (inject_Z 18) with 18%Q. change (inject_Z 35) with 35%Q.
  change (inject_Z 36) with 36%Q. change (inject_Z 50) with 50%Q.
  change (inject_Z 51) with 51%Q. change (inject_Z 65) with 65%Q.
  change (inject_Z 66) with 66%Q. change (inject_Z 80) with 80%Q.
  change (inject_Z 120) with 120%Q.
  age_cases;
    repeat split; try discriminate; try reflexivity; intros; try lra;
    try (exfalso; lra).
Qed.

Example ages_on_the_bounds :
  map _categorize_age [Some 80%Q; Some (71 # 2); Some 17%Q; Some 121%Q; None]
  = ["Elderly (66-80)"; "Other"; "Other"; "Other"; "Unknown"]%string.
Proof. reflexivity. Qed.

(** ** [ChartGenerator.create_admission_prediction_chart] *)

Section Chart.

Context `{Sklearn}.

(** The band of the chart holds the line. *)
Lemma band_bounds (p : Z) : 0 <= p -> 0 <= lower_of p <= p /\ p <= upper_of p.
Proof.
  intros Hp. unfold lower_of, upper_of, Qtrunc. simpl.
  change (Z.pos (1 * 10)) with 10.
  pose proof (Z.quot_div_nonneg (p * 8) 10 ltac:(lia) ltac:(lia)) as H8.
  pose proof (Z.quot_div_nonneg (p * 12) 10 ltac:(lia) ltac:(lia)) as H12.
  rewrite H8, H12. split; [split|].
  - apply Z.div_pos; lia.
  - apply Z.div_le_upper_bound; lia.
  - apply Z.div_le_lower_bound; lia.
Qed.

(** X22.  [create_admission_prediction_chart] on what
    [predict_daily_admissions] returns: for the dictionary of the error,
    a figure with the annotation alone; for a forecast, the line of the
    predicted counts over the dates and a band that runs over the dates
    with the upper bounds and back over them with the lower bounds, as
    many abscissas as ordinates, every predicted count between its
    lower and its upper bound. *)
Theorem prediction_chart_of_a_result (rows : list DailyRow) (days_ahead : Z)
    (d : DailyPredictions) :
  predict_daily_admissions_on rows days_ahead = Returned d ->
  match d with
  | DictError _ =>
      create_admission_prediction_chart d
      = FigureAnnotation "No prediction data available"
  | DictForecast f =>
      exists line band title xt yt,
        create_admission_prediction_chart d = FigureTraces [line; band] title xt yt
        /\ scatter_x line = map date (future_predictions f)
        /\ scatter_y line = map predicted_admissions (future_predictions f)
        /\ scatter_x band = scatter_x line ++ rev (scatter_x line)
        /\ scatter_y band
           = map upper_of (scatter_y line) ++ rev (map lower_of (scatter_y line))
        /\ length (scatter_x band) = length (scatter_y band)
        /\ Forall (fun p => 0 <= lower_of p <= p /\ p <= upper_of p) (scatter_y line)
  end.
Proof.
  intros Hd. destruct d as [e|f]; [reflexivity|].
  eexists _, _, _, _, _. split; [reflexivity|]. cbn [scatter_x scatter_y].
  split; [reflexivity|]. split; [reflexivity|]. split; [reflexivity|].
  split; [reflexivity|]. split.
  - rewrite !length_app, !length_rev, !length_map. reflexivity.
  - pose proof (forecast_inv _ _ _ Hd) as Hlen.
    destruct (predict_daily_admissions_on_unfold rows Hlen)
      as (X & rs & best & last & rv & _ & _ & _ & _ & _ & _ & _ & Hret).
    rewrite Hret in Hd. injection Hd as <-. cbn [future_predictions].
    rewrite map_map. apply Forall_forall. intros p Hp.
    rewrite map_fmap in Hp. apply list_elem_of_fmap in Hp as (i & -> & _).
    apply band_bounds. cbn [point_of predicted_admissions]. apply Z.le_max_l.
Qed.

End Chart.

Lemma prediction_chart_of_a_result_witness :
  exists d,
    @predict_daily_admissions_on Sample.estimators Sample.rows60 7 = Returned d
    /\ match d with
       | DictError _ =>
           create_admission_prediction_chart d
           = FigureAnnotation "No prediction data available"
       | DictForecast f =>
           exists line band title xt yt,
             create_admission_prediction_chart d = FigureTraces [line; band] title xt yt
             /\ scatter_x line = map date (future_predictions f)
             /\ scatter_y line = map predicted_admissions (future_predictions f)
             /\ scatter_x band = scatter_x line ++ rev (scatter_x line)
             /\ scatter_y band
                = map upper_of (scatter_y line) ++ rev (map lower_of (scatter_y line))
             /\ length (scatter_x band) = length (scatter_y band)
             /\ Forall (fun p => 0 <= lower_of p <= p /\ p <= upper_of p) (scatter_y line)
       end.
Proof.
  eexists. split; [vm_compute; reflexivity|].
  apply (@prediction_chart_of_a_result Sample.estimators Sample.rows60 7).
  vm_compute. reflexivity.
Defined.

Example band_of_a_count : upper_of 7 = 8 /\ lower_of 7 = 5 /\ upper_of 5 = 6 /\ lower_of 5 = 4.
Proof. repeat split. Qed.
